(** * Inventory-system-backend: the slip routes (routes/slips.js)

    A shallow embedding of the sale-slip handlers: POST /api/slips (create),
    PUT /api/slips/:id (edit and cancellation) and DELETE /api/slips/:id,
    together with the pricing of a product line, over an explicit model of
    the three MongoDB collections the handlers touch (items, slips, income);
    then the reading of a slip, the item routes that write stock
    (routes/items.js) and the customer history (routes/customerHistory.js).

    Conventions.
    - JavaScript numbers are modelled as [Z]: quantities and prices are
      integer amounts, on which the arithmetic of the handlers is exact (up
      to 2^53).  Amounts with a fractional part, on which the floating-point
      arithmetic of the handlers rounds, are outside the model.
    - A request field that may be missing is an [option]; [None] is
      [undefined].  The operator [a || b] is modelled on each type by its
      falsy values: [undefined], the empty string and the number 0.  A field
      that is read as an array ([products]) is an array or is missing.
    - An identifier is one the driver accepts: with a malformed [:id] the
      lookup by identifier throws before any document is read or written,
      and the route answers with an error; that path is left out.
    - A collection is the list of its documents in the store's natural
      order; [findOne] returns the first document matching the filter.
    - [new Date()] is an input of the handlers ([Env.now]); so are the
      [_id] and [slipNumber] the Slip and Income models (which are not part
      of the routes file) give to a new document. *)

From Stdlib Require Import ZArith List String Ascii Bool Lia DecimalString.
Import ListNotations.

Local Open Scope string_scope.
Local Open Scope list_scope.
Local Open Scope Z_scope.

(** ** JavaScript values *)

Definition ObjectId := string.
Definition Date := Z.

(** Truthiness of an optional string: [undefined] and [''] are falsy. *)
Definition truthy (s : option string) : bool :=
  match s with
  | Some (String _ _) => true
  | _ => false
  end.

(** Truthiness of an optional number: [undefined] and [0] are falsy. *)
Definition truthyN (n : option Z) : bool :=
  match n with
  | Some z => negb (z =? 0)
  | None => false
  end.

(** [a || b] on optional strings. *)
Definition orS (a b : option string) : option string :=
  if truthy a then a else b.

(** [a || 'lit'] : the result is a string. *)
Definition orLit (a : option string) (lit : string) : string :=
  match a with
  | Some (String c s) => String c s
  | _ => lit
  end.

(** [a || b] on optional numbers. *)
Definition orN (a b : option Z) : option Z :=
  if truthyN a then a else b.

(** [a || 0] : the result is a number. *)
Definition orZero (a : option Z) : Z :=
  match a with
  | Some z => if (z =? 0) then 0 else z
  | None => 0
  end.

(** A number inside a template literal. *)
Definition showZ (z : Z) : string := NilZero.string_of_int (Z.to_int z).

(** An optional string inside a template literal. *)
Definition showS (s : option string) : string :=
  match s with
  | Some x => x
  | None => "undefined"
  end.

(** ** Documents *)

Module DiscountType.
Inductive t := none | bulk | manual.

Definition eqb (a b : t) : bool :=
  match a, b with
  | none, none | bulk, bulk | manual, manual => true
  | _, _ => false
  end.
End DiscountType.

(** An element [p] of [req.body.products]. *)
Module ReqProduct.
Record t := mk {
  productName : option string;
  itemName : option string;
  quantity : Z;
  basePrice : option Z;
  unitPrice : option Z;
  price : option Z;
  productType : option string;
  coverType : option string;
  plateCompany : option string;
  bikeName : option string;
  plateType : option string;
  formCompany : option string;
  formType : option string;
  formVariant : option string;
  category : option string;
  subcategory : option string;
  company : option string
}.
End ReqProduct.

(** A priced line, as the handlers build it for [slip.products].  The PUT
    handler builds lines without the three form fields: they are [None]
    there. *)
Module SlipProduct.
Record t := mk {
  productName : option string;
  productType : string;
  coverType : string;
  plateCompany : string;
  bikeName : string;
  plateType : string;
  formCompany : option string;
  formType : option string;
  formVariant : option string;
  quantity : Z;
  basePrice : Z;
  unitPrice : Z;
  discountAmount : Z;
  discountType : DiscountType.t;
  totalPrice : Z;
  category : string;
  subcategory : string;
  company : string
}.
End SlipProduct.

(** ** The pricing of a line *)

Definition bulkDiscountTypes : list string :=
  ["Aster Cover"; "Without Aster Cover"; "Calendar Cover"].

(** [Array.prototype.includes] on strings. *)
Definition includes (l : list string) (s : string) : bool :=
  existsb (String.eqb s) l.

Definition calculateBulkDiscount (coverType : string) (quantity basePrice : Z) : Z :=
  if includes bulkDiscountTypes coverType && (10 <=? quantity) then 10 else 0.

(** [p.basePrice || p.unitPrice || p.price || 0] *)
Definition basePriceOf (p : ReqProduct.t) : Z :=
  orZero (orN (orN (ReqProduct.basePrice p) (ReqProduct.unitPrice p))
              (ReqProduct.price p)).

(** The value of [(discountAmount, discountType)] after the bulk step, that
    is before the manual override is looked at. *)
Definition bulkStep (productType coverType : string) (quantity basePrice : Z)
  : Z * DiscountType.t :=
  if (productType =? "Cover")%string && truthy (Some coverType) then
    let bulkDiscount := calculateBulkDiscount coverType quantity basePrice in
    if 0 <? bulkDiscount then (bulkDiscount, DiscountType.bulk)
    else (0, DiscountType.none)
  else (0, DiscountType.none).

(** [p.unitPrice !== undefined ? p.unitPrice : basePrice - discountAmount] *)
Definition finalUnitPriceOf (p : ReqProduct.t) (basePrice discountAmount : Z) : Z :=
  match ReqProduct.unitPrice p with
  | Some u => u
  | None => basePrice - discountAmount
  end.

(** The manual override: the per-unit discount and its type at the end. *)
Definition manualStep (p : ReqProduct.t) (basePrice : Z) (bulk : Z * DiscountType.t)
  : Z * DiscountType.t :=
  match ReqProduct.unitPrice p with
  | Some u =>
      if negb (u =? basePrice - fst bulk)
      then (basePrice - finalUnitPriceOf p basePrice (fst bulk), DiscountType.manual)
      else bulk
  | None => bulk
  end.

(** The callback of [products.map] in the POST handler. *)
Definition processProduct (p : ReqProduct.t) : SlipProduct.t :=
  let productName := orS (ReqProduct.productName p) (ReqProduct.itemName p) in
  let quantity := ReqProduct.quantity p in
  let basePrice := basePriceOf p in
  let coverType := orLit (ReqProduct.coverType p) "" in
  let productType := orLit (ReqProduct.productType p) "Cover" in
  let bulk := bulkStep productType coverType quantity basePrice in
  let finalUnitPrice := finalUnitPriceOf p basePrice (fst bulk) in
  let final := manualStep p basePrice bulk in
  {| SlipProduct.productName := productName;
     SlipProduct.productType := productType;
     SlipProduct.coverType := coverType;
     SlipProduct.plateCompany := orLit (ReqProduct.plateCompany p) "";
     SlipProduct.bikeName := orLit (ReqProduct.bikeName p) "";
     SlipProduct.plateType := orLit (ReqProduct.plateType p) "";
     SlipProduct.formCompany := Some (orLit (ReqProduct.formCompany p) "");
     SlipProduct.formType := Some (orLit (ReqProduct.formType p) "");
     SlipProduct.formVariant := Some (orLit (ReqProduct.formVariant p) "");
     SlipProduct.quantity := quantity;
     SlipProduct.basePrice := basePrice;
     SlipProduct.unitPrice := finalUnitPrice;
     SlipProduct.discountAmount := fst final * quantity;
     SlipProduct.discountType := snd final;
     SlipProduct.totalPrice := quantity * finalUnitPrice;
     SlipProduct.category := orLit (ReqProduct.category p) "";
     SlipProduct.subcategory := orLit (ReqProduct.subcategory p) "";
     SlipProduct.company := orLit (ReqProduct.company p) "" |}.

(** The callback of [products.map] in the PUT handler: the same pricing,
    the form fields are not copied. *)
Definition processProductEdit (p : ReqProduct.t) : SlipProduct.t :=
  let productName := orS (ReqProduct.productName p) (ReqProduct.itemName p) in
  let quantity := ReqProduct.quantity p in
  let basePrice := basePriceOf p in
  let coverType := orLit (ReqProduct.coverType p) "" in
  let productType := orLit (ReqProduct.productType p) "Cover" in
  let bulk := bulkStep productType coverType quantity basePrice in
  let finalUnitPrice := finalUnitPriceOf p basePrice (fst bulk) in
  let final := manualStep p basePrice bulk in
  {| SlipProduct.productName := productName;
     SlipProduct.productType := productType;
     SlipProduct.coverType := coverType;
     SlipProduct.plateCompany := orLit (ReqProduct.plateCompany p) "";
     SlipProduct.bikeName := orLit (ReqProduct.bikeName p) "";
     SlipProduct.plateType := orLit (ReqProduct.plateType p) "";
     SlipProduct.formCompany := None;
     SlipProduct.formType := None;
     SlipProduct.formVariant := None;
     SlipProduct.quantity := quantity;
     SlipProduct.basePrice := basePrice;
     SlipProduct.unitPrice := finalUnitPrice;
     SlipProduct.discountAmount := fst final * quantity;
     SlipProduct.discountType := snd final;
     SlipProduct.totalPrice := quantity * finalUnitPrice;
     SlipProduct.category := orLit (ReqProduct.category p) "";
     SlipProduct.subcategory := orLit (ReqProduct.subcategory p) "";
     SlipProduct.company := orLit (ReqProduct.company p) "" |}.

(** A request line that only names a cover, its quantity and its prices. *)
Definition coverLine (name coverType : string) (quantity : Z)
           (basePrice unitPrice : option Z) : ReqProduct.t :=
  {| ReqProduct.productName := Some name;
     ReqProduct.itemName := None;
     ReqProduct.quantity := quantity;
     ReqProduct.basePrice := basePrice;
     ReqProduct.unitPrice := unitPrice;
     ReqProduct.price := None;
     ReqProduct.productType := None;
     ReqProduct.coverType := Some coverType;
     ReqProduct.plateCompany := None;
     ReqProduct.bikeName := None;
     ReqProduct.plateType := None;
     ReqProduct.formCompany := None;
     ReqProduct.formType := None;
     ReqProduct.formVariant := None;
     ReqProduct.category := None;
     ReqProduct.subcategory := None;
     ReqProduct.company := None |}.

(** ** The collections *)

Module Item.
Record t := mk {
  _id : ObjectId;
  name : string;
  sku : string;
  quantity : Z;
  isActive : bool;
  lastUpdated : Date
}.

(** [Item.findOne({ $or: [{ name: { $regex: re } }, { sku: { $regex: re } }],
    isActive: true })], for a compiled expression [re]. *)
Definition findOne (re : string -> bool) (db : list t) : option t :=
  find (fun it => (re (name it) || re (sku it)) && isActive it) db.

(** [Item.findByIdAndUpdate(id, { $inc: { quantity: d }, lastUpdated: now })]:
    the first document with this [_id] is updated, no document is created. *)
Fixpoint findByIdAndUpdate (id : ObjectId) (d : Z) (now : Date) (db : list t) : list t :=
  match db with
  | [] => []
  | it :: rest =>
      if (_id it =? id)%string
      then mk (_id it) (name it) (sku it) (quantity it + d) (isActive it) now :: rest
      else it :: findByIdAndUpdate id d now rest
  end.

(** The quantity of the document with this [_id] (0 when there is none). *)
Fixpoint quantityOf (id : ObjectId) (db : list t) : Z :=
  match db with
  | [] => 0
  | it :: rest => if (_id it =? id)%string then quantity it else quantityOf id rest
  end.
End Item.

Module Slip.
Record t := mk {
  _id : ObjectId;
  slipNumber : string;
  customerName : string;
  customerPhone : option string;
  paymentMethod : option string;
  notes : option string;
  products : list SlipProduct.t;
  subtotal : Z;
  totalAmount : Z;
  tax : option Z;
  discount : option Z;
  status : string;
  cancelledAt : option Date
}.

Definition findById (id : ObjectId) (db : list t) : option t :=
  find (fun s => (_id s =? id)%string) db.

(** [Slip.findByIdAndUpdate(id, updateData, { new: true })], where [doc] is
    the document after [updateData] is applied. *)
Fixpoint replaceById (id : ObjectId) (doc : t) (db : list t) : list t :=
  match db with
  | [] => []
  | s :: rest =>
      if (_id s =? id)%string then doc :: rest else s :: replaceById id doc rest
  end.

(** [Slip.findByIdAndDelete(id)]: the deleted document and what is left. *)
Fixpoint findByIdAndDelete (id : ObjectId) (db : list t) : option t * list t :=
  match db with
  | [] => (None, [])
  | s :: rest =>
      if (_id s =? id)%string then (Some s, rest)
      else let (d, rest') := findByIdAndDelete id rest in (d, s :: rest')
  end.
End Slip.

(** An element of [income.productsSold] as the POST handler builds it. *)
Module SoldProduct.
Record t := mk {
  productName : option string;
  sku : string;
  productType : string;
  coverType : string;
  plateCompany : string;
  bikeName : string;
  plateType : string;
  formCompany : string;
  formType : string;
  formVariant : string;
  quantity : Z;
  unitPrice : Z;
  totalPrice : Z;
  category : string;
  subcategory : string;
  company : string
}.
End SoldProduct.

Module Income.
(** [productsSold] is written in two shapes: the POST handler maps the
    lines of the slip, the PUT handler assigns [updateData.products]. *)
Inductive sold :=
| Mapped (l : list SoldProduct.t)
| Lines (l : list SlipProduct.t).

Record t := mk {
  _id : ObjectId;
  date : Date;
  totalIncome : Z;
  productsSold : sold;
  customerName : string;
  paymentMethod : string;
  slipNumber : option string;
  slipId : option ObjectId;
  notes : string;
  isActive : bool
}.

Definition eqo (a : option string) (b : string) : bool :=
  match a with
  | Some x => (x =? b)%string
  | None => false
  end.

(** The filter [{ $or: [{ slipId }, { slipNumber }], isActive: true }]. *)
Definition linked (slipId : ObjectId) (slipNumber : string) (inc : t) : bool :=
  (eqo (Income.slipId inc) slipId || eqo (Income.slipNumber inc) slipNumber)
  && isActive inc.

(** [Income.updateMany(filter, update)] *)
Definition updateMany (filter : t -> bool) (update : t -> t) (db : list t) : list t :=
  map (fun inc => if filter inc then update inc else inc) db.
End Income.

Record Store := mkStore {
  items : list Item.t;
  slips : list Slip.t;
  incomes : list Income.t
}.

(** ** Requests, responses and control flow *)

Record Env := mkEnv {
  now : Date;
  newSlipId : ObjectId;
  newSlipNumber : string;
  newIncomeId : ObjectId
}.

Record CreateReq := mkCreateReq {
  c_customerName : option string;
  c_subtotal : option Z;
  c_totalAmount : option Z;
  c_products : option (list ReqProduct.t)
}.

Record UpdateReq := mkUpdateReq {
  u_customerName : option string;
  u_customerPhone : option string;
  u_paymentMethod : option string;
  u_notes : option string;
  u_products : option (list ReqProduct.t);
  u_subtotal : option Z;
  u_totalAmount : option Z;
  u_tax : option Z;
  u_discount : option Z;
  u_status : option string
}.

Inductive Response :=
| Reject (status : Z) (error : string)   (* res.status(status).json({ error }) *)
| Failed (error : string)                (* status 500, { error, details } *)
| Created (slip : Slip.t)                (* status 201 *)
| Updated (slip : Slip.t)
| Deleted.

(** What running a piece of a handler comes to: it goes on with a value,
    it leaves the handler with [return res.status(...).json({ error })], or
    it throws. *)
Inductive Step (A : Type) :=
| Next (a : A)
| Return (status : Z) (error : string)
| Throw.
Arguments Next {A} a.
Arguments Return {A} status error.
Arguments Throw {A}.

(** The transaction of a handler.  Writes are made on the session's copy
    of the store; they reach the store when the handler gets to
    [commitTransaction].  A handler that leaves early or throws leaves the
    store as it was ([abortTransaction], or a session that never commits). *)
Definition settle (failure : string) (st : Store) (r : Step (Response * Store))
  : Response * Store :=
  match r with
  | Next (resp, st') => (resp, st')
  | Return status error => (Reject status error, st)
  | Throw => (Failed failure, st)
  end.

(** A case-insensitive literal search: what a regular expression without
    metacharacters does.  It is the matcher of the worked examples. *)
Definition lower (c : ascii) : ascii :=
  let n := nat_of_ascii c in
  if (Nat.leb 65 n && Nat.leb n 90)%bool then ascii_of_nat (n + 32) else c.

Fixpoint lowercase (s : string) : string :=
  match s with
  | EmptyString => EmptyString
  | String c rest => String (lower c) (lowercase rest)
  end.

Fixpoint contains (pat s : string) : bool :=
  prefix pat s ||
  match s with
  | EmptyString => false
  | String _ rest => contains pat rest
  end.

Definition literal_i (pat : string) : option (string -> bool) :=
  Some (fun s => contains (lowercase pat) (lowercase s)).

(** ** Views of the item collection *)

(** The total of the quantities a list of updates carries for one item. *)
Fixpoint totalFor (id : ObjectId) (updates : list (ObjectId * Z)) : Z :=
  match updates with
  | [] => 0
  | (id', q) :: rest =>
      if (id' =? id)%string then q + totalFor id rest else totalFor id rest
  end.

(** The stock side of the collection: identifier and quantity. *)
Definition qview (db : list Item.t) : list (ObjectId * Z) :=
  map (fun it => (Item._id it, Item.quantity it)) db.

(** What a lookup and an update by [_id] read: everything but the quantity
    and the time stamp. *)
Definition kview (db : list Item.t) : list (ObjectId * string * string * bool) :=
  map (fun it => (Item._id it, Item.name it, Item.sku it, Item.isActive it)) db.

(** [$inc] on the stock side. *)
Fixpoint bump (id : ObjectId) (d : Z) (l : list (ObjectId * Z)) : list (ObjectId * Z) :=
  match l with
  | [] => []
  | (id', q) :: rest =>
      if (id' =? id)%string then (id', q + d) :: rest else (id', q) :: bump id d rest
  end.

Definition bumps (updates : list (ObjectId * Z)) (l : list (ObjectId * Z)) :=
  fold_left (fun l u => bump (fst u) (snd u) l) updates l.

Definition negated (updates : list (ObjectId * Z)) : list (ObjectId * Z) :=
  map (fun u => (fst u, - snd u)) updates.

Fixpoint qget (id : ObjectId) (l : list (ObjectId * Z)) : Z :=
  match l with
  | [] => 0
  | (id', q) :: rest => if (id' =? id)%string then q else qget id rest
  end.

Definition qhas (id : ObjectId) (l : list (ObjectId * Z)) : bool :=
  existsb (fun e => (fst e =? id)%string) l.

(** The data-model invariants of the item collection. *)
Definition uniqueIds (db : list Item.t) : Prop := NoDup (map Item._id db).

Definition nonNegative (db : list Item.t) : Prop :=
  Forall (fun it => 0 <= Item.quantity it) db.

(** The insufficient-stock rejection. *)
Definition isInsufficient (r : Response) : bool :=
  match r with
  | Reject 400 error => prefix "Insufficient stock for '" error
  | _ => false
  end.

Definition isCreated (r : Response) : bool :=
  match r with
  | Created _ => true
  | _ => false
  end.

(** ** A small shop, for the worked examples *)

Definition exEnv : Env :=
  {| now := 1000; newSlipId := "s9"; newSlipNumber := "SLP-9"; newIncomeId := "n9" |}.

Definition seatCover (quantity : Z) : Item.t :=
  Item.mk "i1" "Seat Cover" "CV-1" quantity true 0.

Definition line (name : string) (quantity : Z) : ReqProduct.t :=
  {| ReqProduct.productName := Some name;
     ReqProduct.itemName := None;
     ReqProduct.quantity := quantity;
     ReqProduct.basePrice := Some 100;
     ReqProduct.unitPrice := None;
     ReqProduct.price := None;
     ReqProduct.productType := None;
     ReqProduct.coverType := None;
     ReqProduct.plateCompany := None;
     ReqProduct.bikeName := None;
     ReqProduct.plateType := None;
     ReqProduct.formCompany := None;
     ReqProduct.formType := None;
     ReqProduct.formVariant := None;
     ReqProduct.category := None;
     ReqProduct.subcategory := None;
     ReqProduct.company := None |}.

Definition order (products : list ReqProduct.t) : CreateReq :=
  {| c_customerName := Some "Asif";
     c_subtotal := Some 600;
     c_totalAmount := Some 600;
     c_products := Some products |}.

Definition shop (quantity : Z) : Store :=
  {| items := [seatCover quantity]; slips := []; incomes := [] |}.

(** A slip of two seat covers, with the three kinds of income entries: one
    linked by [slipId], one by [slipNumber] only, one of another slip. *)
Definition soldSlip (cancelledAt : option Date) : Slip.t :=
  {| Slip._id := "s1";
     Slip.slipNumber := "SLP-1";
     Slip.customerName := "Asif";
     Slip.customerPhone := None;
     Slip.paymentMethod := None;
     Slip.notes := None;
     Slip.products := [processProduct (line "Seat Cover" 2)];
     Slip.subtotal := 200;
     Slip.totalAmount := 200;
     Slip.tax := None;
     Slip.discount := None;
     Slip.status := match cancelledAt with Some _ => "Cancelled" | None => "Paid" end;
     Slip.cancelledAt := cancelledAt |}.

Definition entry (id : ObjectId) (slipId : option ObjectId)
           (slipNumber : option string) (isActive : bool) : Income.t :=
  {| Income._id := id;
     Income.date := 10;
     Income.totalIncome := 200;
     Income.productsSold := Income.Mapped [];
     Income.customerName := "Asif";
     Income.paymentMethod := "Cash";
     Income.slipNumber := slipNumber;
     Income.slipId := slipId;
     Income.notes := "Sale";
     Income.isActive := isActive |}.

Definition books (quantity : Z) (cancelledAt : option Date) : Store :=
  {| items := [seatCover quantity];
     slips := [soldSlip cancelledAt];
     incomes := [entry "n1" (Some "s1") (Some "SLP-1")
                       match cancelledAt with Some _ => false | None => true end;
                 entry "n2" None (Some "SLP-1")
                       match cancelledAt with Some _ => false | None => true end;
                 entry "n3" (Some "s2") (Some "SLP-2") true] |}.

Definition edit (products : option (list ReqProduct.t)) (status : option string)
  : UpdateReq :=
  {| u_customerName := None;
     u_customerPhone := None;
     u_paymentMethod := None;
     u_notes := None;
     u_products := products;
     u_subtotal := None;
     u_totalAmount := None;
     u_tax := None;
     u_discount := None;
     u_status := status |}.

(** ** Reading a priced line *)

(** The line is one the bulk rule is for. *)
Definition eligible (l : SlipProduct.t) : Prop :=
  SlipProduct.productType l = "Cover"
  /\ In (SlipProduct.coverType l) bulkDiscountTypes
  /\ 10 <= SlipProduct.quantity l.

(** The per-unit bulk discount that applies to the line: the value of
    [discountAmount] when the manual override is looked at. *)
Definition bulkDiscountOf (l : SlipProduct.t) : Z :=
  fst (bulkStep (SlipProduct.productType l) (SlipProduct.coverType l)
                (SlipProduct.quantity l) (SlipProduct.basePrice l)).

(** A price field the [||] chain passes over: missing, or 0. *)
Definition passedOver (x : option Z) : Prop := x = None \/ x = Some 0.

From Stdlib Require Import Permutation Sorted.

(** ** The other routes of the slips file *)

(** GET /api/slips/:id *)
Definition getSlip (id : ObjectId) (st : Store) : Step Slip.t :=
  match Slip.findById id (slips st) with
  | None => Return 404 "Slip not found"
  | Some slip => Next slip
  end.

(** ** The item routes (routes/items.js) *)

Inductive ItemResponse :=
| ItemReject (status : Z) (error : string)  (* res.status(status).json({ error }) *)
| ItemJson (item : Item.t)                  (* res.json(item) *)
| StockUpdated (item : Item.t)              (* 'Stock updated successfully' *)
| ItemDeleted.                              (* 'Item deleted successfully' *)

(** [Item.findById(id)]: the flag [isActive] is not looked at. *)
Definition findItemById (id : ObjectId) (db : list Item.t) : option Item.t :=
  find (fun it => (Item._id it =? id)%string) db.

(** [item.save()] of a document that was read by its [_id]. *)
Fixpoint saveItem (item : Item.t) (db : list Item.t) : list Item.t :=
  match db with
  | [] => []
  | it :: rest =>
      if (Item._id it =? Item._id item)%string then item :: rest
      else it :: saveItem item rest
  end.

(** GET /api/items/:id *)
Definition getItem (id : ObjectId) (db : list Item.t) : ItemResponse :=
  match findItemById id db with
  | None => ItemReject 404 "Item not found"
  | Some item =>
      if negb (Item.isActive item) then ItemReject 404 "Item has been deleted"
      else ItemJson item
  end.

(** PATCH /api/items/:id/stock, with [{ quantity, operation = 'set' }] of
    the request body. *)
Definition patchStock (now : Date) (id : ObjectId) (quantity : option Z)
           (operation : option string) (db : list Item.t)
  : ItemResponse * list Item.t :=
  let operation := match operation with Some o => o | None => "set" end in
  match quantity with
  | None => (ItemReject 400 "Valid quantity is required", db)
  | Some quantity =>
      if quantity <? 0 then (ItemReject 400 "Valid quantity is required", db)
      else
        match findItemById id db with
        | None => (ItemReject 404 "Item not found", db)
        | Some item =>
            let save newQuantity :=
              let item' := Item.mk (Item._id item) (Item.name item) (Item.sku item)
                                   newQuantity (Item.isActive item) now in
              (StockUpdated item', saveItem item' db) in
            if (operation =? "add")%string then save (Item.quantity item + quantity)
            else if (operation =? "subtract")%string then
              let newQuantity := Item.quantity item - quantity in
              if newQuantity <? 0 then (ItemReject 400 "Insufficient stock", db)
              else save newQuantity
            else save quantity
        end
  end.

(** [Item.findByIdAndUpdate(id, { isActive: false, lastUpdated: now })]:
    whether a document was found, and the collection afterwards. *)
Fixpoint deactivateItem (id : ObjectId) (now : Date) (db : list Item.t)
  : bool * list Item.t :=
  match db with
  | [] => (false, [])
  | it :: rest =>
      if (Item._id it =? id)%string
      then (true, Item.mk (Item._id it) (Item.name it) (Item.sku it) (Item.quantity it)
                          false now :: rest)
      else let (found, rest') := deactivateItem id now rest in (found, it :: rest')
  end.

(** DELETE /api/items/:id: the soft delete. *)
Definition deleteItem (now : Date) (id : ObjectId) (db : list Item.t)
  : ItemResponse * list Item.t :=
  match deactivateItem id now db with
  | (false, _) => (ItemReject 404 "Item not found", db)
  | (true, db') => (ItemDeleted, db')
  end.

(** The collection without the documents of one [_id]. *)
Definition withoutItem (id : ObjectId) (db : list Item.t) : list Item.t :=
  filter (fun it => negb (Item._id it =? id)%string) db.

(** An item request body, as POST /api/items reads it. *)
Module ItemReq.
Record t := mk {
  name : option string;
  sku : option string;
  productType : option string;
  coverType : option string;
  plateCompany : option string;
  bikeName : option string;
  plateType : option string;
  formCompany : option string;
  formType : option string;
  formVariant : option string;
  category : option string;
  subcategory : option string;
  company : option string;
  quantity : option Z;
  price : option Z;
  basePrice : option Z;
  description : option string;
  minStockLevel : option Z;
  maxStockLevel : option Z;
  supplier : option string;
  costPrice : option Z
}.
End ItemReq.

(** The fields [new Item({ ... })] is given by POST /api/items. *)
Module NewItem.
Record t := mk {
  name : string;
  sku : string;
  productType : string;
  coverType : string;
  plateCompany : string;
  bikeName : string;
  plateType : string;
  formCompany : string;
  formType : string;
  formVariant : string;
  category : string;
  subcategory : string;
  company : string;
  quantity : Z;
  price : Z;
  basePrice : Z;
  costPrice : Z;
  description : string;
  minStockLevel : Z;
  maxStockLevel : Z;
  supplier : string
}.
End NewItem.

(** [x < 0] for a field that may be missing: [undefined < 0] is false. *)
Definition negativeN (x : option Z) : bool :=
  match x with
  | Some z => z <? 0
  | None => false
  end.

(** [x === 'lit'] for a field that may be missing. *)
Definition isLit (x : option string) (lit : string) : bool :=
  match x with
  | Some s => (s =? lit)%string
  | None => false
  end.

(** [x || d] for a number with a default. *)
Definition orDefault (x : option Z) (d : Z) : Z :=
  match x with
  | Some z => if z =? 0 then d else z
  | None => d
  end.

(** [productType === t ? (x || '') : ''] *)
Definition gated (productType : option string) (t : string) (x : option string) : string :=
  if isLit productType t then orLit x "" else "".

(** POST /api/items up to [new Item({ ... })]: the rejection of the
    request, or the fields of the new document.  [trim] and [toUpperCase]
    are the string methods of JavaScript; the SKU is looked up among the
    active items as it is sent, in upper case. *)
Definition postItem (trim toUpperCase : string -> string) (req : ItemReq.t)
           (db : list Item.t) : Step NewItem.t :=
  let productType := ItemReq.productType req in
  let coverType := ItemReq.coverType req in
  let plateCompany := ItemReq.plateCompany req in
  let bikeName := ItemReq.bikeName req in
  let plateType := ItemReq.plateType req in
  match ItemReq.name req, ItemReq.sku req with
  | Some (String c n), Some (String d k) =>
      let name := String c n in
      let sku := String d k in
      if negativeN (ItemReq.quantity req) || negativeN (ItemReq.price req)
      then Return 400 "Quantity and price must be non-negative"
      else
        match find (fun it => (Item.sku it =? toUpperCase sku)%string && Item.isActive it) db with
        | Some existingItem => Return 400 "SKU already exists"
        | None =>
            if isLit productType "Cover" && negb (truthy coverType)
            then Return 400 "Cover Type is required when Product Type is Cover"
            else if isLit productType "Plate" && negb (isLit bikeName "Plastic Plate")
                    && negb (truthy bikeName)
            then Return 400 "Bike Name is required for Plate products (except Plastic Plate)"
            else if isLit productType "Plate" && negb (isLit bikeName "Plastic Plate")
                    && negb (truthy plateType)
            then Return 400 "Plate Type is required for Plate products (except Plastic Plate)"
            else if isLit productType "Plate" && negb (isLit bikeName "Plastic Plate")
                    && isLit bikeName "70" && negb (truthy plateCompany)
            then Return 400 "Company is required for Bike 70"
            else
              Next {| NewItem.name := trim name;
                      NewItem.sku := trim (toUpperCase sku);
                      NewItem.productType := orLit productType "Cover";
                      NewItem.coverType := gated productType "Cover" coverType;
                      NewItem.plateCompany := gated productType "Plate" plateCompany;
                      NewItem.bikeName := gated productType "Plate" bikeName;
                      NewItem.plateType := gated productType "Plate" plateType;
                      NewItem.formCompany := gated productType "Form" (ItemReq.formCompany req);
                      NewItem.formType := gated productType "Form" (ItemReq.formType req);
                      NewItem.formVariant := gated productType "Form" (ItemReq.formVariant req);
                      NewItem.category := orLit (ItemReq.category req) "General";
                      NewItem.subcategory := orLit (ItemReq.subcategory req) "";
                      NewItem.company := orLit (ItemReq.company req) "";
                      NewItem.quantity := orZero (ItemReq.quantity req);
                      NewItem.price := orZero (ItemReq.price req);
                      NewItem.basePrice := orZero (orN (ItemReq.basePrice req) (ItemReq.price req));
                      NewItem.costPrice := orZero (ItemReq.costPrice req);
                      NewItem.description := orLit (ItemReq.description req) "";
                      NewItem.minStockLevel := orDefault (ItemReq.minStockLevel req) 10;
                      NewItem.maxStockLevel := orDefault (ItemReq.maxStockLevel req) 1000;
                      NewItem.supplier := orLit (ItemReq.supplier req) "" |}
        end
  | _, _ => Return 400 "Name and SKU are required"
  end.

(** The two string methods on ASCII text, for the worked examples:
    [toUpperCase], and [trim] where the only white space is the space
    character. *)
Definition upper (c : ascii) : ascii :=
  let n := nat_of_ascii c in
  if (Nat.leb 97 n && Nat.leb n 122)%bool then ascii_of_nat (n - 32) else c.

Fixpoint uppercase (s : string) : string :=
  match s with
  | EmptyString => EmptyString
  | String c rest => String (upper c) (uppercase rest)
  end.

Fixpoint trimStart (s : string) : string :=
  match s with
  | EmptyString => EmptyString
  | String c rest => if Ascii.eqb c " "%char then trimStart rest else s
  end.

Fixpoint trimEnd (s : string) : string :=
  match s with
  | EmptyString => EmptyString
  | String c rest =>
      match trimEnd rest with
      | EmptyString => if Ascii.eqb c " "%char then EmptyString else String c EmptyString
      | kept => String c kept
      end
  end.

Definition trimSpaces (s : string) : string := trimEnd (trimStart s).

(** ** The customer history (routes/customerHistory.js) *)

(** The filter of the history query: the name matches the compiled
    expression [re], the slip is not cancelled, and its [createdAt] (a field
    the record here does not carry) is within the dates asked, [inRange]. *)
Definition inHistory (re : string -> bool) (inRange : Slip.t -> bool) (slip : Slip.t)
  : bool :=
  re (Slip.customerName slip) && negb (Slip.status slip =? "Cancelled")%string
  && inRange slip.

(** [products?.reduce((pSum, p) => pSum + (p.quantity || 0), 0) || 0] *)
Definition quantityOfLines (products : list SlipProduct.t) : Z :=
  orZero (Some (fold_left (fun pSum p => pSum + orZero (Some (SlipProduct.quantity p)))
                          products 0)).

(** [summary.totalAmount] *)
Definition historyTotalAmount (slips : list Slip.t) : Z :=
  fold_left (fun sum slip => sum + orZero (Some (Slip.totalAmount slip))) slips 0.

(** [summary.totalProducts] *)
Definition historyTotalProducts (slips : list Slip.t) : Z :=
  fold_left (fun sum slip => sum + quantityOfLines (Slip.products slip)) slips 0.

(** An entry of [monthlyData] or [weeklyData]; [label] is its [month] or
    [week] field. *)
Module Bucket.
Record t := mk {
  label : string;
  slips : list Slip.t;
  totalAmount : Z;
  totalProducts : Z;
  slipCount : Z
}.
End Bucket.

(** The body of [slips.forEach] of a grouping, on the object as the list of
    its entries in the order they were set. *)
Fixpoint addToBucket (key label : string) (slip : Slip.t)
         (data : list (string * Bucket.t)) : list (string * Bucket.t) :=
  match data with
  | [] =>
      [(key, {| Bucket.label := label;
                Bucket.slips := [] ++ [slip];
                Bucket.totalAmount := 0 + orZero (Some (Slip.totalAmount slip));
                Bucket.totalProducts := 0 + quantityOfLines (Slip.products slip);
                Bucket.slipCount := 0 + 1 |})]
  | (k, b) :: rest =>
      if (k =? key)%string
      then (k, {| Bucket.label := Bucket.label b;
                  Bucket.slips := Bucket.slips b ++ [slip];
                  Bucket.totalAmount :=
                    Bucket.totalAmount b + orZero (Some (Slip.totalAmount slip));
                  Bucket.totalProducts :=
                    Bucket.totalProducts b + quantityOfLines (Slip.products slip);
                  Bucket.slipCount := Bucket.slipCount b + 1 |}) :: rest
      else (k, b) :: addToBucket key label slip rest
  end.

(** [monthlyData] and [weeklyData]: [keyOf] and [labelOf] stand for the
    month (or week) key and label the handler derives from the date of the
    slip. *)
Definition bucketsOf (keyOf labelOf : Slip.t -> string) (slips : list Slip.t)
  : list (string * Bucket.t) :=
  fold_left (fun data slip => addToBucket (keyOf slip) (labelOf slip) slip data) slips [].

(** A value of [productsMap]. *)
Module ProductStat.
Record t := mk {
  productName : string;
  quantity : Z;
  totalAmount : Z;
  slipCount : Z;
  productType : string;
  coverType : string;
  plateCompany : string;
  bikeName : string;
  plateType : string;
  formCompany : string;
  formType : string;
  formVariant : string
}.
End ProductStat.

(** The body of [slip.products?.forEach], on the map as the list of its
    values in insertion order; the key of a value is its [productName]. *)
Fixpoint recordProduct (product : SlipProduct.t) (productsMap : list ProductStat.t)
  : list ProductStat.t :=
  let key := orLit (SlipProduct.productName product) "Unknown" in
  match productsMap with
  | [] =>
      [{| ProductStat.productName := key;
          ProductStat.quantity := orZero (Some (SlipProduct.quantity product));
          ProductStat.totalAmount := orZero (Some (SlipProduct.totalPrice product));
          ProductStat.slipCount := 1;
          ProductStat.productType := orLit (Some (SlipProduct.productType product)) "Cover";
          ProductStat.coverType := SlipProduct.coverType product;
          ProductStat.plateCompany := SlipProduct.plateCompany product;
          ProductStat.bikeName := SlipProduct.bikeName product;
          ProductStat.plateType := SlipProduct.plateType product;
          ProductStat.formCompany := orLit (SlipProduct.formCompany product) "";
          ProductStat.formType := orLit (SlipProduct.formType product) "";
          ProductStat.formVariant := orLit (SlipProduct.formVariant product) "" |}]
  | existing :: rest =>
      if (ProductStat.productName existing =? key)%string
      then {| ProductStat.productName := ProductStat.productName existing;
              ProductStat.quantity :=
                ProductStat.quantity existing + orZero (Some (SlipProduct.quantity product));
              ProductStat.totalAmount :=
                ProductStat.totalAmount existing
                + orZero (Some (SlipProduct.totalPrice product));
              ProductStat.slipCount := ProductStat.slipCount existing + 1;
              ProductStat.productType := ProductStat.productType existing;
              ProductStat.coverType := ProductStat.coverType existing;
              ProductStat.plateCompany := ProductStat.plateCompany existing;
              ProductStat.bikeName := ProductStat.bikeName existing;
              ProductStat.plateType := ProductStat.plateType existing;
              ProductStat.formCompany := ProductStat.formCompany existing;
              ProductStat.formType := ProductStat.formType existing;
              ProductStat.formVariant := ProductStat.formVariant existing |} :: rest
      else existing :: recordProduct product rest
  end.

(** [productsMap] after the two nested [forEach]. *)
Definition productsMapOf (slips : list Slip.t) : list ProductStat.t :=
  fold_left (fun m slip => fold_left (fun m product => recordProduct product m)
                                     (Slip.products slip) m)
            slips [].

(** [Array.prototype.sort((a, b) => b.quantity - a.quantity)]: the sort is
    stable, an element goes after the ones it does not exceed. *)
Fixpoint insertByQuantity (a : ProductStat.t) (sorted : list ProductStat.t)
  : list ProductStat.t :=
  match sorted with
  | [] => [a]
  | b :: rest =>
      if ProductStat.quantity a <=? ProductStat.quantity b
      then b :: insertByQuantity a rest
      else a :: b :: rest
  end.

Definition sortByQuantity (l : list ProductStat.t) : list ProductStat.t :=
  fold_left (fun sorted a => insertByQuantity a sorted) l [].

(** [products] of the response. *)
Definition historyProducts (slips : list Slip.t) : list ProductStat.t :=
  sortByQuantity (productsMapOf slips).

(** The sum of a field over a list. *)
Definition sumOf {A : Type} (f : A -> Z) (l : list A) : Z :=
  fold_right (fun a acc => f a + acc) 0 l.

(** The number of lines of a list of slips. *)
Definition lineCount (slips : list Slip.t) : Z :=
  sumOf (fun slip => Z.of_nat (List.length (Slip.products slip))) slips.

(** The entry of May 2024 for two slips of two seat covers each. *)
Definition mayEntry : Bucket.t :=
  {| Bucket.label := "May 2024";
     Bucket.slips := [soldSlip None; soldSlip None];
     Bucket.totalAmount := 400;
     Bucket.totalProducts := 4;
     Bucket.slipCount := 2 |}.

(** ** The handlers *)

Section Routes.

(** [new RegExp(pattern, 'i')]: [None] when the pattern is not a regular
    expression (the constructor throws a SyntaxError), otherwise the test
    the store runs on a string field. *)
Variable RegExp_i : string -> option (string -> bool).

(** [new RegExp(undefined)] and [new RegExp('')] are both the empty
    pattern. *)
Definition patternOf (productName : option string) : string :=
  match productName with
  | Some s => s
  | None => ""
  end.

(** The lookup of every loop; [Throw] when the expression does not
    compile. *)
Definition lookup (productName : option string) (db : list Item.t)
  : Step (option Item.t) :=
  match RegExp_i (patternOf productName) with
  | None => Throw
  | Some re => Next (Item.findOne re db)
  end.

Definition notFoundMsg (productName : option string) : string :=
  ("Product '" ++ showS productName ++ "' not found in inventory")%string.

Definition insufficientMsg (productName : option string) (available : Z) : string :=
  ("Insufficient stock for '" ++ showS productName ++ "'. Available: "
     ++ showZ available)%string.

(** POST: the loop that resolves and checks every line; its value is
    [productUpdates]. *)
Fixpoint checkProducts (db : list Item.t) (products : list ReqProduct.t)
  : Step (list (ObjectId * Z)) :=
  match products with
  | [] => Next []
  | p :: rest =>
      let productName := orS (ReqProduct.productName p) (ReqProduct.itemName p) in
      let quantity := ReqProduct.quantity p in
      match lookup productName db with
      | Throw => Throw
      | Return status error => Return status error
      | Next None => Return 400 (notFoundMsg productName)
      | Next (Some inventoryItem) =>
          if Item.quantity inventoryItem <? quantity
          then Return 400 (insufficientMsg productName (Item.quantity inventoryItem))
          else
            match checkProducts db rest with
            | Next productUpdates =>
                Next ((Item._id inventoryItem, quantity) :: productUpdates)
            | other => other
            end
      end
  end.

(** The loop [for (const update of productUpdates)] that reduces stock. *)
Definition reduceStock (now : Date) (productUpdates : list (ObjectId * Z))
           (db : list Item.t) : list Item.t :=
  fold_left (fun db update => Item.findByIdAndUpdate (fst update) (- snd update) now db)
            productUpdates db.

(** Modelled from the spec: the Income schema (models/income.js) is not
    among the sources, and the POST handler does not set [isActive].  An
    entry mirrors a committed slip and its flag is "set false when the source
    slip is cancelled": a new entry is active. *)
Definition newIncomeIsActive : bool := true.

(** [newSlip.products.map(...)] of the income record. *)
Definition soldOf (p : SlipProduct.t) : SoldProduct.t :=
  {| SoldProduct.productName := SlipProduct.productName p;
     SoldProduct.sku := "";
     SoldProduct.productType := orLit (Some (SlipProduct.productType p)) "Cover";
     SoldProduct.coverType := SlipProduct.coverType p;
     SoldProduct.plateCompany := SlipProduct.plateCompany p;
     SoldProduct.bikeName := SlipProduct.bikeName p;
     SoldProduct.plateType := SlipProduct.plateType p;
     SoldProduct.formCompany := orLit (SlipProduct.formCompany p) "";
     SoldProduct.formType := orLit (SlipProduct.formType p) "";
     SoldProduct.formVariant := orLit (SlipProduct.formVariant p) "";
     SoldProduct.quantity := SlipProduct.quantity p;
     SoldProduct.unitPrice := SlipProduct.unitPrice p;
     SoldProduct.totalPrice := SlipProduct.totalPrice p;
     SoldProduct.category := SlipProduct.category p;
     SoldProduct.subcategory := SlipProduct.subcategory p;
     SoldProduct.company := SlipProduct.company p |}.

(** The body of [router.post('/')], on the session's store. *)
Definition postBody (env : Env) (req : CreateReq) (st : Store)
  : Step (Response * Store) :=
  match c_products req with
  | None | Some [] => Return 400 "Products cannot be empty"
  | Some products =>
      match c_subtotal req, c_totalAmount req with
      | Some subtotal, Some totalAmount =>
          match checkProducts (items st) products with
          | Throw => Throw
          | Return status error => Return status error
          | Next productUpdates =>
              let processedProducts := map processProduct products in
              let newSlip :=
                {| Slip._id := newSlipId env;
                   Slip.slipNumber := newSlipNumber env;
                   Slip.customerName := orLit (c_customerName req) "Walk-in Customer";
                   Slip.customerPhone := None;
                   Slip.paymentMethod := None;
                   Slip.notes := None;
                   Slip.products := processedProducts;
                   Slip.subtotal := subtotal;
                   Slip.totalAmount := totalAmount;
                   Slip.tax := None;
                   Slip.discount := None;
                   Slip.status := "Paid";
                   Slip.cancelledAt := None |} in
              let items' := reduceStock (now env) productUpdates (items st) in
              let incomeRecord :=
                {| Income._id := newIncomeId env;
                   Income.date := now env;
                   Income.totalIncome := totalAmount;
                   Income.productsSold := Income.Mapped (map soldOf (Slip.products newSlip));
                   Income.customerName := Slip.customerName newSlip;
                   Income.paymentMethod := orLit (Slip.paymentMethod newSlip) "Cash";
                   Income.slipNumber := Some (Slip.slipNumber newSlip);
                   Income.slipId := Some (Slip._id newSlip);
                   Income.notes := ("Sale from slip " ++ Slip.slipNumber newSlip)%string;
                   Income.isActive := newIncomeIsActive |} in
              Next (Created newSlip,
                    {| items := items';
                       slips := slips st ++ [newSlip];
                       incomes := incomes st ++ [incomeRecord] |})
          end
      | _, _ => Return 400 "Subtotal and totalAmount required"
      end
  end.

(** POST /api/slips *)
Definition createSlip (env : Env) (req : CreateReq) (st : Store) : Response * Store :=
  settle "Failed to create slip" st (postBody env req st).

(** PUT: the loop that gives the quantities of the existing lines back. *)
Fixpoint restoreProducts (now : Date) (products : list SlipProduct.t)
         (db : list Item.t) : Step (list Item.t) :=
  match products with
  | [] => Next db
  | oldProduct :: rest =>
      let productName := SlipProduct.productName oldProduct in
      let oldQuantity := SlipProduct.quantity oldProduct in
      match lookup productName db with
      | Throw => Throw
      | Return status error => Return status error
      | Next None => restoreProducts now rest db
      | Next (Some inventoryItem) =>
          restoreProducts now rest
            (Item.findByIdAndUpdate (Item._id inventoryItem) oldQuantity now db)
      end
  end.

(** PUT: the loop that validates, resolves and checks every new line. *)
Fixpoint validateProducts (db : list Item.t) (products : list ReqProduct.t)
  : Step (list (ObjectId * Z)) :=
  match products with
  | [] => Next []
  | p :: rest =>
      let productName := orS (ReqProduct.productName p) (ReqProduct.itemName p) in
      let quantity := ReqProduct.quantity p in
      if negb (truthy productName) || (quantity =? 0) || (quantity <=? 0)
      then Return 400 "Invalid product data"
      else
        match lookup productName db with
        | Throw => Throw
        | Return status error => Return status error
        | Next None => Return 400 (notFoundMsg productName)
        | Next (Some inventoryItem) =>
            let currentStock := Item.quantity inventoryItem in
            if currentStock <? quantity
            then Return 400 (insufficientMsg productName currentStock)
            else
              match validateProducts db rest with
              | Next productUpdates =>
                  Next ((Item._id inventoryItem, quantity) :: productUpdates)
              | other => other
              end
        end
  end.

(** PUT: [if (products && Array.isArray(products)) { ... }] *)
Definition productsBranch (now : Date) (existingSlip : Slip.t)
           (products : option (list ReqProduct.t)) (db : list Item.t)
  : Step (list Item.t) :=
  match products with
  | None => Next db
  | Some products =>
      match restoreProducts now (Slip.products existingSlip) db with
      | Next restored =>
          match validateProducts restored products with
          | Next productUpdates => Next (reduceStock now productUpdates restored)
          | Return status error => Return status error
          | Throw => Throw
          end
      | other => other
      end
  end.

Definition isCancelled (status : option string) : bool :=
  match status with
  | Some s => (s =? "Cancelled")%string
  | None => false
  end.

(** [status === 'Cancelled' && !existingSlip.cancelledAt] *)
Definition cancels (status : option string) (existingSlip : Slip.t) : bool :=
  isCancelled status &&
  match Slip.cancelledAt existingSlip with
  | None => true
  | Some _ => false
  end.

Definition overS (new : option string) (old : string) : string :=
  match new with Some v => v | None => old end.

Definition overO {A} (new : option A) (old : option A) : option A :=
  match new with Some v => Some v | None => old end.

Definition overZ (new : option Z) (old : Z) : Z :=
  match new with Some v => v | None => old end.

(** The slip after [updateData] is applied to it. *)
Definition applyUpdate (now : Date) (req : UpdateReq) (existingSlip : Slip.t) : Slip.t :=
  {| Slip._id := Slip._id existingSlip;
     Slip.slipNumber := Slip.slipNumber existingSlip;
     Slip.customerName := overS (u_customerName req) (Slip.customerName existingSlip);
     Slip.customerPhone := overO (u_customerPhone req) (Slip.customerPhone existingSlip);
     Slip.paymentMethod := overO (u_paymentMethod req) (Slip.paymentMethod existingSlip);
     Slip.notes := overO (u_notes req) (Slip.notes existingSlip);
     Slip.products :=
       match u_products req with
       | Some products => map processProductEdit products
       | None => Slip.products existingSlip
       end;
     Slip.subtotal := overZ (u_subtotal req) (Slip.subtotal existingSlip);
     Slip.totalAmount := overZ (u_totalAmount req) (Slip.totalAmount existingSlip);
     Slip.tax := overO (u_tax req) (Slip.tax existingSlip);
     Slip.discount := overO (u_discount req) (Slip.discount existingSlip);
     Slip.status := overS (u_status req) (Slip.status existingSlip);
     Slip.cancelledAt :=
       if cancels (u_status req) existingSlip then Some now
       else Slip.cancelledAt existingSlip |}.

(** The update of the cancellation: [isActive: false] and the note. *)
Definition deactivate (existingSlip : Slip.t) (inc : Income.t) : Income.t :=
  {| Income._id := Income._id inc;
     Income.date := Income.date inc;
     Income.totalIncome := Income.totalIncome inc;
     Income.productsSold := Income.productsSold inc;
     Income.customerName := Income.customerName inc;
     Income.paymentMethod := Income.paymentMethod inc;
     Income.slipNumber := Income.slipNumber inc;
     Income.slipId := Income.slipId inc;
     Income.notes :=
       ("Cancelled - " ++ orLit (Some (Slip.slipNumber existingSlip))
                                (Slip._id existingSlip))%string;
     Income.isActive := false |}.

(** [incomeUpdate] of an edit that changes the lines; a field whose value
    is [undefined] is not written. *)
Definition rewriteIncome (req : UpdateReq) (updatedSlip : Slip.t) (inc : Income.t)
  : Income.t :=
  {| Income._id := Income._id inc;
     Income.date := Income.date inc;
     Income.totalIncome :=
       match orN (u_totalAmount req) (Some (Slip.totalAmount updatedSlip)) with
       | Some v => v
       | None => Income.totalIncome inc
       end;
     Income.productsSold := Income.Lines (Slip.products updatedSlip);
     Income.customerName := orLit (u_customerName req) (Slip.customerName updatedSlip);
     Income.paymentMethod :=
       match orS (u_paymentMethod req) (Slip.paymentMethod updatedSlip) with
       | Some v => v
       | None => Income.paymentMethod inc
       end;
     Income.slipNumber := Income.slipNumber inc;
     Income.slipId := Income.slipId inc;
     Income.notes := Income.notes inc;
     Income.isActive := Income.isActive inc |}.

(** PUT: [if (status === 'Cancelled' && !existingSlip.cancelledAt) { ... }],
    on the incomes and the items of the session. *)
Definition cancelBranch (now : Date) (req : UpdateReq) (existingSlip : Slip.t)
           (incs : list Income.t) (db : list Item.t)
  : Step (list Income.t * list Item.t) :=
  if cancels (u_status req) existingSlip then
    let incs' :=
      Income.updateMany
        (Income.linked (Slip._id existingSlip) (Slip.slipNumber existingSlip))
        (deactivate existingSlip) incs in
    match restoreProducts now (Slip.products existingSlip) db with
    | Next db' => Next (incs', db')
    | Return status error => Return status error
    | Throw => Throw
    end
  else Next (incs, db).

(** The body of [router.put('/:id')], on the session's store. *)
Definition putBody (env : Env) (id : ObjectId) (req : UpdateReq) (st : Store)
  : Step (Response * Store) :=
  match Slip.findById id (slips st) with
  | None => Return 404 "Slip not found"
  | Some existingSlip =>
      match productsBranch (now env) existingSlip (u_products req) (items st) with
      | Throw => Throw
      | Return status error => Return status error
      | Next reserved =>
          match cancelBranch (now env) req existingSlip (incomes st) reserved with
          | Throw => Throw
          | Return status error => Return status error
          | Next (incs, db) =>
              let updatedSlip := applyUpdate (now env) req existingSlip in
              let incs' :=
                match u_products req with
                | Some _ =>
                    if negb (isCancelled (u_status req))
                    then Income.updateMany
                           (Income.linked (Slip._id existingSlip)
                                          (Slip.slipNumber existingSlip))
                           (rewriteIncome req updatedSlip) incs
                    else incs
                | None => incs
                end in
              Next (Updated updatedSlip,
                    {| items := db;
                       slips := Slip.replaceById id updatedSlip (slips st);
                       incomes := incs' |})
          end
      end
  end.

(** PUT /api/slips/:id *)
Definition updateSlip (env : Env) (id : ObjectId) (req : UpdateReq) (st : Store)
  : Response * Store :=
  settle "Failed to update slip" st (putBody env id req st).

(** DELETE /api/slips/:id *)
Definition deleteSlip (id : ObjectId) (st : Store) : Response * Store :=
  match Slip.findByIdAndDelete id (slips st) with
  | (None, _) => (Reject 404 "Slip not found", st)
  | (Some _, rest) =>
      (Deleted, {| items := items st; slips := rest; incomes := incomes st |})
  end.

(** *** What the loops resolve

    The lines of a request and of a stored slip, as the loops read them:
    the name the lookup is made with, and the quantity. *)
Definition reqLines (products : list ReqProduct.t) : list (option string * Z) :=
  map (fun p => (orS (ReqProduct.productName p) (ReqProduct.itemName p),
                 ReqProduct.quantity p)) products.

Definition slipLines (products : list SlipProduct.t) : list (option string * Z) :=
  map (fun p => (SlipProduct.productName p, SlipProduct.quantity p)) products.

(** The item each line resolves to, with the quantity of the line; a line
    that resolves to no item is left out. *)
Fixpoint resolved (lines : list (option string * Z)) (db : list Item.t)
  : list (ObjectId * Z) :=
  match lines with
  | [] => []
  | (productName, quantity) :: rest =>
      match lookup productName db with
      | Next (Some inventoryItem) =>
          (Item._id inventoryItem, quantity) :: resolved rest db
      | _ => resolved rest db
      end
  end.

(** The total the lines of a slip carry for an item: what the lines of the
    slip whose product resolves to this item hold of it. *)
Definition givenBack (slip : Slip.t) (db : list Item.t) (id : ObjectId) : Z :=
  totalFor id (resolved (slipLines (Slip.products slip)) db).

(** The total the lines of a request ask of an item. *)
Definition reservedBy (products : list ReqProduct.t) (db : list Item.t)
           (id : ObjectId) : Z :=
  totalFor id (resolved (reqLines products) db).

(** The request without its [products] field. *)
Definition withoutProducts (req : UpdateReq) : UpdateReq :=
  {| u_customerName := u_customerName req;
     u_customerPhone := u_customerPhone req;
     u_paymentMethod := u_paymentMethod req;
     u_notes := u_notes req;
     u_products := None;
     u_subtotal := u_subtotal req;
     u_totalAmount := u_totalAmount req;
     u_tax := u_tax req;
     u_discount := u_discount req;
     u_status := u_status req |}.

(** * Properties *)

(** ** Pricing *)

Lemma includes_In (l : list string) (s : string) :
  includes l s = true <-> In s l.
Proof.
  unfold includes. rewrite existsb_exists. split.
  - intros (x & Hin & Heq). apply String.eqb_eq in Heq. now subst.
  - intros Hin. exists s. split; [assumption | apply String.eqb_refl].
Qed.

Lemma bulkDiscountTypes_truthy (c : string) :
  In c bulkDiscountTypes -> truthy (Some c) = true.
Proof.
  unfold bulkDiscountTypes. simpl.
  intros [H | [H | [H | []]]]; subst; reflexivity.
Qed.

(** The bulk step gives 10 per unit exactly on the eligible lines. *)
Lemma bulkStep_spec (productType coverType : string) (quantity basePrice : Z) :
  (productType = "Cover" /\ In coverType bulkDiscountTypes /\ 10 <= quantity
   -> bulkStep productType coverType quantity basePrice = (10, DiscountType.bulk))
  /\ (~ (productType = "Cover" /\ In coverType bulkDiscountTypes /\ 10 <= quantity)
      -> bulkStep productType coverType quantity basePrice = (0, DiscountType.none)).
Proof.
  unfold bulkStep, calculateBulkDiscount. split.
  - intros (Hp & Hc & Hq). subst productType.
    rewrite (bulkDiscountTypes_truthy _ Hc).
    apply includes_In in Hc. rewrite Hc.
    apply Z.leb_le in Hq. rewrite Hq. reflexivity.
  - intros Hn.
    destruct (String.eqb_spec productType "Cover") as [Hp | Hp]; [| reflexivity].
    destruct (truthy (Some coverType)); [| reflexivity].
    destruct (includes bulkDiscountTypes coverType) eqn:Hc; [| reflexivity].
    destruct (Z.leb_spec 10 quantity) as [Hq | Hq]; [| reflexivity].
    exfalso. apply Hn. apply includes_In in Hc. auto.
Qed.

Lemma eligible_dec (l : SlipProduct.t) : eligible l \/ ~ eligible l.
Proof.
  unfold eligible.
  destruct (String.eqb_spec (SlipProduct.productType l) "Cover") as [Hp | Hp];
    [| right; tauto].
  destruct (includes bulkDiscountTypes (SlipProduct.coverType l)) eqn:Hc.
  - apply includes_In in Hc.
    destruct (Z.leb_spec 10 (SlipProduct.quantity l)); [left; auto | right; lia].
  - right. intros (_ & Hin & _). apply includes_In in Hin. congruence.
Qed.

(** The PUT handler prices a line as the POST handler does. *)
Lemma processProductEdit_pricing (p : ReqProduct.t) :
  let l := processProduct p in
  let e := processProductEdit p in
  SlipProduct.productType e = SlipProduct.productType l
  /\ SlipProduct.coverType e = SlipProduct.coverType l
  /\ SlipProduct.quantity e = SlipProduct.quantity l
  /\ SlipProduct.basePrice e = SlipProduct.basePrice l
  /\ SlipProduct.unitPrice e = SlipProduct.unitPrice l
  /\ SlipProduct.discountAmount e = SlipProduct.discountAmount l
  /\ SlipProduct.discountType e = SlipProduct.discountType l
  /\ SlipProduct.totalPrice e = SlipProduct.totalPrice l.
Proof. cbv zeta. repeat split. Qed.

(** C6.  The bulk rule gives a line 10 per unit exactly when its product
    type is "Cover", its cover type is on the allow-list and its quantity is
    at least 10, and nothing otherwise.  A line with no supplied unit price
    ends with that discount exactly when its product type is "Cover", its cover type is on
    the allow-list and its quantity is at least 10: then the unit price is
    the base price less 10, the stored discount is 10 times the quantity and
    the type is [bulk]; otherwise the unit price is the base price, the
    discount is 0 and the type is [none].  With a supplied unit price the
    type is [bulk] exactly when the line is eligible and that price is the
    base price less 10.  "Aster Cover", quantity 10, base price 100 gives
    unit price 90, discount 100, [bulk]; quantity 9 gives [none]. *)
Theorem bulk_discount_rule (p : ReqProduct.t) :
  let l := processProduct p in
  ((eligible l -> bulkDiscountOf l = 10) /\ (~ eligible l -> bulkDiscountOf l = 0))
  /\ (ReqProduct.unitPrice p = None ->
     (eligible l ->
        SlipProduct.unitPrice l = SlipProduct.basePrice l - 10
        /\ SlipProduct.discountAmount l = 10 * SlipProduct.quantity l
        /\ SlipProduct.discountType l = DiscountType.bulk)
     /\ (~ eligible l ->
        SlipProduct.unitPrice l = SlipProduct.basePrice l
        /\ SlipProduct.discountAmount l = 0
        /\ SlipProduct.discountType l = DiscountType.none))
  /\ (SlipProduct.discountType l = DiscountType.bulk <->
      eligible l /\ SlipProduct.unitPrice l = SlipProduct.basePrice l - 10)
  /\ (let a := processProduct (coverLine "Seat cover" "Aster Cover" 10 (Some 100) None) in
      SlipProduct.unitPrice a = 90 /\ SlipProduct.discountAmount a = 100
      /\ SlipProduct.discountType a = DiscountType.bulk)
  /\ (let b := processProduct (coverLine "Seat cover" "Aster Cover" 9 (Some 100) None) in
      SlipProduct.unitPrice b = 100 /\ SlipProduct.discountAmount b = 0
      /\ SlipProduct.discountType b = DiscountType.none).
Proof.
  cbv zeta.
  pose proof (bulkStep_spec (SlipProduct.productType (processProduct p))
                (SlipProduct.coverType (processProduct p))
                (SlipProduct.quantity (processProduct p))
                (SlipProduct.basePrice (processProduct p))) as [Hyes Hno].
  fold (eligible (processProduct p)) in Hyes, Hno.
  split; [| split; [| split; [| split; [repeat split | repeat split]]]].
  - unfold bulkDiscountOf. split; intros He.
    + now rewrite (Hyes He).
    + now rewrite (Hno He).
  - intros Hu. split; intros He.
    + specialize (Hyes He). unfold processProduct in *. simpl in *.
      unfold manualStep, finalUnitPriceOf. rewrite Hu, Hyes. simpl.
      repeat split. 
    + specialize (Hno He). unfold processProduct in *. simpl in *.
      unfold manualStep, finalUnitPriceOf. rewrite Hu, Hno. simpl.
      repeat split. lia.
  - destruct (eligible_dec (processProduct p)) as [He | He].
    + specialize (Hyes He). clear Hno.
      unfold processProduct in *. simpl in *.
      unfold manualStep, finalUnitPriceOf. rewrite Hyes. simpl.
      destruct (ReqProduct.unitPrice p) as [u |]; simpl.
      * destruct (Z.eqb_spec u (basePriceOf p - 10)); simpl.
        -- split; [intros _; split; [exact He | assumption] | reflexivity].
        -- split; [discriminate | intros [_ Hu]; contradiction].
      * split; [intros _; split; [exact He | reflexivity] | reflexivity].
    + specialize (Hno He). clear Hyes.
      split; [| intros [He' _]; contradiction].
      unfold processProduct in *. simpl in *.
      unfold manualStep, finalUnitPriceOf. rewrite Hno. simpl.
      destruct (ReqProduct.unitPrice p) as [u |]; simpl; [| discriminate].
      destruct (Z.eqb_spec u (basePriceOf p - 0)); simpl; discriminate.
Qed.

(** The rule at the line of the specification: ten "Aster Cover" at a base
    price of 100. *)
Lemma bulk_discount_rule_witness :
  let l := processProduct (coverLine "Seat cover" "Aster Cover" 10 (Some 100) None) in
  SlipProduct.unitPrice l = SlipProduct.basePrice l - 10
  /\ SlipProduct.discountAmount l = 10 * SlipProduct.quantity l
  /\ SlipProduct.discountType l = DiscountType.bulk.
Proof.
  cbv zeta.
  refine (proj1 (proj1 (proj2 (bulk_discount_rule
                                 (coverLine "Seat cover" "Aster Cover" 10 (Some 100) None)))
                       eq_refl) _).
  unfold eligible. simpl. repeat split; [auto | lia].
Defined.

(** C7.  When the caller supplies a unit price that differs from the base
    price less the applicable bulk discount, that price is the unit price of
    the line, the discount type is [manual] and the stored discount is
    (base price - supplied price) times the quantity; the PUT handler
    prices the line the same way. *)
Theorem manual_override_precedence (p : ReqProduct.t) (u : Z) :
  ReqProduct.unitPrice p = Some u ->
  u <> SlipProduct.basePrice (processProduct p) - bulkDiscountOf (processProduct p) ->
  forall l, l = processProduct p \/ l = processProductEdit p ->
  SlipProduct.unitPrice l = u
  /\ SlipProduct.discountType l = DiscountType.manual
  /\ SlipProduct.discountAmount l = (SlipProduct.basePrice l - u) * SlipProduct.quantity l.
Proof.
  intros Hu Hne l Hl.
  assert (Hpost : SlipProduct.unitPrice (processProduct p) = u
                  /\ SlipProduct.discountType (processProduct p) = DiscountType.manual
                  /\ SlipProduct.discountAmount (processProduct p)
                     = (SlipProduct.basePrice (processProduct p) - u)
                       * SlipProduct.quantity (processProduct p)).
  { unfold bulkDiscountOf, processProduct in *. simpl in *.
    unfold manualStep, finalUnitPriceOf. rewrite Hu.
    apply Z.eqb_neq in Hne. rewrite Hne. simpl. repeat split. }
  destruct Hl as [-> | ->]; [exact Hpost |].
  destruct (processProductEdit_pricing p) as (_ & _ & Hq & Hb & Hup & Hd & Ht & _).
  cbv zeta in *. rewrite Hup, Ht, Hd, Hb, Hq. exact Hpost.
Qed.

(** The override at the line of the specification: ten "Aster Cover" at a
    base price of 100 and a supplied unit price of 95. *)
Lemma manual_override_precedence_witness :
  let l := processProduct (coverLine "Seat cover" "Aster Cover" 10 (Some 100) (Some 95)) in
  SlipProduct.unitPrice l = 95
  /\ SlipProduct.discountType l = DiscountType.manual
  /\ SlipProduct.discountAmount l = 50.
Proof.
  cbv zeta.
  refine (manual_override_precedence
            (coverLine "Seat cover" "Aster Cover" 10 (Some 100) (Some 95)) 95
            eq_refl _ _ (or_introl eq_refl)).
  vm_compute. discriminate.
Defined.

Lemma basePriceOf_cases (p : ReqProduct.t) :
  (forall b, ReqProduct.basePrice p = Some b -> b <> 0 -> basePriceOf p = b)
  /\ (passedOver (ReqProduct.basePrice p) ->
      forall u, ReqProduct.unitPrice p = Some u -> u <> 0 -> basePriceOf p = u)
  /\ (passedOver (ReqProduct.basePrice p) -> passedOver (ReqProduct.unitPrice p) ->
      forall x, ReqProduct.price p = Some x -> basePriceOf p = x)
  /\ (passedOver (ReqProduct.basePrice p) -> passedOver (ReqProduct.unitPrice p) ->
      ReqProduct.price p = None -> basePriceOf p = 0).
Proof.
  unfold basePriceOf, passedOver, orN, orZero, truthyN.
  destruct (ReqProduct.basePrice p) as [b |], (ReqProduct.unitPrice p) as [u |],
    (ReqProduct.price p) as [x |];
    repeat split; intros;
    repeat match goal with
           | H : _ \/ _ |- _ => destruct H
           end;
    try discriminate;
    repeat match goal with
           | H : Some _ = Some _ |- _ => inversion H; clear H; subst
           end;
    cbn;
    repeat match goal with
           | |- context [?a =? ?b] => destruct (Z.eqb_spec a b); cbn
           end;
    congruence.
Qed.

(** The stored discount is always the per-unit discount, that is the base
    price less the unit price, times the quantity. *)
Lemma discountAmount_per_unit (p : ReqProduct.t) :
  let l := processProduct p in
  SlipProduct.discountAmount l
  = (SlipProduct.basePrice l - SlipProduct.unitPrice l) * SlipProduct.quantity l.
Proof.
  unfold processProduct. simpl. unfold manualStep, finalUnitPriceOf.
  destruct (ReqProduct.unitPrice p) as [u |].
  - destruct (Z.eqb_spec u (basePriceOf p
        - fst (bulkStep (orLit (ReqProduct.productType p) "Cover")
                 (orLit (ReqProduct.coverType p) "") (ReqProduct.quantity p)
                 (basePriceOf p)))) as [He | He]; simpl; [| reflexivity].
    f_equal. lia.
  - f_equal. lia.
Qed.

(** C8.  In both handlers the base price of the line is the first of the
    line's base price, supplied unit price and legacy price that is present
    and not 0, and 0 when there is none: a field that is missing or 0 is
    passed over, so an explicit base price of 0 falls through like a missing
    one.  The line keeps the quantity, the product type and the cover type
    of the request; its unit price is the supplied one, and without one the
    base price less the bulk discount.  The stored discount is the per-unit
    discount times the quantity of the request: the per-unit discount is the
    base price less the supplied price when that price is not the base
    price less the bulk discount, and the bulk discount otherwise.  The
    total price is the quantity of the request times the unit price. *)
Theorem priced_line_construction (p : ReqProduct.t) (l : SlipProduct.t) :
  l = processProduct p \/ l = processProductEdit p ->
  ((forall b, ReqProduct.basePrice p = Some b -> b <> 0 -> SlipProduct.basePrice l = b)
   /\ (passedOver (ReqProduct.basePrice p) ->
       forall u, ReqProduct.unitPrice p = Some u -> u <> 0 -> SlipProduct.basePrice l = u)
   /\ (passedOver (ReqProduct.basePrice p) -> passedOver (ReqProduct.unitPrice p) ->
       forall x, ReqProduct.price p = Some x -> SlipProduct.basePrice l = x)
   /\ (passedOver (ReqProduct.basePrice p) -> passedOver (ReqProduct.unitPrice p) ->
       ReqProduct.price p = None -> SlipProduct.basePrice l = 0))
  /\ (SlipProduct.quantity l = ReqProduct.quantity p
      /\ SlipProduct.productType l = orLit (ReqProduct.productType p) "Cover"
      /\ SlipProduct.coverType l = orLit (ReqProduct.coverType p) "")
  /\ ((forall u, ReqProduct.unitPrice p = Some u -> SlipProduct.unitPrice l = u)
      /\ (ReqProduct.unitPrice p = None ->
          SlipProduct.unitPrice l = SlipProduct.basePrice l - bulkDiscountOf l))
  /\ SlipProduct.discountAmount l
     = fst (manualStep p (SlipProduct.basePrice l)
              (bulkStep (SlipProduct.productType l) (SlipProduct.coverType l)
                        (SlipProduct.quantity l) (SlipProduct.basePrice l)))
       * ReqProduct.quantity p
  /\ ((forall u, ReqProduct.unitPrice p = Some u ->
                 u <> SlipProduct.basePrice l - bulkDiscountOf l ->
                 SlipProduct.discountAmount l
                 = (SlipProduct.basePrice l - u) * ReqProduct.quantity p)
      /\ (ReqProduct.unitPrice p = None
          \/ ReqProduct.unitPrice p = Some (SlipProduct.basePrice l - bulkDiscountOf l) ->
          SlipProduct.discountAmount l = bulkDiscountOf l * ReqProduct.quantity p))
  /\ SlipProduct.totalPrice l = ReqProduct.quantity p * SlipProduct.unitPrice l.
Proof.
  intros Hl.
  assert (Hb : SlipProduct.basePrice l = basePriceOf p) by (destruct Hl; subst; reflexivity).
  assert (Hq : SlipProduct.quantity l = ReqProduct.quantity p)
    by (destruct Hl; subst; reflexivity).
  assert (Hpt : SlipProduct.productType l = orLit (ReqProduct.productType p) "Cover")
    by (destruct Hl; subst; reflexivity).
  assert (Hct : SlipProduct.coverType l = orLit (ReqProduct.coverType p) "")
    by (destruct Hl; subst; reflexivity).
  assert (Hu : SlipProduct.unitPrice l
               = finalUnitPriceOf p (SlipProduct.basePrice l) (bulkDiscountOf l))
    by (destruct Hl; subst; reflexivity).
  assert (Hd : SlipProduct.discountAmount l
               = fst (manualStep p (SlipProduct.basePrice l)
                        (bulkStep (SlipProduct.productType l) (SlipProduct.coverType l)
                                  (SlipProduct.quantity l) (SlipProduct.basePrice l)))
                 * ReqProduct.quantity p)
    by (destruct Hl; subst; reflexivity).
  assert (Hper : SlipProduct.discountAmount l
                 = (SlipProduct.basePrice l - SlipProduct.unitPrice l)
                   * ReqProduct.quantity p).
  { rewrite <- Hq.
    destruct Hl as [-> | ->]; [apply discountAmount_per_unit |].
    destruct (processProductEdit_pricing p) as (_ & _ & Hq' & Hbp & Hup & Hd' & _).
    cbv zeta in *. rewrite Hd', Hbp, Hup, Hq'. apply discountAmount_per_unit. }
  split; [rewrite Hb; apply basePriceOf_cases |].
  split; [repeat split; assumption |].
  split.
  { split.
    - intros u Hsome. rewrite Hu. unfold finalUnitPriceOf. now rewrite Hsome.
    - intros Hnone. rewrite Hu. unfold finalUnitPriceOf. now rewrite Hnone. }
  split; [exact Hd |].
  split.
  { split.
    - intros u Hsome Hne. rewrite Hper, Hu. unfold finalUnitPriceOf. now rewrite Hsome.
    - intros Hcase. rewrite Hper, Hu. unfold finalUnitPriceOf.
      destruct Hcase as [-> | ->]; f_equal; lia. }
  rewrite <- Hq. destruct Hl; subst; reflexivity.
Qed.

(** Ten "Aster Cover" at a base price of 100 and a supplied unit price of
    95, as the PUT handler prices them: the line keeps the ten, at 95 each;
    the stored discount is (100 - 95) * 10 and the total 10 * 95. *)
Lemma priced_line_construction_witness :
  let p := coverLine "Seat cover" "Aster Cover" 10 (Some 100) (Some 95) in
  SlipProduct.basePrice (processProductEdit p) = 100
  /\ SlipProduct.quantity (processProductEdit p) = 10
  /\ SlipProduct.unitPrice (processProductEdit p) = 95
  /\ SlipProduct.discountAmount (processProductEdit p) = 50
  /\ SlipProduct.totalPrice (processProductEdit p) = 950.
Proof.
  cbv zeta.
  pose proof (priced_line_construction
                (coverLine "Seat cover" "Aster Cover" 10 (Some 100) (Some 95))
                _ (or_intror eq_refl))
    as (Hbase & (Hq & _) & (Hu & _) & _ & (Hd & _) & Ht).
  destruct Hbase as (Hb & _).
  assert (Hb' := Hb 100 eq_refl ltac:(discriminate)).
  assert (Hu' := Hu 95 eq_refl).
  split; [exact Hb' |]. split; [exact Hq |]. split; [exact Hu' |].
  split; [| rewrite Ht, Hu'; reflexivity].
  rewrite (Hd 95 eq_refl), Hb'; [reflexivity |].
  rewrite Hb'. vm_compute. discriminate.
Defined.

(** C8 as it is stated fails: a line is sent with an explicit base price
    of 0 and a unit price of 50.  The explicit base price is present, and
    the base price both handlers store is neither that base price nor 0: it
    is the unit price, 50, with a discount of 0. *)
Lemma explicit_zero_base_price_falls_through :
  let p := coverLine "Seat cover" "Aster Cover" 3 (Some 0) (Some 50) in
  ReqProduct.basePrice p = Some 0
  /\ ReqProduct.unitPrice p = Some 50
  /\ SlipProduct.basePrice (processProduct p) = 50
  /\ SlipProduct.basePrice (processProductEdit p) = 50
  /\ SlipProduct.basePrice (processProduct p) <> 0
  /\ SlipProduct.discountAmount (processProduct p) = 0.
Proof. cbv zeta. repeat split. vm_compute. discriminate. Qed.

(** ** The stock side of the item collection *)

Lemma qview_update (id : ObjectId) (d : Z) (now : Date) (db : list Item.t) :
  qview (Item.findByIdAndUpdate id d now db) = bump id d (qview db).
Proof.
  induction db as [| it db IH]; simpl; [reflexivity |].
  destruct (Item._id it =? id)%string; simpl; [reflexivity | now rewrite IH].
Qed.

Lemma kview_update (id : ObjectId) (d : Z) (now : Date) (db : list Item.t) :
  kview (Item.findByIdAndUpdate id d now db) = kview db.
Proof.
  induction db as [| it db IH]; simpl; [reflexivity |].
  destruct (Item._id it =? id)%string; simpl; [reflexivity | now rewrite IH].
Qed.

Lemma qview_quantities (db : list Item.t) :
  map snd (qview db) = map Item.quantity db.
Proof. unfold qview. rewrite map_map. reflexivity. Qed.

Lemma kview_ids (db : list Item.t) :
  map (fun k => fst (fst (fst k))) (kview db) = map Item._id db.
Proof. unfold kview. rewrite map_map. reflexivity. Qed.

Lemma qview_ids (db : list Item.t) :
  map fst (qview db) = map Item._id db.
Proof. unfold qview. rewrite map_map. reflexivity. Qed.

Lemma quantityOf_qget (id : ObjectId) (db : list Item.t) :
  Item.quantityOf id db = qget id (qview db).
Proof.
  induction db as [| it db IH]; simpl; [reflexivity |].
  destruct (Item._id it =? id)%string; [reflexivity | exact IH].
Qed.

Lemma bump_comm (a b : ObjectId) (x y : Z) (l : list (ObjectId * Z)) :
  bump a x (bump b y l) = bump b y (bump a x l).
Proof.
  induction l as [| [i q] l IH]; simpl; [reflexivity |].
  destruct (String.eqb_spec i b) as [Hb | Hb], (String.eqb_spec i a) as [Ha | Ha];
    simpl; subst;
    repeat rewrite String.eqb_refl;
    repeat match goal with
           | H : ?u <> ?v |- context [(?u =? ?v)%string] =>
               rewrite (proj2 (String.eqb_neq u v) H)
           end;
    try reflexivity.
  - f_equal. f_equal. lia.
  - now rewrite IH.
Qed.

Lemma bump_cancel (id : ObjectId) (d : Z) (l : list (ObjectId * Z)) :
  bump id (- d) (bump id d l) = l.
Proof.
  induction l as [| [i q] l IH]; simpl; [reflexivity |].
  destruct (String.eqb_spec i id) as [He | He]; simpl.
  - subst. rewrite String.eqb_refl. f_equal. f_equal. lia.
  - rewrite (proj2 (String.eqb_neq i id) He). now rewrite IH.
Qed.

Lemma bump_bumps (id : ObjectId) (d : Z) (us l : list (ObjectId * Z)) :
  bump id d (bumps us l) = bumps us (bump id d l).
Proof.
  revert l. induction us as [| u us IH]; intros l; simpl; [reflexivity |].
  unfold bumps in *. simpl. rewrite IH. now rewrite bump_comm.
Qed.

(** Taking away what was given back leaves the stock as it was. *)
Lemma bumps_negated (us l : list (ObjectId * Z)) :
  bumps (negated us) (bumps us l) = l.
Proof.
  revert l. induction us as [| [i q] us IH]; intros l; [reflexivity |].
  change (bumps (negated ((i, q) :: us)) (bumps ((i, q) :: us) l))
    with (bumps (negated us) (bump i (- q) (bumps us (bump i q l)))).
  rewrite bump_bumps, IH. apply bump_cancel.
Qed.

Lemma bumps_app (us vs l : list (ObjectId * Z)) :
  bumps (us ++ vs) l = bumps vs (bumps us l).
Proof. unfold bumps. apply fold_left_app. Qed.

Lemma qhas_bump (id id' : ObjectId) (d : Z) (l : list (ObjectId * Z)) :
  qhas id (bump id' d l) = qhas id l.
Proof.
  unfold qhas. induction l as [| [i q] l IH]; simpl; [reflexivity |].
  destruct (i =? id')%string; simpl; [reflexivity | now rewrite IH].
Qed.

Lemma qget_bump (id id' : ObjectId) (d : Z) (l : list (ObjectId * Z)) :
  qhas id' l = true ->
  qget id (bump id' d l) = qget id l + (if (id' =? id)%string then d else 0).
Proof.
  unfold qhas. induction l as [| [i q] l IH]; simpl; [discriminate |].
  intros Hhas.
  destruct (String.eqb_spec i id') as [He | He]; simpl.
  - subst i. destruct (id' =? id)%string; lia.
  - destruct (String.eqb_spec i id) as [Hi | Hi].
    + subst i. rewrite (proj2 (String.eqb_neq id' id)); [lia | congruence].
    + apply IH. exact Hhas.
Qed.

Lemma qget_bumps (id : ObjectId) (us l : list (ObjectId * Z)) :
  Forall (fun u => qhas (fst u) l = true) us ->
  qget id (bumps us l) = qget id l + totalFor id us.
Proof.
  revert l. induction us as [| [i q] us IH]; intros l Hus; simpl; [lia |].
  inversion Hus as [| ? ? Hi Hrest]; subst. simpl in Hi.
  unfold bumps in *. simpl. rewrite IH.
  - rewrite (qget_bump id i q l Hi). destruct (i =? id)%string; lia.
  - eapply Forall_impl; [| exact Hrest]. intros u Hu. now rewrite qhas_bump.
Qed.

Lemma totalFor_negated (id : ObjectId) (us : list (ObjectId * Z)) :
  totalFor id (negated us) = - totalFor id us.
Proof.
  induction us as [| [i q] us IH]; simpl; [reflexivity |].
  destruct (i =? id)%string; lia.
Qed.

Lemma totalFor_app (id : ObjectId) (us vs : list (ObjectId * Z)) :
  totalFor id (us ++ vs) = totalFor id us + totalFor id vs.
Proof.
  induction us as [| [i q] us IH]; simpl; [reflexivity |].
  destruct (i =? id)%string; lia.
Qed.



Lemma negated_has (l : list (ObjectId * Z)) (us : list (ObjectId * Z)) :
  Forall (fun u => qhas (fst u) l = true) us ->
  Forall (fun u => qhas (fst u) l = true) (negated us).
Proof.
  unfold negated. intros H. apply Forall_map. simpl. exact H.
Qed.

(** ** The loops of the handlers *)

(** A lookup reads the names, the SKUs and the active flags only. *)
Lemma findOne_kview (re : string -> bool) (db db' : list Item.t) :
  kview db = kview db' ->
  option_map Item._id (Item.findOne re db) = option_map Item._id (Item.findOne re db').
Proof.
  revert db'. induction db as [| it db IH]; intros [| it' db'] Hk;
    try discriminate; [reflexivity |].
  simpl in Hk. inversion Hk as [[Hid Hname Hsku Hact Hrest]].
  unfold Item.findOne in *. simpl. rewrite Hname, Hsku, Hact.
  destruct ((re (Item.name it') || re (Item.sku it')) && Item.isActive it')%bool.
  - simpl. now rewrite Hid.
  - apply IH. exact Hrest.
Qed.

Lemma lookup_kview (n : option string) (db db' : list Item.t) :
  kview db = kview db' ->
  match lookup n db, lookup n db' with
  | Next a, Next b => option_map Item._id a = option_map Item._id b
  | Throw, Throw => True
  | _, _ => False
  end.
Proof.
  intros Hk. unfold lookup.
  destruct (RegExp_i (patternOf n)) as [re |]; [| exact I].
  apply findOne_kview. exact Hk.
Qed.


Lemma lookup_In (n : option string) (db : list Item.t) (it : Item.t) :
  lookup n db = Next (Some it) -> In it db.
Proof.
  unfold lookup. destruct (RegExp_i (patternOf n)) as [re |]; [| discriminate].
  intros H. inversion H as [Hf]. unfold Item.findOne in Hf.
  apply find_some in Hf. tauto.
Qed.

Lemma resolved_kview (lines : list (option string * Z)) (db db' : list Item.t) :
  kview db = kview db' -> resolved lines db = resolved lines db'.
Proof.
  intros Hk. induction lines as [| [n q] lines IH]; simpl; [reflexivity |].
  pose proof (lookup_kview n db db' Hk) as H.
  destruct (lookup n db) as [[it |] | |], (lookup n db') as [[it' |] | |];
    simpl in H; try contradiction; try discriminate; try exact IH.
  inversion H. now rewrite IH.
Qed.

Lemma In_qhas (it : Item.t) (db : list Item.t) :
  In it db -> qhas (Item._id it) (qview db) = true.
Proof.
  intros Hin. unfold qhas, qview. apply existsb_exists.
  exists (Item._id it, Item.quantity it). split.
  - apply in_map_iff. exists it. auto.
  - apply String.eqb_refl.
Qed.

Lemma resolved_present (lines : list (option string * Z)) (db : list Item.t) :
  Forall (fun u => qhas (fst u) (qview db) = true) (resolved lines db).
Proof.
  induction lines as [| [n q] lines IH]; simpl; [constructor |].
  destruct (lookup n db) as [[it |] | |] eqn:Hl; try exact IH.
  constructor; [| exact IH]. simpl. apply In_qhas. eapply lookup_In. exact Hl.
Qed.

Lemma resolved_nonneg (lines : list (option string * Z)) (db : list Item.t) :
  Forall (fun l => 0 <= snd l) lines ->
  Forall (fun u => 0 <= snd u) (resolved lines db).
Proof.
  induction 1 as [| [n q] lines Hq _ IH]; simpl; [constructor |].
  destruct (lookup n db) as [[it |] | |]; try exact IH.
  constructor; assumption.
Qed.


(** The stock loops on the two views. *)
Lemma reduceStock_views (now : Date) (us : list (ObjectId * Z)) (db : list Item.t) :
  kview (reduceStock now us db) = kview db
  /\ qview (reduceStock now us db) = bumps (negated us) (qview db).
Proof.
  revert db. induction us as [| [i q] us IH]; intros db; [split; reflexivity |].
  unfold reduceStock in *. simpl.
  destruct (IH (Item.findByIdAndUpdate i (- q) now db)) as [Hk Hq].
  rewrite Hk, Hq, kview_update, qview_update. split; reflexivity.
Qed.

Lemma restoreProducts_views (now : Date) (olds : list SlipProduct.t)
      (db db' : list Item.t) :
  restoreProducts now olds db = Next db' ->
  kview db' = kview db
  /\ qview db' = bumps (resolved (slipLines olds) db) (qview db).
Proof.
  revert db. induction olds as [| old olds IH]; intros db H; simpl in *.
  - inversion H. split; reflexivity.
  - destruct (lookup (SlipProduct.productName old) db) as [[it |] | |] eqn:Hl;
      try discriminate.
    + apply IH in H. destruct H as [Hk Hq].
      rewrite kview_update in Hk. split; [exact Hk |].
      rewrite Hq, qview_update.
      rewrite (resolved_kview (slipLines olds) _ db (kview_update _ _ _ _)).
      reflexivity.
    + apply IH. exact H.
Qed.

Lemma validateProducts_resolved (db : list Item.t) (ps : list ReqProduct.t)
      (us : list (ObjectId * Z)) :
  validateProducts db ps = Next us -> us = resolved (reqLines ps) db.
Proof.
  revert us. induction ps as [| p ps IH]; intros us H; simpl in *.
  - now inversion H.
  - destruct (negb _ || _ || _)%bool; [discriminate |].
    destruct (lookup _ db) as [[it |] | |]; try discriminate.
    destruct (Item.quantity it <? ReqProduct.quantity p); [discriminate |].
    destruct (validateProducts db ps) as [us' | |]; try discriminate.
    inversion H. now rewrite (IH us' eq_refl).
Qed.

Lemma checkProducts_resolved (db : list Item.t) (ps : list ReqProduct.t)
      (us : list (ObjectId * Z)) :
  checkProducts db ps = Next us -> us = resolved (reqLines ps) db.
Proof.
  revert us. induction ps as [| p ps IH]; intros us H; simpl in *.
  - now inversion H.
  - destruct (lookup _ db) as [[it |] | |]; try discriminate.
    destruct (Item.quantity it <? ReqProduct.quantity p); [discriminate |].
    destruct (checkProducts db ps) as [us' | |]; try discriminate.
    inversion H. now rewrite (IH us' eq_refl).
Qed.

(** Restoring the lines of a slip and reserving the same lines again
    leaves every quantity as it was. *)
Lemma productsBranch_roundtrip (now : Date) (slip : Slip.t) (ps : list ReqProduct.t)
      (db db' : list Item.t) :
  reqLines ps = slipLines (Slip.products slip) ->
  productsBranch now slip (Some ps) db = Next db' ->
  kview db' = kview db /\ qview db' = qview db.
Proof.
  intros Hsame H. unfold productsBranch in H.
  destruct (restoreProducts now (Slip.products slip) db) as [restored | |] eqn:Hr;
    try discriminate.
  destruct (validateProducts restored ps) as [us | |] eqn:Hv; try discriminate.
  inversion H; subst db'. clear H.
  apply restoreProducts_views in Hr. destruct Hr as [Hk Hq].
  apply validateProducts_resolved in Hv.
  rewrite Hsame, (resolved_kview _ _ _ Hk) in Hv.
  destruct (reduceStock_views now us restored) as [Hk' Hq'].
  split; [congruence |].
  rewrite Hq', Hq, <- Hv. apply bumps_negated.
Qed.

Lemma unique_quantityOf (db : list Item.t) (it : Item.t) :
  uniqueIds db -> In it db -> Item.quantityOf (Item._id it) db = Item.quantity it.
Proof.
  unfold uniqueIds. induction db as [| x db IH]; simpl; [contradiction |].
  intros Hnd [Heq | Hin]; inversion Hnd as [| ? ? Hnotin Hnd']; subst.
  - now rewrite String.eqb_refl.
  - destruct (String.eqb_spec (Item._id x) (Item._id it)) as [He | He].
    + exfalso. apply Hnotin. rewrite He. now apply in_map.
    + now apply IH.
Qed.


Lemma uniqueIds_kview (db db' : list Item.t) :
  kview db' = kview db -> uniqueIds db -> uniqueIds db'.
Proof.
  unfold uniqueIds. intros Hk. now rewrite <- (kview_ids db'), Hk, kview_ids.
Qed.




(** *** The shape of a run of the PUT handler *)

Lemma updateSlip_Updated (env : Env) (id : ObjectId) (req : UpdateReq)
      (st st' : Store) (s' : Slip.t) :
  updateSlip env id req st = (Updated s', st') ->
  exists existing reserved incs db,
    Slip.findById id (slips st) = Some existing
    /\ productsBranch (now env) existing (u_products req) (items st) = Next reserved
    /\ cancelBranch (now env) req existing (incomes st) reserved = Next (incs, db)
    /\ s' = applyUpdate (now env) req existing
    /\ items st' = db
    /\ slips st' = Slip.replaceById id s' (slips st)
    /\ incomes st' =
       match u_products req with
       | Some _ =>
           if negb (isCancelled (u_status req))
           then Income.updateMany
                  (Income.linked (Slip._id existing) (Slip.slipNumber existing))
                  (rewriteIncome req s') incs
           else incs
       | None => incs
       end.
Proof.
  unfold updateSlip, putBody.
  destruct (Slip.findById id (slips st)) as [existing |] eqn:Hf; simpl;
    [| intros H; inversion H].
  destruct (productsBranch (now env) existing (u_products req) (items st))
    as [reserved | ? ? |] eqn:Hp; simpl; try (intros H; now inversion H).
  destruct (cancelBranch (now env) req existing (incomes st) reserved)
    as [[incs db] | ? ? |] eqn:Hc; simpl; try (intros H; now inversion H).
  intros H. inversion H; subst. exists existing, reserved, incs, db.
  repeat split; assumption.
Qed.

(** The handler commits with [Updated] or leaves the store as it was. *)
Lemma updateSlip_aborts (env : Env) (id : ObjectId) (req : UpdateReq) (st : Store) :
  (exists s', fst (updateSlip env id req st) = Updated s')
  \/ snd (updateSlip env id req st) = st.
Proof.
  unfold updateSlip. destruct (putBody env id req st) as [[r st'] | ? ? |] eqn:Hb;
    simpl; try (right; reflexivity).
  left. unfold putBody in Hb.
  destruct (Slip.findById id (slips st)); [| discriminate].
  destruct (productsBranch _ _ _ _); try discriminate.
  destruct (cancelBranch _ _ _ _ _) as [[incs db] | |]; try discriminate.
  inversion Hb. eauto.
Qed.

Lemma findById_id (id : ObjectId) (db : list Slip.t) (s : Slip.t) :
  Slip.findById id db = Some s -> Slip._id s = id.
Proof.
  unfold Slip.findById. intros H. apply find_some in H.
  destruct H as [_ H]. now apply String.eqb_eq in H.
Qed.

Lemma findById_replaceById (id : ObjectId) (db : list Slip.t) (s d : Slip.t) :
  Slip.findById id db = Some s -> Slip._id d = id ->
  Slip.findById id (Slip.replaceById id d db) = Some d.
Proof.
  unfold Slip.findById. induction db as [| x db IH]; simpl; [discriminate |].
  intros H Hd. destruct (Slip._id x =? id)%string eqn:He; simpl.
  - rewrite Hd, String.eqb_refl. reflexivity.
  - rewrite He. now apply IH.
Qed.



Lemma productsBranch_kview (now : Date) (slip : Slip.t)
      (products : option (list ReqProduct.t)) (db db' : list Item.t) :
  productsBranch now slip products db = Next db' -> kview db' = kview db.
Proof.
  unfold productsBranch. destruct products as [ps |]; [| now inversion 1].
  destruct (restoreProducts now (Slip.products slip) db) as [restored | ? ? |] eqn:Hr;
    try discriminate.
  destruct (validateProducts restored ps) as [us | ? ? |]; try discriminate.
  intros H. inversion H.
  rewrite (proj1 (reduceStock_views now us restored)).
  apply restoreProducts_views in Hr. tauto.
Qed.

Lemma qhas_bumps (id : ObjectId) (us l : list (ObjectId * Z)) :
  qhas id (bumps us l) = qhas id l.
Proof.
  revert l. induction us as [| [i q] us IH]; intros l; [reflexivity |].
  unfold bumps in *. simpl. now rewrite IH, qhas_bump.
Qed.

Lemma kview_qhas (db db' : list Item.t) (id : ObjectId) :
  kview db' = kview db -> qhas id (qview db') = qhas id (qview db).
Proof.
  revert db. induction db' as [| x db' IH]; intros [| y db] Hk; try discriminate;
    [reflexivity |].
  simpl in Hk. inversion Hk as [[Hid Hname Hsku Hact Hrest]].
  unfold qhas in *. simpl. rewrite Hid. f_equal. now apply IH.
Qed.

(** What giving the lines of a slip back does to each quantity. *)
Lemma restoreProducts_quantityOf (now : Date) (slip : Slip.t) (db db' : list Item.t) :
  restoreProducts now (Slip.products slip) db = Next db' ->
  forall i, Item.quantityOf i db' = Item.quantityOf i db + givenBack slip db i.
Proof.
  intros Hr i. apply restoreProducts_views in Hr. destruct Hr as [_ Hq].
  rewrite !quantityOf_qget, Hq. apply qget_bumps. apply resolved_present.
Qed.

Lemma givenBack_kview (slip : Slip.t) (db db' : list Item.t) (i : ObjectId) :
  kview db' = kview db -> givenBack slip db' i = givenBack slip db i.
Proof. intros Hk. unfold givenBack. now rewrite (resolved_kview _ _ _ Hk). Qed.

Lemma updateSlip_cases (env : Env) (id : ObjectId) (req : UpdateReq)
      (st st' : Store) (r : Response) :
  updateSlip env id req st = (r, st') -> (exists s', r = Updated s') \/ st' = st.
Proof.
  intros H. destruct (updateSlip_aborts env id req st) as [[s' Hs] | Hs];
    rewrite H in Hs; simpl in Hs; eauto.
Qed.

Lemma updateMany_Forall2 (filter : Income.t -> bool) (update : Income.t -> Income.t)
      (db : list Income.t) :
  Forall2 (fun inc inc' => inc' = if filter inc then update inc else inc)
          db (Income.updateMany filter update db).
Proof. induction db; simpl; constructor; auto. Qed.

Lemma linked_spec (slipId : ObjectId) (slipNumber : string) (inc : Income.t) :
  Income.linked slipId slipNumber inc = true <->
  (Income.slipId inc = Some slipId \/ Income.slipNumber inc = Some slipNumber)
  /\ Income.isActive inc = true.
Proof.
  unfold Income.linked, Income.eqo.
  rewrite andb_true_iff, orb_true_iff.
  destruct (Income.slipId inc) as [a |], (Income.slipNumber inc) as [b |];
    rewrite ?String.eqb_eq; intuition (try congruence; try discriminate).
Qed.

Lemma cancels_spec (req : UpdateReq) (existing : Slip.t) :
  u_status req = Some "Cancelled" ->
  cancels (u_status req) existing
  = match Slip.cancelledAt existing with None => true | Some _ => false end.
Proof. intros ->. reflexivity. Qed.

(** The ledger side of a cancelling edit that commits. *)
Lemma cancellation_restores (env : Env) (id : ObjectId) (req : UpdateReq)
      (st st' : Store) (existing s' : Slip.t) :
  Slip.findById id (slips st) = Some existing ->
  Slip.cancelledAt existing = None ->
  u_status req = Some "Cancelled" ->
  updateSlip env id req st = (Updated s', st') ->
  exists reserved,
    productsBranch (now env) existing (u_products req) (items st) = Next reserved
    /\ forall i, Item.quantityOf i (items st')
                 = Item.quantityOf i reserved + givenBack existing (items st) i.
Proof.
  intros Hfind Hnot Hstatus Hrun.
  destruct (updateSlip_Updated _ _ _ _ _ _ Hrun)
    as (ex & reserved & incs & db & Hf & Hp & Hc & _ & Hitems & _).
  rewrite Hfind in Hf. inversion Hf as [Hex]. rewrite <- Hex in *. clear Hf Hex.
  unfold cancelBranch in Hc. rewrite (cancels_spec _ _ Hstatus), Hnot in Hc.
  destruct (restoreProducts (now env) (Slip.products existing) reserved)
    as [db2 | ? ? |] eqn:Hr; try discriminate.
  inversion Hc as [[Hi Hd]]. clear Hc.
  exists reserved. split; [exact Hp |]. intros i.
  rewrite Hitems, <- Hd, (restoreProducts_quantityOf _ _ _ _ Hr i).
  now rewrite (givenBack_kview _ _ _ i (productsBranch_kview _ _ _ _ _ Hp)).
Qed.

Lemma restoreProducts_runs (now : Date) (olds : list SlipProduct.t) (db : list Item.t) :
  Forall (fun l => RegExp_i (patternOf (SlipProduct.productName l)) <> None) olds ->
  exists db', restoreProducts now olds db = Next db'.
Proof.
  intros Hre. revert db. induction Hre as [| old olds Hold _ IH]; intros db; simpl.
  - now exists db.
  - unfold lookup. destruct (RegExp_i (patternOf (SlipProduct.productName old)));
      [| contradiction].
    destruct (Item.findOne b db); apply IH.
Qed.

(** A plain cancellation (no products in the request) of a slip that is
    there commits, as soon as the names of its lines are regular
    expressions. *)
Lemma plain_cancellation_commits (env : Env) (id : ObjectId) (req : UpdateReq)
      (st : Store) (existing : Slip.t) :
  Slip.findById id (slips st) = Some existing ->
  u_products req = None ->
  Forall (fun l => RegExp_i (patternOf (SlipProduct.productName l)) <> None)
         (Slip.products existing) ->
  exists st', updateSlip env id req st
              = (Updated (applyUpdate (now env) req existing), st').
Proof.
  intros Hfind Hnone Hre.
  unfold updateSlip, putBody. rewrite Hfind, Hnone. cbn [productsBranch settle].
  unfold cancelBranch. destruct (cancels (u_status req) existing).
  - destruct (restoreProducts_runs (now env) _ (items st) Hre) as [db' ->].
    cbn [settle]. eauto.
  - cbn [settle]. eauto.
Qed.

(** ** The cancellation *)

(** C3.  An edit that sets the status to Cancelled on a slip whose
    [cancelledAt] is not set, and commits: the stored slip has
    [cancelledAt] stamped; every income entry that was active and carries
    the slip's [_id] as [slipId] or the slip's [slipNumber] is still in
    the collection, now inactive, and the other entries are unchanged; on
    top of what the products branch left (the items as they were when no
    products are sent), every item holds again what the lines of the slip
    as it stood before the edit carry for it. *)
Theorem cancellation_compensates (env : Env) (id : ObjectId) (req : UpdateReq)
        (st st' : Store) (existing s' : Slip.t) :
  Slip.findById id (slips st) = Some existing ->
  Slip.cancelledAt existing = None ->
  u_status req = Some "Cancelled" ->
  updateSlip env id req st = (Updated s', st') ->
  (Slip.cancelledAt s' = Some (now env)
   /\ Slip.status s' = "Cancelled"
   /\ Slip.findById id (slips st') = Some s')
  /\ Forall2
       (fun inc inc' =>
          ((Income.slipId inc = Some (Slip._id existing)
            \/ Income.slipNumber inc = Some (Slip.slipNumber existing)) ->
           Income.isActive inc = true ->
           Income.isActive inc' = false
           /\ Income._id inc' = Income._id inc
           /\ Income.slipId inc' = Income.slipId inc
           /\ Income.slipNumber inc' = Income.slipNumber inc
           /\ Income.totalIncome inc' = Income.totalIncome inc
           /\ Income.productsSold inc' = Income.productsSold inc)
          /\ (Income.linked (Slip._id existing) (Slip.slipNumber existing) inc = false ->
              inc' = inc))
       (incomes st) (incomes st')
  /\ exists reserved,
      productsBranch (now env) existing (u_products req) (items st) = Next reserved
      /\ (u_products req = None -> reserved = items st)
      /\ kview (items st') = kview (items st)
      /\ forall i, Item.quantityOf i (items st')
                   = Item.quantityOf i reserved + givenBack existing (items st) i.
Proof.
  intros Hfind Hnot Hstatus Hrun.
  destruct (updateSlip_Updated _ _ _ _ _ _ Hrun)
    as (ex & reserved & incs & db & Hf & Hp & Hc & Hs & Hitems & Hslips & Hincs).
  rewrite Hfind in Hf. inversion Hf; subst ex. clear Hf.
  unfold cancelBranch in Hc. rewrite (cancels_spec _ _ Hstatus), Hnot in Hc.
  destruct (restoreProducts (now env) (Slip.products existing) reserved)
    as [db2 | ? ? |] eqn:Hr; try discriminate.
  inversion Hc; subst incs db2. clear Hc.
  assert (Hincs' : incomes st'
                   = Income.updateMany
                       (Income.linked (Slip._id existing) (Slip.slipNumber existing))
                       (deactivate existing) (incomes st)).
  { rewrite Hincs, Hstatus. simpl. now destruct (u_products req). }
  split; [| split].
  - subst s'. split; [| split].
    + simpl. now rewrite (cancels_spec _ _ Hstatus), Hnot.
    + simpl. now rewrite Hstatus.
    + rewrite Hslips. eapply findById_replaceById; [exact Hfind |].
      simpl. eapply findById_id. exact Hfind.
  - rewrite Hincs'.
    eapply Forall2_impl; [| apply updateMany_Forall2].
    intros inc inc' Heq. simpl in Heq. split.
    + intros Hkey Hact.
      rewrite (proj2 (linked_spec _ _ inc) (conj Hkey Hact)) in Heq.
      subst inc'. repeat split.
    + intros Hl. now rewrite Hl in Heq.
  - exists reserved.
    pose proof (productsBranch_kview _ _ _ _ _ Hp) as Hk.
    split; [exact Hp |]. split; [| split].
    + intros Hn. rewrite Hn in Hp. simpl in Hp. now inversion Hp.
    + rewrite Hitems. apply restoreProducts_views in Hr. destruct Hr as [Hk2 _].
      congruence.
    + intros i. rewrite Hitems.
      rewrite (restoreProducts_quantityOf _ _ _ _ Hr i).
      now rewrite (givenBack_kview _ _ _ i Hk).
Qed.

Lemma qview_map_quantity (db db' : list Item.t) :
  qview db' = qview db -> map Item.quantity db' = map Item.quantity db.
Proof. intros H. now rewrite <- !qview_quantities, H. Qed.

(** C4.  The cancellation sent again.  An edit with status Cancelled on a
    slip whose [cancelledAt] is already set never touches the income
    entries and never stamps [cancelledAt] again, and it leaves the items
    untouched: the request of a cancellation carries no products array.
    Should it carry one, the products branch runs as for any edit, and
    every quantity is as it was when the products repeat the lines of the
    slip. *)
Theorem repeated_cancellation_is_guarded (env : Env) (id : ObjectId) (req : UpdateReq)
        (st : Store) (existing : Slip.t) (t : Date) :
  Slip.findById id (slips st) = Some existing ->
  Slip.cancelledAt existing = Some t ->
  u_status req = Some "Cancelled" ->
  incomes (snd (updateSlip env id req st)) = incomes st
  /\ (forall s', fst (updateSlip env id req st) = Updated s' ->
                 Slip.cancelledAt s' = Some t)
  /\ (u_products req = None -> items (snd (updateSlip env id req st)) = items st)
  /\ (forall ps, u_products req = Some ps ->
                 reqLines ps = slipLines (Slip.products existing) ->
                 map Item.quantity (items (snd (updateSlip env id req st)))
                 = map Item.quantity (items st)).
Proof.
  intros Hfind Hset Hstatus.
  destruct (updateSlip env id req st) as [r st'] eqn:Hrun. simpl.
  assert (Hupd : forall s', r = Updated s' ->
            Slip.cancelledAt s' = Some t
            /\ incomes st' = incomes st
            /\ productsBranch (now env) existing (u_products req) (items st)
               = Next (items st')).
  { intros s' ->.
    destruct (updateSlip_Updated _ _ _ _ _ _ Hrun)
      as (ex & reserved & incs & db & Hf & Hp & Hc & Hs & Hitems & _ & Hincs).
    rewrite Hfind in Hf. inversion Hf; subst ex. clear Hf.
    unfold cancelBranch in Hc. rewrite (cancels_spec _ _ Hstatus), Hset in Hc.
    inversion Hc as [[Hi Hd]]. clear Hc.
    split; [| split].
    - rewrite Hs. simpl. now rewrite (cancels_spec _ _ Hstatus), Hset.
    - rewrite Hincs, Hstatus, <- Hi. simpl. now destruct (u_products req).
    - now rewrite Hitems, <- Hd. }
  destruct (updateSlip_cases _ _ _ _ _ _ Hrun) as [[s' ->] | ->].
  - destruct (Hupd s' eq_refl) as (Hc & Hi & Hp).
    split; [exact Hi |]. split; [| split].
    + intros s'' H. inversion H; subst s''. exact Hc.
    + intros Hn. rewrite Hn in Hp. simpl in Hp. now inversion Hp.
    + intros ps Hps Hsame. rewrite Hps in Hp.
      apply qview_map_quantity.
      exact (proj2 (productsBranch_roundtrip _ _ _ _ _ Hsame Hp)).
  - split; [reflexivity |]. split; [| split]; try reflexivity.
    intros s' ->. now destruct (Hupd s' eq_refl).
Qed.

(** ** The products branch of an edit *)


(** What a products branch that goes through does to each quantity: the
    lines of the slip are given back, the lines of the request taken. *)
Lemma productsBranch_quantityOf (now : Date) (slip : Slip.t) (ps : list ReqProduct.t)
      (db db' : list Item.t) :
  productsBranch now slip (Some ps) db = Next db' ->
  exists restored,
    restoreProducts now (Slip.products slip) db = Next restored
    /\ forall i, Item.quantityOf i db'
                 = Item.quantityOf i db + givenBack slip db i - reservedBy ps db i.
Proof.
  unfold productsBranch.
  destruct (restoreProducts now (Slip.products slip) db) as [restored | ? ? |] eqn:Hr;
    try discriminate.
  destruct (validateProducts restored ps) as [us | ? ? |] eqn:Hv; try discriminate.
  intros H. inversion H; subst db'. clear H.
  exists restored. split; [reflexivity |]. intros i.
  pose proof (restoreProducts_quantityOf _ _ _ _ Hr i) as Hq1.
  apply restoreProducts_views in Hr. destruct Hr as [Hk _].
  apply validateProducts_resolved in Hv.
  destruct (reduceStock_views now us restored) as [_ Hq2].
  rewrite quantityOf_qget, Hq2, qget_bumps.
  - rewrite totalFor_negated, <- quantityOf_qget, Hq1. unfold reservedBy.
    rewrite <- (resolved_kview _ _ _ Hk), <- Hv. lia.
  - apply negated_has. rewrite Hv. apply resolved_present.
Qed.

(** C9, as the code has it.  An edit that sends products and sets the
    status to Cancelled on a slip whose [cancelledAt] is not set, and
    commits, gives the lines of the slip back twice and takes the new
    lines once.  The same request without its products (the plain
    cancellation) commits too, and against it every item ends with what
    the lines of the slip carry for it more, and what the new lines ask of
    it less. *)
Theorem edit_and_cancel_restores_twice (env : Env) (id : ObjectId) (req : UpdateReq)
        (st st' : Store) (existing s' : Slip.t) (ps : list ReqProduct.t) :
  Slip.findById id (slips st) = Some existing ->
  Slip.cancelledAt existing = None ->
  u_status req = Some "Cancelled" ->
  u_products req = Some ps ->
  updateSlip env id req st = (Updated s', st') ->
  (forall i, Item.quantityOf i (items st')
             = Item.quantityOf i (items st)
               + 2 * givenBack existing (items st) i
               - reservedBy ps (items st) i)
  /\ exists sp stp,
      updateSlip env id (withoutProducts req) st = (Updated sp, stp)
      /\ (forall i, Item.quantityOf i (items stp)
                    = Item.quantityOf i (items st) + givenBack existing (items st) i)
      /\ (forall i, Item.quantityOf i (items st')
                    = Item.quantityOf i (items stp)
                      + givenBack existing (items st) i
                      - reservedBy ps (items st) i).
Proof.
  intros Hfind Hnot Hstatus Hps Hrun.
  destruct (cancellation_restores env id req st st' existing s'
              Hfind Hnot Hstatus Hrun) as (reserved & Hp & Hq).
  rewrite Hps in Hp.
  destruct (productsBranch_quantityOf _ _ _ _ _ Hp) as (restored & Hr & Hq1).
  assert (Htwice : forall i, Item.quantityOf i (items st')
                             = Item.quantityOf i (items st)
                               + 2 * givenBack existing (items st) i
                               - reservedBy ps (items st) i).
  { intros i. rewrite Hq, Hq1. lia. }
  split; [exact Htwice |].
  exists (applyUpdate (now env) (withoutProducts req) existing),
    {| items := restored;
       slips := Slip.replaceById id (applyUpdate (now env) (withoutProducts req) existing)
                                 (slips st);
       incomes := Income.updateMany
                    (Income.linked (Slip._id existing) (Slip.slipNumber existing))
                    (deactivate existing) (incomes st) |}.
  split; [| split].
  - unfold updateSlip, putBody. rewrite Hfind. simpl.
    unfold cancelBranch. simpl. rewrite (cancels_spec _ _ Hstatus), Hnot, Hr.
    reflexivity.
  - intros i. simpl. apply (restoreProducts_quantityOf _ _ _ _ Hr).
  - intros i. simpl. rewrite Htwice, (restoreProducts_quantityOf _ _ _ _ Hr i). lia.
Qed.

(** ** Creation *)

Lemma createSlip_Created (env : Env) (req : CreateReq) (st st' : Store) (s : Slip.t) :
  createSlip env req st = (Created s, st') ->
  exists ps us,
    c_products req = Some ps
    /\ checkProducts (items st) ps = Next us
    /\ Slip.products s = map processProduct ps
    /\ items st' = reduceStock (now env) us (items st)
    /\ slips st' = slips st ++ [s]
    /\ List.length (incomes st') = S (List.length (incomes st)).
Proof.
  unfold createSlip, postBody.
  destruct (c_products req) as [[| p ps] |]; cbn [settle];
    try (intros H; now inversion H).
  destruct (c_subtotal req) as [subtotal |]; cbn [settle];
    try (intros H; now inversion H).
  destruct (c_totalAmount req) as [total |]; cbn [settle];
    try (intros H; now inversion H).
  destruct (checkProducts (items st) (p :: ps)) as [us | ? ? |] eqn:Hc; cbn [settle];
    try (intros H; now inversion H).
  intros H. inversion H. exists (p :: ps), us.
  cbn [items slips incomes Slip.products].
  repeat split; try assumption.
  rewrite List.length_app. simpl. lia.
Qed.

Lemma createSlip_cases (env : Env) (req : CreateReq) (st : Store) :
  isCreated (fst (createSlip env req st)) = true
  \/ (isCreated (fst (createSlip env req st)) = false
      /\ snd (createSlip env req st) = st).
Proof.
  unfold createSlip. destruct (postBody env req st) as [[r st'] | ? ? |] eqn:Hb; simpl;
    try (right; split; reflexivity).
  left. unfold postBody in Hb.
  destruct (c_products req) as [[| p ps] |]; try discriminate.
  destruct (c_subtotal req); try discriminate.
  destruct (c_totalAmount req); try discriminate.
  destruct (checkProducts (items st) (p :: ps)); try discriminate.
  now inversion Hb.
Qed.

(** A creation that goes through takes from every item what the lines
    that resolve to it ask, all lines of one item together. *)
Lemma create_takes_stock (env : Env) (req : CreateReq) (st st' : Store) (s : Slip.t)
      (ps : list ReqProduct.t) :
  createSlip env req st = (Created s, st') ->
  c_products req = Some ps ->
  forall i, Item.quantityOf i (items st')
            = Item.quantityOf i (items st) - reservedBy ps (items st) i.
Proof.
  intros Hrun Hps i.
  destruct (createSlip_Created _ _ _ _ _ Hrun) as (ps' & us & Hps' & Hc & _ & Hitems & _).
  rewrite Hps in Hps'. inversion Hps'; subst ps'.
  apply checkProducts_resolved in Hc.
  destruct (reduceStock_views (now env) us (items st)) as [_ Hq].
  rewrite Hitems, !quantityOf_qget, Hq, qget_bumps.
  - rewrite totalFor_negated. unfold reservedBy. rewrite <- Hc. lia.
  - apply negated_has. rewrite Hc. apply resolved_present.
Qed.

Lemma checkProducts_checked (db : list Item.t) (ps : list ReqProduct.t)
      (us : list (ObjectId * Z)) :
  uniqueIds db ->
  checkProducts db ps = Next us ->
  Forall (fun u => snd u <= qget (fst u) (qview db)) us.
Proof.
  intros Hu. revert us. induction ps as [| p ps IH]; intros us H; simpl in H.
  - inversion H. constructor.
  - destruct (lookup (orS (ReqProduct.productName p) (ReqProduct.itemName p)) db)
      as [[it |] | ? ? |] eqn:Hl; try discriminate.
    destruct (Z.ltb_spec (Item.quantity it) (ReqProduct.quantity p)) as [Hlt | Hge];
      [discriminate |].
    destruct (checkProducts db ps) as [us' | ? ? |]; try discriminate.
    inversion H. constructor; [| now apply IH].
    simpl. rewrite <- quantityOf_qget, (unique_quantityOf db it Hu (lookup_In _ _ _ Hl)).
    exact Hge.
Qed.

Lemma bump_nonneg (i : ObjectId) (d : Z) (l : list (ObjectId * Z)) :
  Forall (fun e => 0 <= snd e) l -> 0 <= qget i l + d ->
  Forall (fun e => 0 <= snd e) (bump i d l).
Proof.
  induction 1 as [| [j q] l Hq Hl IH]; simpl; [constructor |].
  intros Hd. destruct (j =? i)%string; constructor; simpl in *; auto; lia.
Qed.

Lemma qget_bump_other (i j : ObjectId) (d : Z) (l : list (ObjectId * Z)) :
  j <> i -> qget i (bump j d l) = qget i l.
Proof.
  intros Hne. induction l as [| [k q] l IH]; simpl; [reflexivity |].
  destruct (String.eqb_spec k j) as [Hk | Hk]; simpl.
  - subst k. now rewrite (proj2 (String.eqb_neq j i) Hne).
  - destruct (k =? i)%string; [reflexivity | exact IH].
Qed.

Lemma bumps_negated_nonneg (us l : list (ObjectId * Z)) :
  Forall (fun e => 0 <= snd e) l ->
  NoDup (map fst us) ->
  Forall (fun u => snd u <= qget (fst u) l) us ->
  Forall (fun e => 0 <= snd e) (bumps (negated us) l).
Proof.
  revert l. induction us as [| [i q] us IH]; intros l Hl Hnd Hle; [exact Hl |].
  inversion Hnd as [| ? ? Hnotin Hnd']; subst.
  inversion Hle as [| ? ? Hq Hle']; subst. simpl in Hq.
  change (bumps (negated ((i, q) :: us)) l) with (bumps (negated us) (bump i (- q) l)).
  apply IH; [apply bump_nonneg; [exact Hl | lia] | exact Hnd' |].
  rewrite Forall_forall in *. intros [j q'] Hin. simpl.
  rewrite qget_bump_other.
  - exact (Hle' (j, q') Hin).
  - intros ->. apply Hnotin. now apply (in_map fst) in Hin.
Qed.

(** When the lines of the request resolve to items that are all different,
    a creation that goes through leaves no quantity negative. *)
Lemma create_keeps_stock_nonNegative (env : Env) (req : CreateReq) (st st' : Store)
      (s : Slip.t) (ps : list ReqProduct.t) :
  uniqueIds (items st) -> nonNegative (items st) ->
  createSlip env req st = (Created s, st') ->
  c_products req = Some ps ->
  NoDup (map fst (resolved (reqLines ps) (items st))) ->
  nonNegative (items st').
Proof.
  intros Hu Hnn Hrun Hps Hnd.
  destruct (createSlip_Created _ _ _ _ _ Hrun) as (ps' & us & Hps' & Hc & _ & Hitems & _).
  rewrite Hps in Hps'. inversion Hps'; subst ps'.
  pose proof (checkProducts_checked _ _ _ Hu Hc) as Hle.
  apply checkProducts_resolved in Hc. rewrite <- Hc in Hnd.
  destruct (reduceStock_views (now env) us (items st)) as [_ Hq].
  assert (Hview : forall db, nonNegative db <-> Forall (fun e => 0 <= snd e) (qview db)).
  { intros db. unfold nonNegative, qview. rewrite Forall_map. reflexivity. }
  apply Hview. rewrite Hitems, Hq.
  apply bumps_negated_nonneg; [now apply Hview | exact Hnd | exact Hle].
Qed.




(** ** Deletion *)

Lemma findByIdAndDelete_spec (id : ObjectId) (db : list Slip.t) :
  match Slip.findById id db with
  | Some s =>
      exists before after,
        db = before ++ s :: after
        /\ Slip.findById id before = None
        /\ Slip.findByIdAndDelete id db = (Some s, before ++ after)
  | None => Slip.findByIdAndDelete id db = (None, db)
  end.
Proof.
  unfold Slip.findById. induction db as [| x db IH]; simpl; [reflexivity |].
  destruct (Slip._id x =? id)%string eqn:He.
  - exists [], db. simpl. repeat split.
  - destruct (find _ db) as [s |].
    + destruct IH as (before & after & Hdb & Hnone & Hdel).
      exists (x :: before), after. simpl. rewrite He, Hdel, Hdb. repeat split.
      exact Hnone.
    + now rewrite IH.
Qed.

(** C10.  The DELETE handler removes the slip with the given identifier
    from the collection, whatever its status and whether or not it was
    cancelled, and leaves every item and every income entry as it was;
    when there is no such slip it answers 404 and changes nothing. *)
Theorem delete_bypasses_compensation (id : ObjectId) (st : Store) :
  items (snd (deleteSlip id st)) = items st
  /\ incomes (snd (deleteSlip id st)) = incomes st
  /\ (forall s, Slip.findById id (slips st) = Some s ->
        fst (deleteSlip id st) = Deleted
        /\ exists before after,
            slips st = before ++ s :: after
            /\ Slip.findById id before = None
            /\ slips (snd (deleteSlip id st)) = before ++ after)
  /\ (Slip.findById id (slips st) = None ->
      deleteSlip id st = (Reject 404 "Slip not found", st)).
Proof.
  pose proof (findByIdAndDelete_spec id (slips st)) as Hspec.
  unfold deleteSlip.
  destruct (Slip.findById id (slips st)) as [s |].
  - destruct Hspec as (before & after & Hdb & Hnone & Hdel). rewrite Hdel. simpl.
    split; [reflexivity |]. split; [reflexivity |]. split; [| discriminate].
    intros s1 Hs1. inversion Hs1 as [Heq]. rewrite <- Heq. split; [reflexivity |].
    exists before, after. auto.
  - rewrite Hspec. simpl. repeat split; discriminate.
Qed.

(** * Further properties of the routes *)

(** ** A slip from creation to cancellation *)

Lemma createSlip_record (env : Env) (req : CreateReq) (st st' : Store) (s : Slip.t) :
  createSlip env req st = (Created s, st') ->
  exists ps us total inc,
    c_products req = Some ps
    /\ c_totalAmount req = Some total
    /\ checkProducts (items st) ps = Next us
    /\ (Slip._id s = newSlipId env
        /\ Slip.slipNumber s = newSlipNumber env
        /\ Slip.status s = "Paid"
        /\ Slip.cancelledAt s = None
        /\ Slip.totalAmount s = total
        /\ Slip.products s = map processProduct ps)
    /\ items st' = reduceStock (now env) us (items st)
    /\ slips st' = slips st ++ [s]
    /\ incomes st' = incomes st ++ [inc]
    /\ (Income.slipId inc = Some (newSlipId env)
        /\ Income.slipNumber inc = Some (newSlipNumber env)
        /\ Income.isActive inc = true
        /\ Income.totalIncome inc = total
        /\ Income.customerName inc = Slip.customerName s).
Proof.
  unfold createSlip, postBody.
  destruct (c_products req) as [[| p ps] |]; cbn [settle];
    try (intros H; now inversion H).
  destruct (c_subtotal req) as [subtotal |]; cbn [settle];
    try (intros H; now inversion H).
  destruct (c_totalAmount req) as [total |]; cbn [settle];
    try (intros H; now inversion H).
  destruct (checkProducts (items st) (p :: ps)) as [us | ? ? |] eqn:Hc; cbn [settle];
    try (intros H; now inversion H).
  intros H. inversion H. eexists (p :: ps), us, total, _.
  cbn [items slips incomes].
  repeat split; try reflexivity. exact Hc.
Qed.

Lemma findById_app_fresh (id : ObjectId) (db : list Slip.t) (s : Slip.t) :
  Slip.findById id db = None -> Slip._id s = id ->
  Slip.findById id (db ++ [s]) = Some s.
Proof.
  unfold Slip.findById. intros Hnone Hid.
  induction db as [| x db IH]; simpl in *.
  - now rewrite Hid, String.eqb_refl.
  - destruct (Slip._id x =? id)%string; [discriminate | now apply IH].
Qed.

Lemma checkProducts_compiles (db : list Item.t) (ps : list ReqProduct.t)
      (us : list (ObjectId * Z)) :
  checkProducts db ps = Next us ->
  Forall (fun l => RegExp_i (patternOf (SlipProduct.productName l)) <> None)
         (map processProduct ps).
Proof.
  revert us. induction ps as [| p ps IH]; intros us H; simpl in *; [constructor |].
  unfold lookup in H.
  destruct (RegExp_i (patternOf (orS (ReqProduct.productName p) (ReqProduct.itemName p))))
    as [re |] eqn:Hre; [| discriminate].
  destruct (Item.findOne re db) as [it |]; [| discriminate].
  destruct (Item.quantity it <? ReqProduct.quantity p); [discriminate |].
  destruct (checkProducts db ps) as [us' | ? ? |]; try discriminate.
  constructor; [simpl; congruence | now apply (IH us')].
Qed.

Lemma slipLines_processProduct (ps : list ReqProduct.t) :
  slipLines (map processProduct ps) = reqLines ps.
Proof. unfold slipLines, reqLines. rewrite map_map. reflexivity. Qed.

Lemma negated_negated (us : list (ObjectId * Z)) : negated (negated us) = us.
Proof.
  unfold negated. rewrite map_map. rewrite <- (map_id us) at 2.
  apply map_ext. intros [i q]. simpl. f_equal. lia.
Qed.

(** Giving back what was taken leaves the stock as it was. *)
Lemma bumps_back (us l : list (ObjectId * Z)) :
  bumps us (bumps (negated us) l) = l.
Proof.
  rewrite <- (negated_negated us) at 1. apply bumps_negated.
Qed.

Lemma deactivated_not_linked (existing : Slip.t) (a : ObjectId) (b : string)
      (incs : list Income.t) :
  Forall (fun inc => Income.linked a b inc = false)
         (Income.updateMany (Income.linked a b) (deactivate existing) incs).
Proof.
  unfold Income.updateMany. apply Forall_map. apply Forall_forall. intros inc _.
  destruct (Income.linked a b inc) eqn:Hl; [| exact Hl].
  unfold Income.linked. simpl. apply andb_false_r.
Qed.

Lemma updateMany_length (filter : Income.t -> bool) (update : Income.t -> Income.t)
      (db : list Income.t) :
  List.length (Income.updateMany filter update db) = List.length db.
Proof. unfold Income.updateMany. apply List.length_map. Qed.

(** X1.  A slip that was created, under an [_id] no other slip has, and is
    then cancelled by an edit that carries the status only: the
    cancellation commits, stamps [cancelledAt], leaves every item with the
    quantity, name, SKU and flag it had before the creation, and leaves the
    income entry of the slip in the collection with no active entry linked
    to the slip. *)
Theorem create_then_cancel_restores_stock (env env' : Env) (req : CreateReq)
        (creq : UpdateReq) (st st1 : Store) (s : Slip.t) :
  createSlip env req st = (Created s, st1) ->
  Slip.findById (newSlipId env) (slips st) = None ->
  u_status creq = Some "Cancelled" ->
  u_products creq = None ->
  exists s2 st2,
    updateSlip env' (newSlipId env) creq st1 = (Updated s2, st2)
    /\ Slip.cancelledAt s2 = Some (now env')
    /\ map Item.quantity (items st2) = map Item.quantity (items st)
    /\ kview (items st2) = kview (items st)
    /\ List.length (incomes st2) = S (List.length (incomes st))
    /\ Forall (fun inc => Income.linked (newSlipId env) (newSlipNumber env) inc = false)
              (incomes st2).
Proof.
  intros Hrun Hfresh Hstatus Hnone.
  destruct (createSlip_record _ _ _ _ _ Hrun)
    as (ps & us & total & inc & _ & _ & Hc & (Hid & Hnum & _ & Hnot & _ & Hprod)
        & Hitems & Hslips & Hincs & _).
  assert (Hfind : Slip.findById (newSlipId env) (slips st1) = Some s).
  { rewrite Hslips. now apply findById_app_fresh. }
  pose proof (checkProducts_compiles _ _ _ Hc) as Hre. rewrite <- Hprod in Hre.
  destruct (restoreProducts_runs (now env') _ (items st1) Hre) as [db2 Hr].
  destruct (reduceStock_views (now env) us (items st)) as [Hk1 Hq1].
  rewrite <- Hitems in Hk1, Hq1.
  destruct (restoreProducts_views _ _ _ _ Hr) as [Hk2 Hq2].
  exists (applyUpdate (now env') creq s),
    {| items := db2;
       slips := Slip.replaceById (newSlipId env) (applyUpdate (now env') creq s) (slips st1);
       incomes := Income.updateMany (Income.linked (Slip._id s) (Slip.slipNumber s))
                                    (deactivate s) (incomes st1) |}.
  split; [| split; [| split; [| split; [| split]]]].
  - unfold updateSlip, putBody. rewrite Hfind, Hnone. cbn [productsBranch].
    unfold cancelBranch. rewrite (cancels_spec _ _ Hstatus), Hnot, Hr.
    cbn [settle]. reflexivity.
  - simpl. now rewrite (cancels_spec _ _ Hstatus), Hnot.
  - cbn [items]. apply qview_map_quantity.
    rewrite Hq2, Hprod, slipLines_processProduct.
    rewrite (resolved_kview _ _ _ Hk1), <- (checkProducts_resolved _ _ _ Hc), Hq1.
    apply bumps_back.
  - cbn [items]. congruence.
  - cbn [incomes]. rewrite updateMany_length, Hincs, List.length_app. simpl. lia.
  - cbn [incomes]. rewrite Hid, Hnum. apply deactivated_not_linked.
Qed.

(** ** What an edit does to the stock *)

Lemma updateSlip_stock_delta (env : Env) (id : ObjectId) (req : UpdateReq)
      (st st' : Store) (existing s' : Slip.t) (ps : list ReqProduct.t) :
  Slip.findById id (slips st) = Some existing ->
  u_products req = Some ps ->
  cancels (u_status req) existing = false ->
  updateSlip env id req st = (Updated s', st') ->
  forall i, Item.quantityOf i (items st')
            = Item.quantityOf i (items st)
              + givenBack existing (items st) i - reservedBy ps (items st) i.
Proof.
  intros Hfind Hps Hnc Hrun i.
  destruct (updateSlip_Updated _ _ _ _ _ _ Hrun)
    as (ex & reserved & incs & db & Hf & Hp & Hc & _ & Hitems & _).
  rewrite Hfind in Hf. inversion Hf as [Hex]. rewrite <- Hex in *. clear Hf Hex.
  unfold cancelBranch in Hc. rewrite Hnc in Hc. inversion Hc as [[Hi Hd]].
  rewrite Hps in Hp.
  destruct (productsBranch_quantityOf _ _ _ _ _ Hp) as (_ & _ & Hq).
  rewrite Hitems, <- Hd. apply Hq.
Qed.

(** X2.  An edit that sends products, does not cancel the slip, and
    commits moves each item by the difference of the two line sets: what the
    lines of the slip carried for it comes back, what the new lines ask of it
    goes. *)
Theorem edit_moves_stock_by_difference (env : Env) (id : ObjectId) (req : UpdateReq)
        (st st' : Store) (existing s' : Slip.t) (ps : list ReqProduct.t) :
  Slip.findById id (slips st) = Some existing ->
  u_products req = Some ps ->
  cancels (u_status req) existing = false ->
  updateSlip env id req st = (Updated s', st') ->
  forall i, Item.quantityOf i (items st')
            = Item.quantityOf i (items st)
              + givenBack existing (items st) i - reservedBy ps (items st) i.
Proof. exact (updateSlip_stock_delta env id req st st' existing s' ps). Qed.

(** X3.  Editing the lines of a slip that was just created leaves the
    stock as if the slip had been created with the new lines: each item is
    below its quantity before the creation by what the new lines ask of
    it. *)
Theorem create_then_edit_reserves_new_lines (env env' : Env) (req : CreateReq)
        (ereq : UpdateReq) (st st1 st2 : Store) (s s2 : Slip.t)
        (ps' : list ReqProduct.t) :
  createSlip env req st = (Created s, st1) ->
  Slip.findById (newSlipId env) (slips st) = None ->
  u_products ereq = Some ps' ->
  isCancelled (u_status ereq) = false ->
  updateSlip env' (newSlipId env) ereq st1 = (Updated s2, st2) ->
  forall i, Item.quantityOf i (items st2)
            = Item.quantityOf i (items st) - reservedBy ps' (items st) i.
Proof.
  intros Hrun Hfresh Hps' Hnc Hedit i.
  destruct (createSlip_record _ _ _ _ _ Hrun)
    as (ps & us & total & inc & Hps & _ & Hc & (Hid & _ & _ & _ & _ & Hprod)
        & Hitems & Hslips & _).
  assert (Hfind : Slip.findById (newSlipId env) (slips st1) = Some s).
  { rewrite Hslips. now apply findById_app_fresh. }
  assert (Hcan : cancels (u_status ereq) s = false).
  { unfold cancels. now rewrite Hnc. }
  rewrite (updateSlip_stock_delta _ _ _ _ _ _ _ _ Hfind Hps' Hcan Hedit i).
  rewrite (create_takes_stock _ _ _ _ _ _ Hrun Hps i).
  destruct (reduceStock_views (now env) us (items st)) as [Hk1 _].
  rewrite <- Hitems in Hk1.
  unfold givenBack, reservedBy.
  rewrite Hprod, slipLines_processProduct, !(resolved_kview _ _ _ Hk1). lia.
Qed.

(** ** What the slip routes leave alone *)

Lemma cancelBranch_kview (now : Date) (req : UpdateReq) (existing : Slip.t)
      (incs incs' : list Income.t) (db db' : list Item.t) :
  cancelBranch now req existing incs db = Next (incs', db') -> kview db' = kview db.
Proof.
  unfold cancelBranch. destruct (cancels (u_status req) existing).
  - destruct (restoreProducts now (Slip.products existing) db) as [db2 | ? ? |] eqn:Hr;
      try discriminate.
    intros H. inversion H as [[Hi Hd]]. rewrite <- Hd.
    now apply restoreProducts_views in Hr.
  - intros H. now inversion H.
Qed.

(** X4.  The creation, the edit and the deletion of a slip, whatever their
    outcome, change no item but in its quantity and its time stamp: the
    items, their order, their identifiers, names, SKUs and active flags are
    as before. *)
Theorem slip_routes_keep_item_identity (env : Env) (id : ObjectId) (creq : CreateReq)
        (ureq : UpdateReq) (st : Store) :
  kview (items (snd (createSlip env creq st))) = kview (items st)
  /\ kview (items (snd (updateSlip env id ureq st))) = kview (items st)
  /\ kview (items (snd (deleteSlip id st))) = kview (items st).
Proof.
  split; [| split].
  - destruct (createSlip env creq st) as [r st'] eqn:Hrun. simpl.
    destruct r; try (destruct (createSlip_cases env creq st) as [Hc | [_ Hs]];
                     rewrite Hrun in *; simpl in *; [discriminate | now subst]).
    destruct (createSlip_Created _ _ _ _ _ Hrun) as (ps & us & _ & _ & _ & Hitems & _).
    rewrite Hitems. apply reduceStock_views.
  - destruct (updateSlip env id ureq st) as [r st'] eqn:Hrun. simpl.
    destruct (updateSlip_cases _ _ _ _ _ _ Hrun) as [[s' ->] | ->]; [| reflexivity].
    destruct (updateSlip_Updated _ _ _ _ _ _ Hrun)
      as (ex & reserved & incs & db & _ & Hp & Hc & _ & Hitems & _).
    rewrite Hitems, (cancelBranch_kview _ _ _ _ _ _ _ Hc).
    exact (productsBranch_kview _ _ _ _ _ Hp).
  - unfold deleteSlip. destruct (Slip.findByIdAndDelete id (slips st)) as [[d |] rest];
      reflexivity.
Qed.

(** X5.  An edit that sends no products and does not cancel always commits,
    and touches neither the items nor the income entries: the income entry
    of the slip keeps its total and its customer when the edit changes those
    of the slip. *)
Theorem edit_without_products_leaves_income (env : Env) (id : ObjectId) (req : UpdateReq)
        (st : Store) (existing : Slip.t) :
  Slip.findById id (slips st) = Some existing ->
  u_products req = None ->
  cancels (u_status req) existing = false ->
  fst (updateSlip env id req st) = Updated (applyUpdate (now env) req existing)
  /\ Slip.totalAmount (applyUpdate (now env) req existing)
     = overZ (u_totalAmount req) (Slip.totalAmount existing)
  /\ items (snd (updateSlip env id req st)) = items st
  /\ incomes (snd (updateSlip env id req st)) = incomes st.
Proof.
  intros Hfind Hnone Hnc.
  unfold updateSlip, putBody. rewrite Hfind, Hnone. cbn [productsBranch].
  unfold cancelBranch. rewrite Hnc. cbn [settle fst snd items incomes].
  repeat split.
Qed.

(** X6.  An edit that sends products with a status other than Cancelled, and
    commits, rewrites the active income entries linked to the slip so that
    they agree with the stored slip: same total, same customer, the lines of
    the slip, and its payment method when it has one; the entries stay
    active and linked, and every other entry is as it was. *)
Theorem edit_rewrites_income_mirror (env : Env) (id : ObjectId) (req : UpdateReq)
        (st st' : Store) (existing s' : Slip.t) (ps : list ReqProduct.t) :
  Slip.findById id (slips st) = Some existing ->
  u_products req = Some ps ->
  isCancelled (u_status req) = false ->
  updateSlip env id req st = (Updated s', st') ->
  Forall2
    (fun inc inc' =>
       (Income.linked (Slip._id existing) (Slip.slipNumber existing) inc = true ->
        Income.totalIncome inc' = Slip.totalAmount s'
        /\ Income.customerName inc' = Slip.customerName s'
        /\ Income.productsSold inc' = Income.Lines (Slip.products s')
        /\ (forall m, Slip.paymentMethod s' = Some m -> Income.paymentMethod inc' = m)
        /\ Income.linked (Slip._id existing) (Slip.slipNumber existing) inc' = true
        /\ Income._id inc' = Income._id inc)
       /\ (Income.linked (Slip._id existing) (Slip.slipNumber existing) inc = false ->
           inc' = inc))
    (incomes st) (incomes st').
Proof.
  intros Hfind Hps Hnc Hrun.
  destruct (updateSlip_Updated _ _ _ _ _ _ Hrun)
    as (ex & reserved & incs & db & Hf & _ & Hc & Hs & _ & _ & Hincs).
  rewrite Hfind in Hf. inversion Hf as [Hex]. rewrite <- Hex in *. clear Hf Hex.
  unfold cancelBranch, cancels in Hc. rewrite Hnc in Hc. simpl in Hc.
  inversion Hc as [[Hi Hd]]. rewrite Hps, Hnc, <- Hi in Hincs. simpl in Hincs.
  rewrite Hincs.
  eapply Forall2_impl; [| apply updateMany_Forall2].
  intros inc inc' Heq. simpl in Heq. split.
  - intros Hl. rewrite Hl in Heq. subst inc'. unfold rewriteIncome. simpl.
    split; [| split; [| split; [| split; [| split]]]]; try reflexivity.
    + rewrite Hs. simpl. unfold orN, truthyN, overZ.
      destruct (u_totalAmount req) as [v |]; [| reflexivity].
      destruct (Z.eqb_spec v 0); simpl; congruence.
    + rewrite Hs. simpl. unfold overS, orLit.
      destruct (u_customerName req) as [[| c n] |]; reflexivity.
    + intros m. rewrite Hs. simpl. unfold orS, overO, truthy.
      destruct (u_paymentMethod req) as [[| c n] |]; simpl.
      * intros H. inversion H. reflexivity.
      * intros H. inversion H. reflexivity.
      * intros ->. destruct (truthy None); reflexivity.
    + exact Hl.
  - intros Hl. now rewrite Hl in Heq.
Qed.

(** ** Lines that resolve to no item *)

Lemma restoreProducts_unresolved (now : Date) (olds : list SlipProduct.t)
      (db : list Item.t) :
  Forall (fun l => lookup (SlipProduct.productName l) db = Next None) olds ->
  restoreProducts now olds db = Next db.
Proof.
  induction 1 as [| old olds Hold _ IH]; simpl; [reflexivity |].
  now rewrite Hold.
Qed.

(** X7.  A cancellation of a slip none of whose lines resolves to an active
    item (the items were renamed or soft-deleted since the sale) commits all
    the same: the slip is stamped and its income entries deactivated, and no
    quantity is given back to any item. *)
Theorem cancellation_skips_unresolved_lines (env : Env) (id : ObjectId) (req : UpdateReq)
        (st : Store) (existing : Slip.t) :
  Slip.findById id (slips st) = Some existing ->
  Slip.cancelledAt existing = None ->
  u_status req = Some "Cancelled" ->
  u_products req = None ->
  Forall (fun l => lookup (SlipProduct.productName l) (items st) = Next None)
         (Slip.products existing) ->
  fst (updateSlip env id req st) = Updated (applyUpdate (now env) req existing)
  /\ Slip.cancelledAt (applyUpdate (now env) req existing) = Some (now env)
  /\ items (snd (updateSlip env id req st)) = items st
  /\ Forall (fun inc => Income.linked (Slip._id existing) (Slip.slipNumber existing) inc
                        = false)
            (incomes (snd (updateSlip env id req st))).
Proof.
  intros Hfind Hnot Hstatus Hnone Hun.
  unfold updateSlip, putBody. rewrite Hfind, Hnone. cbn [productsBranch].
  unfold cancelBranch.
  rewrite (cancels_spec _ _ Hstatus), Hnot, (restoreProducts_unresolved _ _ _ Hun).
  cbn [settle fst snd items incomes].
  split; [reflexivity |]. split; [| split; [reflexivity |]].
  - simpl. now rewrite (cancels_spec _ _ Hstatus), Hnot.
  - apply deactivated_not_linked.
Qed.

(** ** Stock that stays non-negative *)

Lemma nonNegative_qview (db : list Item.t) :
  nonNegative db <-> Forall (fun e => 0 <= snd e) (qview db).
Proof. unfold nonNegative, qview. rewrite Forall_map. reflexivity. Qed.

Lemma qget_nonneg (i : ObjectId) (l : list (ObjectId * Z)) :
  Forall (fun e => 0 <= snd e) l -> 0 <= qget i l.
Proof.
  induction 1 as [| [j q] l Hq _ IH]; simpl; [lia |].
  destruct (j =? i)%string; assumption.
Qed.

Lemma bumps_nonneg (us l : list (ObjectId * Z)) :
  Forall (fun e => 0 <= snd e) l ->
  Forall (fun u => 0 <= snd u) us ->
  Forall (fun e => 0 <= snd e) (bumps us l).
Proof.
  intros Hl Hus. revert l Hl. induction Hus as [| [i q] us Hq _ IH]; intros l Hl;
    [exact Hl |].
  change (bumps ((i, q) :: us) l) with (bumps us (bump i q l)).
  apply IH. apply bump_nonneg; [exact Hl |].
  pose proof (qget_nonneg i l Hl). simpl in Hq. lia.
Qed.

Lemma validateProducts_checked (db : list Item.t) (ps : list ReqProduct.t)
      (us : list (ObjectId * Z)) :
  uniqueIds db ->
  validateProducts db ps = Next us ->
  Forall (fun u => snd u <= qget (fst u) (qview db)) us.
Proof.
  intros Hu. revert us. induction ps as [| p ps IH]; intros us H; simpl in H.
  - inversion H. constructor.
  - destruct (negb _ || _ || _)%bool; [discriminate |].
    destruct (lookup (orS (ReqProduct.productName p) (ReqProduct.itemName p)) db)
      as [[it |] | ? ? |] eqn:Hl; try discriminate.
    destruct (Z.ltb_spec (Item.quantity it) (ReqProduct.quantity p)) as [Hlt | Hge];
      [discriminate |].
    destruct (validateProducts db ps) as [us' | ? ? |]; try discriminate.
    inversion H. constructor; [| now apply IH].
    simpl. rewrite <- quantityOf_qget, (unique_quantityOf db it Hu (lookup_In _ _ _ Hl)).
    exact Hge.
Qed.

Lemma restoreProducts_nonNegative (now : Date) (olds : list SlipProduct.t)
      (db db' : list Item.t) :
  nonNegative db ->
  Forall (fun l => 0 <= SlipProduct.quantity l) olds ->
  restoreProducts now olds db = Next db' ->
  nonNegative db'.
Proof.
  intros Hnn Hq Hr. apply restoreProducts_views in Hr. destruct Hr as [_ Hv].
  apply nonNegative_qview. rewrite Hv.
  apply bumps_nonneg; [now apply nonNegative_qview |].
  apply resolved_nonneg. unfold slipLines. apply Forall_map. exact Hq.
Qed.

(** X8.  In a collection of items with distinct identifiers and no negative
    quantity, an edit of a slip whose lines have no negative quantity leaves
    no quantity negative, whatever its outcome, as long as the new lines, if
    any are sent, resolve to items that are all different. *)
Theorem edit_keeps_stock_nonNegative (env : Env) (id : ObjectId) (req : UpdateReq)
        (st : Store) (existing : Slip.t) :
  uniqueIds (items st) ->
  nonNegative (items st) ->
  Slip.findById id (slips st) = Some existing ->
  Forall (fun l => 0 <= SlipProduct.quantity l) (Slip.products existing) ->
  (forall ps, u_products req = Some ps ->
              NoDup (map fst (resolved (reqLines ps) (items st)))) ->
  nonNegative (items (snd (updateSlip env id req st))).
Proof.
  intros Hu Hnn Hfind Hq Hnd.
  destruct (updateSlip env id req st) as [r st'] eqn:Hrun. simpl.
  destruct (updateSlip_cases _ _ _ _ _ _ Hrun) as [[s' ->] | ->]; [| exact Hnn].
  destruct (updateSlip_Updated _ _ _ _ _ _ Hrun)
    as (ex & reserved & incs & db & Hf & Hp & Hc & _ & Hitems & _).
  rewrite Hfind in Hf. inversion Hf as [Hex]. rewrite <- Hex in *. clear Hf Hex.
  assert (Hres : nonNegative reserved).
  { unfold productsBranch in Hp. destruct (u_products req) as [ps |] eqn:Hps.
    - destruct (restoreProducts (now env) (Slip.products existing) (items st))
        as [restored | ? ? |] eqn:Hr; try discriminate.
      destruct (validateProducts restored ps) as [us | ? ? |] eqn:Hv; try discriminate.
      inversion Hp as [Hred].
      pose proof (restoreProducts_nonNegative _ _ _ _ Hnn Hq Hr) as Hnr.
      destruct (restoreProducts_views _ _ _ _ Hr) as [Hk _].
      pose proof (validateProducts_checked _ _ _ (uniqueIds_kview _ _ Hk Hu) Hv) as Hle.
      apply validateProducts_resolved in Hv.
      apply nonNegative_qview.
      rewrite (proj2 (reduceStock_views (now env) us restored)).
      apply bumps_negated_nonneg; [now apply nonNegative_qview | | exact Hle].
      rewrite Hv, (resolved_kview _ _ _ Hk). now apply Hnd.
    - inversion Hp. now subst. }
  rewrite Hitems. unfold cancelBranch in Hc.
  destruct (cancels (u_status req) existing).
  - destruct (restoreProducts (now env) (Slip.products existing) reserved)
      as [db2 | ? ? |] eqn:Hr; try discriminate.
    inversion Hc as [[Hi Hd]]. rewrite <- Hd.
    exact (restoreProducts_nonNegative _ _ _ _ Hres Hq Hr).
  - inversion Hc as [[Hi Hd]]. now rewrite <- Hd.
Qed.

(** ** More on the pricing of a line *)

(** X9.  The stored discount of a line is not kept from being negative.
    In both handlers, for a line of a positive quantity, the stored discount
    is negative exactly when the unit price of the line is above its base
    price, and 0 exactly when the two are equal; a request that supplies a
    unit price above the base price is stored as a [manual] line with a
    negative discount. *)
Theorem stored_discount_follows_price (p : ReqProduct.t) (l : SlipProduct.t) :
  l = processProduct p \/ l = processProductEdit p ->
  0 < ReqProduct.quantity p ->
  (SlipProduct.discountAmount l < 0 <-> SlipProduct.basePrice l < SlipProduct.unitPrice l)
  /\ (SlipProduct.discountAmount l = 0 <-> SlipProduct.unitPrice l = SlipProduct.basePrice l)
  /\ (forall u, ReqProduct.unitPrice p = Some u -> SlipProduct.basePrice l < u ->
                SlipProduct.unitPrice l = u
                /\ SlipProduct.discountType l = DiscountType.manual
                /\ SlipProduct.discountAmount l < 0).
Proof.
  intros Hl Hq.
  assert (Hsame : SlipProduct.quantity l = ReqProduct.quantity p
                  /\ SlipProduct.basePrice l = SlipProduct.basePrice (processProduct p)
                  /\ SlipProduct.unitPrice l = SlipProduct.unitPrice (processProduct p)
                  /\ SlipProduct.discountAmount l
                     = SlipProduct.discountAmount (processProduct p)
                  /\ SlipProduct.discountType l
                     = SlipProduct.discountType (processProduct p))
    by (destruct Hl; subst; repeat split).
  destruct Hsame as (Hql & Hbl & Hul & Hdl & Htl).
  pose proof (discountAmount_per_unit p) as Hd. cbv zeta in Hd.
  change (SlipProduct.quantity (processProduct p)) with (ReqProduct.quantity p) in Hd.
  rewrite Hdl, Hbl, Hul, Htl, Hd.
  split; [split; intros H; nia |].
  split; [split; intros H; nia |].
  intros u Hu Habove.
  assert (Hbulk : 0 <= bulkDiscountOf (processProduct p)).
  { unfold bulkDiscountOf, bulkStep, calculateBulkDiscount.
    repeat match goal with
           | |- context [if ?c then _ else _] => destruct c; simpl
           end; lia. }
  assert (Hup : SlipProduct.unitPrice (processProduct p) = u).
  { unfold processProduct. simpl. unfold finalUnitPriceOf. now rewrite Hu. }
  rewrite Hup. split; [reflexivity |]. split; [| nia].
  unfold bulkDiscountOf in Hbulk. unfold processProduct in *. simpl in *.
  unfold manualStep. rewrite Hu.
  destruct (Z.eqb_spec u (basePriceOf p
              - fst (bulkStep (orLit (ReqProduct.productType p) "Cover")
                       (orLit (ReqProduct.coverType p) "") (ReqProduct.quantity p)
                       (basePriceOf p)))) as [He | He]; [lia | reflexivity].
Qed.

(** X10.  A line that carries a unit price and no base price is priced at its
    unit price with no discount at all, also when it is eligible for the
    bulk discount: it is then marked [manual] with a discount of 0. *)
Theorem unit_price_alone_disables_bulk (p : ReqProduct.t) (u : Z) :
  passedOver (ReqProduct.basePrice p) ->
  ReqProduct.unitPrice p = Some u ->
  u <> 0 ->
  let l := processProduct p in
  SlipProduct.basePrice l = u
  /\ SlipProduct.unitPrice l = u
  /\ SlipProduct.discountAmount l = 0
  /\ SlipProduct.totalPrice l = SlipProduct.quantity l * u
  /\ (eligible l -> SlipProduct.discountType l = DiscountType.manual)
  /\ (~ eligible l -> SlipProduct.discountType l = DiscountType.none).
Proof.
  intros Hb Hu Hne. cbv zeta.
  assert (Hbase : basePriceOf p = u).
  { destruct (basePriceOf_cases p) as (_ & H & _). now apply H. }
  pose proof (bulkStep_spec (SlipProduct.productType (processProduct p))
                (SlipProduct.coverType (processProduct p))
                (SlipProduct.quantity (processProduct p))
                (SlipProduct.basePrice (processProduct p))) as [Hyes Hno].
  fold (eligible (processProduct p)) in Hyes, Hno.
  assert (Hup : SlipProduct.unitPrice (processProduct p) = u).
  { unfold processProduct. simpl. unfold finalUnitPriceOf. now rewrite Hu. }
  assert (Hbp : SlipProduct.basePrice (processProduct p) = u) by exact Hbase.
  split; [exact Hbp |]. split; [exact Hup |].
  split; [rewrite discountAmount_per_unit, Hbp, Hup; ring |].
  split; [unfold processProduct; simpl; unfold finalUnitPriceOf; now rewrite Hu |].
  split; intros He.
  - specialize (Hyes He). unfold processProduct in *. simpl in *.
    unfold manualStep. rewrite Hu, Hyes, Hbase. simpl.
    destruct (Z.eqb_spec u (u - 10)); [lia | reflexivity].
  - specialize (Hno He). unfold processProduct in *. simpl in *.
    unfold manualStep. rewrite Hu, Hno, Hbase. simpl.
    destruct (Z.eqb_spec u (u - 0)); [reflexivity | lia].
Qed.

(** ** Reading a slip after a write *)

Lemma findById_without (id : ObjectId) (before after : list Slip.t) (s : Slip.t) :
  NoDup (map Slip._id (before ++ s :: after)) ->
  Slip._id s = id ->
  Slip.findById id (before ++ after) = None.
Proof.
  intros Hnd Hid. unfold Slip.findById.
  destruct (find (fun x => (Slip._id x =? id)%string) (before ++ after)) as [x |] eqn:Hf;
    [| reflexivity].
  exfalso. apply find_some in Hf. destruct Hf as [Hin Heq].
  apply String.eqb_eq in Heq.
  rewrite map_app in Hnd. simpl in Hnd. apply NoDup_remove_2 in Hnd.
  apply Hnd. rewrite <- map_app, Hid, <- Heq. now apply in_map.
Qed.

(** X11.  GET /api/slips/:id after a write.  It returns the slip a creation
    answered with, when its [_id] is new; it returns the slip an edit
    answered with; and, the identifiers of the slips being distinct, it
    answers 404 once the slip is deleted. *)
Theorem slip_read_follows_write (env : Env) (id : ObjectId) (creq : CreateReq)
        (ureq : UpdateReq) (st st' : Store) (s : Slip.t) :
  (createSlip env creq st = (Created s, st') ->
   Slip.findById (newSlipId env) (slips st) = None ->
   getSlip (newSlipId env) st' = Next s)
  /\ (updateSlip env id ureq st = (Updated s, st') -> getSlip id st' = Next s)
  /\ (NoDup (map Slip._id (slips st)) ->
      fst (deleteSlip id st) = Deleted ->
      getSlip id (snd (deleteSlip id st)) = Return 404 "Slip not found").
Proof.
  split; [| split].
  - intros Hrun Hfresh.
    destruct (createSlip_record _ _ _ _ _ Hrun)
      as (ps & us & total & inc & _ & _ & _ & (Hid & _) & _ & Hslips & _).
    unfold getSlip. rewrite Hslips, (findById_app_fresh _ _ _ Hfresh Hid). reflexivity.
  - intros Hrun.
    destruct (updateSlip_Updated _ _ _ _ _ _ Hrun)
      as (ex & reserved & incs & db & Hf & _ & _ & Hs & _ & Hslips & _).
    unfold getSlip. rewrite Hslips.
    rewrite (findById_replaceById id (slips st) ex s Hf); [reflexivity |].
    rewrite Hs. simpl. now apply findById_id in Hf.
  - intros Hnd. pose proof (findByIdAndDelete_spec id (slips st)) as Hspec.
    unfold deleteSlip, getSlip.
    destruct (Slip.findById id (slips st)) as [d |] eqn:Hf.
    + destruct Hspec as (before & after & Hdb & _ & Hdel). rewrite Hdel. simpl.
      intros _. rewrite Hdb in Hnd.
      rewrite (findById_without id before after d Hnd (findById_id _ _ _ Hf)).
      reflexivity.
    + rewrite Hspec. simpl. discriminate.
Qed.

(** ** The stock of an item, set by hand *)

Lemma findItemById_spec (id : ObjectId) (db : list Item.t) (item : Item.t) :
  findItemById id db = Some item ->
  Item._id item = id
  /\ qget id (qview db) = Item.quantity item
  /\ qhas id (qview db) = true
  /\ forall q now,
      saveItem (Item.mk (Item._id item) (Item.name item) (Item.sku item) q
                        (Item.isActive item) now) db
      = Item.findByIdAndUpdate id (q - Item.quantity item) now db.
Proof.
  unfold findItemById, qhas. induction db as [| x db IH]; simpl; [discriminate |].
  destruct (Item._id x =? id)%string eqn:He.
  - intros H. inversion H; subst x. apply String.eqb_eq in He.
    split; [exact He |]. split; [reflexivity |]. split; [reflexivity |].
    intros q now. rewrite String.eqb_refl. do 2 f_equal. lia.
  - intros H. destruct (IH H) as (Hid & Hq & Hh & Hs).
    split; [exact Hid |]. split; [exact Hq |]. split; [exact Hh |].
    intros q now. rewrite Hid, He. f_equal.
    specialize (Hs q now). simpl in Hs. rewrite Hid in Hs. exact Hs.
Qed.

Lemma findItemById_kview (id : ObjectId) (db db' : list Item.t) :
  kview db' = kview db ->
  match findItemById id db, findItemById id db' with
  | Some a, Some b =>
      Item._id b = Item._id a /\ Item.name b = Item.name a
      /\ Item.sku b = Item.sku a /\ Item.isActive b = Item.isActive a
  | None, None => True
  | _, _ => False
  end.
Proof.
  unfold findItemById. revert db. induction db' as [| x db' IH]; intros [| y db] Hk;
    try discriminate; [exact I |].
  simpl in Hk. inversion Hk as [[Hid Hname Hsku Hact Hrest]]. simpl. rewrite Hid.
  destruct (Item._id y =? id)%string; [repeat split; assumption | now apply IH].
Qed.

(** The result of a stock patch, as a function of the item it finds. *)
Lemma patchStock_cases (now : Date) (id : ObjectId) (quantity : option Z)
      (operation : option string) (db : list Item.t) :
  snd (patchStock now id quantity operation db) = db
  \/ exists item q newQuantity,
      findItemById id db = Some item
      /\ quantity = Some q /\ 0 <= q
      /\ (newQuantity = Item.quantity item + q
          \/ (newQuantity = Item.quantity item - q /\ 0 <= newQuantity)
          \/ newQuantity = q)
      /\ patchStock now id quantity operation db
         = (StockUpdated (Item.mk (Item._id item) (Item.name item) (Item.sku item)
                                  newQuantity (Item.isActive item) now),
            Item.findByIdAndUpdate id (newQuantity - Item.quantity item) now db).
Proof.
  unfold patchStock.
  destruct quantity as [q |]; [| left; reflexivity].
  destruct (Z.ltb_spec q 0) as [Hneg | Hpos]; [left; reflexivity |].
  destruct (findItemById id db) as [item |] eqn:Hf; [| left; reflexivity].
  destruct (findItemById_spec _ _ _ Hf) as (_ & _ & _ & Hsave).
  destruct ((match operation with Some o => o | None => "set" end =? "add")%string).
  - right. exists item, q, (Item.quantity item + q).
    rewrite Hsave. repeat split; auto.
  - destruct ((match operation with Some o => o | None => "set" end =? "subtract")%string).
    + destruct (Z.ltb_spec (Item.quantity item - q) 0) as [Hlt | Hge];
        [left; reflexivity |].
      right. exists item, q, (Item.quantity item - q).
      rewrite Hsave. repeat split; auto.
    + right. exists item, q, q. rewrite Hsave. repeat split; auto.
Qed.

(** X12.  PATCH /api/items/:id/stock keeps a collection without negative
    quantities without negative quantities, whatever the operation and the
    outcome, and changes no item but the one it names, and that one in its
    quantity and time stamp only. *)
Theorem patchStock_keeps_stock_nonNegative (now : Date) (id : ObjectId)
        (quantity : option Z) (operation : option string) (db : list Item.t) :
  nonNegative db ->
  nonNegative (snd (patchStock now id quantity operation db))
  /\ kview (snd (patchStock now id quantity operation db)) = kview db
  /\ forall j, j <> id ->
               Item.quantityOf j (snd (patchStock now id quantity operation db))
               = Item.quantityOf j db.
Proof.
  intros Hnn.
  destruct (patchStock_cases now id quantity operation db)
    as [-> | (item & q & nq & Hf & _ & Hq & Hnq & ->)]; [repeat split; assumption |].
  destruct (findItemById_spec _ _ _ Hf) as (_ & Hget & _ & _).
  cbn [snd]. split; [| split].
  - apply nonNegative_qview. rewrite qview_update.
    apply bump_nonneg; [now apply nonNegative_qview |].
    rewrite Hget.
    assert (0 <= Item.quantity item).
    { rewrite <- Hget. apply qget_nonneg. now apply nonNegative_qview. }
    lia.
  - apply kview_update.
  - intros j Hj. rewrite !quantityOf_qget, qview_update. now apply qget_bump_other.
Qed.

Lemma patchStock_subtract_cases (now : Date) (id : ObjectId) (q : Z) (db : list Item.t)
        (item : Item.t) :
  findItemById id db = Some item ->
  0 <= q ->
  (q <= Item.quantity item ->
   exists item',
     patchStock now id (Some q) (Some "subtract") db
     = (StockUpdated item', Item.findByIdAndUpdate id (- q) now db)
     /\ Item.quantity item' = Item.quantity item - q
     /\ Item.quantityOf id (snd (patchStock now id (Some q) (Some "subtract") db))
        = Item.quantity item - q)
  /\ (Item.quantity item < q ->
      patchStock now id (Some q) (Some "subtract") db
      = (ItemReject 400 "Insufficient stock", db)).
Proof.
  intros Hf Hq.
  destruct (findItemById_spec _ _ _ Hf) as (_ & Hget & Hhas & Hsave).
  unfold patchStock. rewrite Hf.
  destruct (Z.ltb_spec q 0) as [Hneg | _]; [lia |]. simpl.
  split; intros Hle.
  - destruct (Z.ltb_spec (Item.quantity item - q) 0) as [Hlt | Hge]; [lia |].
    eexists. rewrite Hsave.
    replace (Item.quantity item - q - Item.quantity item) with (- q) by lia.
    split; [reflexivity |]. split; [reflexivity |].
    cbn [snd]. rewrite quantityOf_qget, qview_update, (qget_bump _ _ _ _ Hhas), Hget.
    rewrite String.eqb_refl. lia.
  - destruct (Z.ltb_spec (Item.quantity item - q) 0) as [Hlt | Hge]; [reflexivity | lia].
Qed.

(** X13.  A subtraction goes through exactly when the item has the quantity
    asked: then the item is left with the difference, otherwise the request
    is rejected with "Insufficient stock" and nothing changes. *)
Theorem patchStock_subtract (now : Date) (id : ObjectId) (q : Z) (db : list Item.t)
        (item : Item.t) :
  findItemById id db = Some item ->
  0 <= q ->
  (q <= Item.quantity item ->
   exists item',
     patchStock now id (Some q) (Some "subtract") db
     = (StockUpdated item', Item.findByIdAndUpdate id (- q) now db)
     /\ Item.quantity item' = Item.quantity item - q
     /\ Item.quantityOf id (snd (patchStock now id (Some q) (Some "subtract") db))
        = Item.quantity item - q)
  /\ (Item.quantity item < q ->
      patchStock now id (Some q) (Some "subtract") db
      = (ItemReject 400 "Insufficient stock", db)).
Proof. exact (patchStock_subtract_cases now id q db item). Qed.

(** X14.  Adding a quantity to an item that is not below zero and subtracting
    it again both go through and leave every quantity as it was. *)
Theorem patchStock_add_then_subtract (now now' : Date) (id : ObjectId) (q : Z)
        (db : list Item.t) (item : Item.t) :
  findItemById id db = Some item ->
  0 <= Item.quantity item ->
  0 <= q ->
  exists item1 item2 db1 db2,
    patchStock now id (Some q) (Some "add") db = (StockUpdated item1, db1)
    /\ patchStock now' id (Some q) (Some "subtract") db1 = (StockUpdated item2, db2)
    /\ Item.quantity item2 = Item.quantity item
    /\ map Item.quantity db2 = map Item.quantity db
    /\ kview db2 = kview db.
Proof.
  intros Hf Hnn Hq.
  destruct (findItemById_spec _ _ _ Hf) as (Hid & Hget & Hhas & Hsave).
  set (db1 := Item.findByIdAndUpdate id q now db).
  assert (Hadd : patchStock now id (Some q) (Some "add") db
                 = (StockUpdated (Item.mk (Item._id item) (Item.name item) (Item.sku item)
                                          (Item.quantity item + q) (Item.isActive item) now),
                    db1)).
  { unfold patchStock. rewrite Hf.
    destruct (Z.ltb_spec q 0) as [Hneg | _]; [lia |]. simpl.
    rewrite Hsave. unfold db1. do 2 f_equal. lia. }
  assert (Hk1 : kview db1 = kview db) by apply kview_update.
  pose proof (findItemById_kview id db db1 Hk1) as Hsame. rewrite Hf in Hsame.
  destruct (findItemById id db1) as [item1 |] eqn:Hf1; [| contradiction].
  destruct (findItemById_spec _ _ _ Hf1) as (_ & Hget1 & _ & _).
  assert (Hq1 : Item.quantity item1 = Item.quantity item + q).
  { rewrite <- Hget1. unfold db1.
    rewrite qview_update, (qget_bump _ _ _ _ Hhas), Hget, String.eqb_refl. lia. }
  destruct (proj1 (patchStock_subtract_cases now' id q db1 item1 Hf1 Hq)) as (item2 & Hsub & Hq2 & _);
    [lia |].
  eexists _, item2, db1, _. split; [exact Hadd |]. split; [exact Hsub |].
  split; [lia |]. split.
  - apply qview_map_quantity. unfold db1. rewrite !qview_update.
    apply bump_cancel.
  - rewrite kview_update. exact Hk1.
Qed.

(** ** The soft delete of an item *)

Lemma withoutItem_absent (id : ObjectId) (db : list Item.t) :
  ~ In id (map Item._id db) -> withoutItem id db = db.
Proof.
  unfold withoutItem. induction db as [| x db IH]; simpl; [reflexivity |].
  intros Hnotin.
  destruct (String.eqb_spec (Item._id x) id) as [He | He]; simpl.
  - exfalso. apply Hnotin. now left.
  - f_equal. apply IH. intros Hin. apply Hnotin. now right.
Qed.

Lemma deactivateItem_spec (id : ObjectId) (now : Date) (db : list Item.t) :
  uniqueIds db ->
  qview (snd (deactivateItem id now db)) = qview db
  /\ (forall re, Item.findOne re (snd (deactivateItem id now db))
                 = Item.findOne re (withoutItem id db))
  /\ (fst (deactivateItem id now db) = true ->
      exists item, findItemById id (snd (deactivateItem id now db)) = Some item
                   /\ Item.isActive item = false)
  /\ (fst (deactivateItem id now db) = false -> snd (deactivateItem id now db) = db).
Proof.
  unfold uniqueIds, findItemById, withoutItem, Item.findOne.
  induction db as [| x db IH]; intros Hnd; simpl.
  - repeat split; try discriminate.
  - inversion Hnd as [| ? ? Hnotin Hnd']; subst.
    destruct (String.eqb_spec (Item._id x) id) as [He | He]; simpl.
    + split; [reflexivity |]. split; [| split; [| discriminate]].
      * intros re. rewrite andb_false_r.
        fold (withoutItem id db). rewrite withoutItem_absent; [reflexivity |].
        now rewrite <- He.
      * intros _. rewrite He, String.eqb_refl. eexists. split; reflexivity.
    + destruct (IH Hnd') as (Hq & Hfind & Hyes & Hno).
      destruct (deactivateItem id now db) as [found db'] eqn:Hd. simpl in *.
      split; [now rewrite Hq |]. split; [| split].
      * intros re. now rewrite Hfind.
      * intros Hf. rewrite (proj2 (String.eqb_neq (Item._id x) id) He). now apply Hyes.
      * intros Hf. now rewrite (Hno Hf).
Qed.

(** X15.  DELETE /api/items/:id, in a collection of distinct identifiers.  The
    item stays in the collection with its quantity, GET /api/items/:id
    answers that it has been deleted, and for every lookup of the slip
    routes, whatever the product name, the collection is as if the item had
    been taken out of it. *)
Theorem deleted_item_is_out_of_reach (now : Date) (id : ObjectId) (db db' : list Item.t) :
  uniqueIds db ->
  deleteItem now id db = (ItemDeleted, db') ->
  map Item.quantity db' = map Item.quantity db
  /\ getItem id db' = ItemReject 404 "Item has been deleted"
  /\ (forall re, Item.findOne re db' = Item.findOne re (withoutItem id db))
  /\ (forall productName, lookup productName db' = lookup productName (withoutItem id db)).
Proof.
  intros Hu Hdel. unfold deleteItem in Hdel.
  destruct (deactivateItem_spec id now db Hu) as (Hq & Hfind & Hyes & _).
  destruct (deactivateItem id now db) as [[|] db''] eqn:Hd; [| discriminate].
  inversion Hdel; subst db''. simpl in *.
  split; [now apply qview_map_quantity |]. split; [| split].
  - destruct (Hyes eq_refl) as (item & Hf & Hact). unfold getItem. now rewrite Hf, Hact.
  - exact Hfind.
  - intros n. unfold lookup. destruct (RegExp_i (patternOf n)); [| reflexivity].
    now rewrite Hfind.
Qed.

(** X16.  A stock patch does not look at the active flag.  Setting the quantity
    of an item that is there always goes through; GET /api/items/:id then
    shows the item with that quantity when it is active, and still answers
    that it has been deleted when it is not, though its quantity was set. *)
Theorem patchStock_set_then_get (now : Date) (id : ObjectId) (q : Z) (db : list Item.t)
        (item : Item.t) :
  findItemById id db = Some item ->
  0 <= q ->
  exists item' db',
    patchStock now id (Some q) None db = (StockUpdated item', db')
    /\ Item.quantity item' = q
    /\ Item.quantityOf id db' = q
    /\ (Item.isActive item = true -> getItem id db' = ItemJson item')
    /\ (Item.isActive item = false ->
        getItem id db' = ItemReject 404 "Item has been deleted").
Proof.
  intros Hf Hq.
  destruct (findItemById_spec _ _ _ Hf) as (Hid & Hget & Hhas & Hsave).
  unfold patchStock. rewrite Hf.
  destruct (Z.ltb_spec q 0) as [Hneg | _]; [lia |]. simpl. rewrite Hsave.
  eexists _, _. split; [reflexivity |]. split; [reflexivity |].
  assert (Hq' : Item.quantityOf id (Item.findByIdAndUpdate id (q - Item.quantity item) now db)
                = q).
  { rewrite quantityOf_qget, qview_update, (qget_bump _ _ _ _ Hhas), Hget.
    rewrite String.eqb_refl. lia. }
  split; [exact Hq' |].
  assert (Hf' : findItemById id (Item.findByIdAndUpdate id (q - Item.quantity item) now db)
                = Some (Item.mk (Item._id item) (Item.name item) (Item.sku item) q
                                (Item.isActive item) now)).
  { clear Hq' Hsave Hget Hhas. unfold findItemById in *.
    induction db as [| x db IH]; simpl in *; [discriminate |].
    destruct (Item._id x =? id)%string eqn:He; simpl.
    - rewrite He. inversion Hf; subst x. do 2 f_equal. lia.
    - rewrite He. now apply IH. }
  unfold getItem. rewrite Hf'. simpl. split; intros ->; reflexivity.
Qed.

(** ** The intake of an item *)




(** X18.  A request that names no product type is not asked for a cover type:
    once its name, SKU, quantity and price pass, it is accepted, and the
    item is stored as a "Cover" with an empty cover type, whatever cover
    type was sent. *)
Theorem item_without_type_is_cover_without_cover_type (trim toUpperCase : string -> string)
        (req : ItemReq.t) (db : list Item.t) :
  truthy (ItemReq.productType req) = false ->
  truthy (ItemReq.name req) = true ->
  truthy (ItemReq.sku req) = true ->
  negativeN (ItemReq.quantity req) = false ->
  negativeN (ItemReq.price req) = false ->
  (forall k it, ItemReq.sku req = Some k -> In it db -> Item.isActive it = true ->
                Item.sku it <> toUpperCase k) ->
  exists item,
    postItem trim toUpperCase req db = Next item
    /\ NewItem.productType item = "Cover"
    /\ NewItem.coverType item = ""
    /\ NewItem.plateCompany item = "" /\ NewItem.bikeName item = ""
    /\ NewItem.plateType item = ""
    /\ NewItem.formCompany item = "" /\ NewItem.formType item = ""
    /\ NewItem.formVariant item = "".
Proof.
  intros Ht Hn Hs Hq Hp Hfree. unfold postItem.
  destruct (ItemReq.name req) as [[| c n] |]; try discriminate.
  destruct (ItemReq.sku req) as [[| d k] |]; try discriminate.
  rewrite Hq, Hp. simpl.
  destruct (find _ db) as [e |] eqn:Hfind.
  { exfalso. apply find_some in Hfind. destruct Hfind as [Hin He].
    apply andb_true_iff in He. destruct He as [He Hact].
    apply String.eqb_eq in He. exact (Hfree _ e eq_refl Hin Hact He). }
  assert (Hlit : forall t, t <> "" -> isLit (ItemReq.productType req) t = false).
  { intros t Hne. unfold isLit. destruct (ItemReq.productType req) as [[| a s] |];
      try reflexivity; [| discriminate].
    destruct (String.eqb_spec "" t); congruence. }
  rewrite !Hlit by discriminate. simpl.
  eexists. split; [reflexivity |]. simpl. unfold gated. rewrite !Hlit by discriminate.
  destruct (ItemReq.productType req) as [[| a s] |]; try discriminate; repeat split.
Qed.

(** ** The customer history *)

Lemma orZero_Some (z : Z) : orZero (Some z) = z.
Proof. unfold orZero. destruct (Z.eqb_spec z 0); congruence. Qed.

Lemma orZero_if (z : Z) : (if z =? 0 then 0 else z) = z.
Proof. destruct (Z.eqb_spec z 0); congruence. Qed.

Lemma sumOf_app {A : Type} (f : A -> Z) (l l' : list A) :
  sumOf f (l ++ l') = sumOf f l + sumOf f l'.
Proof. induction l as [| a l IH]; simpl; [reflexivity | rewrite IH; lia]. Qed.

Lemma fold_left_sumOf {A : Type} (g : A -> Z) (l : list A) (init : Z) :
  fold_left (fun acc a => acc + g a) l init = init + sumOf g l.
Proof.
  revert init. induction l as [| a l IH]; intros init; simpl; [lia |].
  rewrite IH. lia.
Qed.

Lemma quantityOfLines_sumOf (products : list SlipProduct.t) :
  quantityOfLines products = sumOf SlipProduct.quantity products.
Proof.
  unfold quantityOfLines. rewrite orZero_Some.
  rewrite (fold_left_sumOf (fun p => orZero (Some (SlipProduct.quantity p)))).
  rewrite Z.add_0_l. unfold sumOf.
  induction products as [| p ps IH]; cbn [fold_right]; [reflexivity |].
  now rewrite orZero_Some, IH.
Qed.

Lemma historyTotalAmount_sumOf (slips : list Slip.t) :
  historyTotalAmount slips = sumOf Slip.totalAmount slips.
Proof.
  unfold historyTotalAmount.
  rewrite (fold_left_sumOf (fun s => orZero (Some (Slip.totalAmount s)))).
  rewrite Z.add_0_l. unfold sumOf.
  induction slips as [| s l IH]; cbn [fold_right]; [reflexivity |].
  now rewrite orZero_Some, IH.
Qed.

Lemma historyTotalProducts_sumOf (slips : list Slip.t) :
  historyTotalProducts slips
  = sumOf (fun s => sumOf SlipProduct.quantity (Slip.products s)) slips.
Proof.
  unfold historyTotalProducts.
  rewrite (fold_left_sumOf (fun s => quantityOfLines (Slip.products s))).
  rewrite Z.add_0_l. unfold sumOf at 1 2.
  induction slips as [| s l IH]; cbn [fold_right]; [reflexivity |].
  now rewrite quantityOfLines_sumOf, IH.
Qed.

(** One line recorded in the map. *)
Lemma recordProduct_spec (product : SlipProduct.t) (m : list ProductStat.t) :
  sumOf ProductStat.quantity (recordProduct product m)
  = sumOf ProductStat.quantity m + SlipProduct.quantity product
  /\ sumOf ProductStat.slipCount (recordProduct product m)
     = sumOf ProductStat.slipCount m + 1
  /\ (forall n, In n (map ProductStat.productName (recordProduct product m)) ->
                n = orLit (SlipProduct.productName product) "Unknown"
                \/ In n (map ProductStat.productName m))
  /\ (NoDup (map ProductStat.productName m) ->
      NoDup (map ProductStat.productName (recordProduct product m))).
Proof.
  induction m as [| e m (IHq & IHc & IHn & IHd)]; simpl.
  - rewrite ?orZero_if, ?orZero_Some. repeat split; try lia.
    + intros n [H | []]. now left.
    + intros _. constructor; [intros [] | constructor].
  - destruct (String.eqb_spec (ProductStat.productName e)
                (orLit (SlipProduct.productName product) "Unknown")) as [He | He]; simpl.
    + rewrite ?orZero_if, ?orZero_Some. repeat split; try lia.
      * intros n [H | H]; [right; now left | right; now right].
      * tauto.
    + rewrite IHq, IHc. repeat split; try lia.
      * intros n [H | H]; [right; now left |].
        destruct (IHn n H) as [H' | H']; [now left | right; now right].
      * intros Hnd. inversion Hnd as [| ? ? Hnotin Hnd']; subst.
        constructor; [| now apply IHd].
        intros Hin. destruct (IHn _ Hin) as [H' | H']; [contradiction | contradiction].
Qed.

Lemma recordProducts_spec (products : list SlipProduct.t) (m : list ProductStat.t) :
  let m' := fold_left (fun m product => recordProduct product m) products m in
  sumOf ProductStat.quantity m'
  = sumOf ProductStat.quantity m + sumOf SlipProduct.quantity products
  /\ sumOf ProductStat.slipCount m'
     = sumOf ProductStat.slipCount m + Z.of_nat (List.length products)
  /\ (NoDup (map ProductStat.productName m) -> NoDup (map ProductStat.productName m')).
Proof.
  revert m. induction products as [| p ps IH]; intros m; cbv zeta.
  - simpl. split; [lia |]. split; [lia |]. tauto.
  - cbn [fold_left].
    destruct (IH (recordProduct p m)) as (Hq & Hc & Hd).
    destruct (recordProduct_spec p m) as (Hq1 & Hc1 & _ & Hd1).
    cbv zeta in *. rewrite Hq, Hc, Hq1, Hc1.
    change (sumOf SlipProduct.quantity (p :: ps))
      with (SlipProduct.quantity p + sumOf SlipProduct.quantity ps).
    change (List.length (p :: ps)) with (S (List.length ps)).
    rewrite Nat2Z.inj_succ.
    split; [lia |]. split; [lia |]. intros H. apply Hd, Hd1, H.
Qed.

Lemma productsMapOf_spec (slips : list Slip.t) :
  sumOf ProductStat.quantity (productsMapOf slips) = historyTotalProducts slips
  /\ sumOf ProductStat.slipCount (productsMapOf slips) = lineCount slips
  /\ NoDup (map ProductStat.productName (productsMapOf slips)).
Proof.
  rewrite historyTotalProducts_sumOf. unfold productsMapOf, lineCount.
  assert (H : forall m,
             let m' := fold_left
                         (fun m slip => fold_left (fun m product => recordProduct product m)
                                                  (Slip.products slip) m) slips m in
             sumOf ProductStat.quantity m'
             = sumOf ProductStat.quantity m
               + sumOf (fun s => sumOf SlipProduct.quantity (Slip.products s)) slips
             /\ sumOf ProductStat.slipCount m'
                = sumOf ProductStat.slipCount m
                  + sumOf (fun s => Z.of_nat (List.length (Slip.products s))) slips
             /\ (NoDup (map ProductStat.productName m) ->
                 NoDup (map ProductStat.productName m'))).
  { induction slips as [| s l IH]; intros m; cbv zeta.
    - simpl. split; [lia |]. split; [lia |]. tauto.
    - cbn [fold_left].
      destruct (IH (fold_left (fun m product => recordProduct product m)
                              (Slip.products s) m)) as (Hq & Hc & Hd).
      destruct (recordProducts_spec (Slip.products s) m) as (Hq1 & Hc1 & Hd1).
      cbv zeta in *. rewrite Hq, Hc, Hq1, Hc1.
      change (sumOf (fun s0 => sumOf SlipProduct.quantity (Slip.products s0)) (s :: l))
        with (sumOf SlipProduct.quantity (Slip.products s)
              + sumOf (fun s0 => sumOf SlipProduct.quantity (Slip.products s0)) l).
      change (sumOf (fun s0 => Z.of_nat (List.length (Slip.products s0))) (s :: l))
        with (Z.of_nat (List.length (Slip.products s))
              + sumOf (fun s0 => Z.of_nat (List.length (Slip.products s0))) l).
      split; [lia |]. split; [lia |]. intros H. apply Hd, Hd1, H. }
  destruct (H []) as (Hq & Hc & Hd). cbv zeta in *.
  rewrite Hq, Hc.
  change (sumOf ProductStat.quantity []) with 0.
  change (sumOf ProductStat.slipCount []) with 0.
  split; [lia |]. split; [lia |]. apply Hd. constructor.
Qed.

Lemma insertByQuantity_perm (a : ProductStat.t) (l : list ProductStat.t) :
  Permutation (insertByQuantity a l) (a :: l).
Proof.
  induction l as [| b l IH]; simpl; [reflexivity |].
  destruct (ProductStat.quantity a <=? ProductStat.quantity b); [| reflexivity].
  rewrite IH. apply perm_swap.
Qed.

Lemma sortByQuantity_perm (l : list ProductStat.t) :
  Permutation (sortByQuantity l) l.
Proof.
  unfold sortByQuantity.
  assert (H : forall acc, Permutation (fold_left (fun sorted a => insertByQuantity a sorted)
                                                 l acc) (acc ++ l)).
  { induction l as [| a l IH]; intros acc; simpl.
    - now rewrite app_nil_r.
    - rewrite IH, insertByQuantity_perm. apply Permutation_middle. }
  apply (H []).
Qed.

Lemma sumOf_perm {A : Type} (f : A -> Z) (l l' : list A) :
  Permutation l l' -> sumOf f l = sumOf f l'.
Proof. induction 1; simpl; lia. Qed.

(** X19.  The products of a history add up to its summary.  The quantities of
    the products are the [totalProducts] of the summary, their [slipCount]
    (one per line, also for two lines of one slip) the number of lines, and
    no product name comes twice. *)
Theorem history_products_add_up (slips : list Slip.t) :
  sumOf ProductStat.quantity (historyProducts slips) = historyTotalProducts slips
  /\ sumOf ProductStat.slipCount (historyProducts slips) = lineCount slips
  /\ NoDup (map ProductStat.productName (historyProducts slips)).
Proof.
  destruct (productsMapOf_spec slips) as (Hq & Hc & Hd).
  pose proof (sortByQuantity_perm (productsMapOf slips)) as Hp.
  unfold historyProducts.
  rewrite (sumOf_perm _ _ _ Hp), (sumOf_perm _ _ _ Hp).
  repeat split; try assumption.
  eapply Permutation_NoDup; [| exact Hd].
  apply Permutation_map. now apply Permutation_sym.
Qed.

Lemma insertByQuantity_sorted (a : ProductStat.t) (l : list ProductStat.t) :
  StronglySorted (fun x y => ProductStat.quantity y <= ProductStat.quantity x) l ->
  StronglySorted (fun x y => ProductStat.quantity y <= ProductStat.quantity x)
                 (insertByQuantity a l).
Proof.
  induction 1 as [| b l Hs IH Hb]; simpl; [repeat constructor |].
  destruct (Z.leb_spec (ProductStat.quantity a) (ProductStat.quantity b)) as [Hle | Hgt].
  - constructor; [exact IH |].
    eapply Permutation_Forall; [apply Permutation_sym, insertByQuantity_perm |].
    constructor; assumption.
  - constructor; [constructor; assumption |].
    constructor; [lia |]. eapply Forall_impl; [| exact Hb]. simpl. intros; lia.
Qed.

(** X20.  The products of a history are the values of the map, each once, from
    the largest quantity down. *)
Theorem history_products_sorted (slips : list Slip.t) :
  Permutation (historyProducts slips) (productsMapOf slips)
  /\ StronglySorted (fun x y => ProductStat.quantity y <= ProductStat.quantity x)
                    (historyProducts slips).
Proof.
  split; [apply sortByQuantity_perm |].
  unfold historyProducts, sortByQuantity.
  assert (H : forall l acc,
             StronglySorted (fun x y => ProductStat.quantity y <= ProductStat.quantity x) acc ->
             StronglySorted (fun x y => ProductStat.quantity y <= ProductStat.quantity x)
                            (fold_left (fun sorted a => insertByQuantity a sorted) l acc)).
  { induction l as [| a l IH]; intros acc Hacc; simpl; [exact Hacc |].
    apply IH. now apply insertByQuantity_sorted. }
  apply H. constructor.
Qed.

Lemma bucketsOf_snoc (keyOf labelOf : Slip.t -> string) (slips : list Slip.t) (s : Slip.t) :
  bucketsOf keyOf labelOf (slips ++ [s])
  = addToBucket (keyOf s) (labelOf s) s (bucketsOf keyOf labelOf slips).
Proof. unfold bucketsOf. now rewrite fold_left_app. Qed.

Lemma addToBucket_keys (key label : string) (s : Slip.t) (data : list (string * Bucket.t)) :
  (In key (map fst data) -> map fst (addToBucket key label s data) = map fst data)
  /\ (~ In key (map fst data) ->
      map fst (addToBucket key label s data) = map fst data ++ [key]).
Proof.
  clear RegExp_i.
  induction data as [| [k b] data [IHin IHout]]; simpl.
  - split; [contradiction | reflexivity].
  - destruct (String.eqb_spec k key) as [He | He]; simpl.
    + split; [reflexivity | intros H; exfalso; apply H; now left].
    + split.
      * intros [H | H]; [contradiction | now rewrite IHin].
      * intros H. rewrite IHout; [reflexivity | tauto].
Qed.

(** An entry after one more slip: it is an entry of before with another
    key, or the entry of the key of the slip with the slip added, or a new
    entry of the slip alone. *)
Lemma addToBucket_In (key label : string) (s : Slip.t) (data : list (string * Bucket.t))
      (k : string) (b' : Bucket.t) :
  NoDup (map fst data) ->
  In (k, b') (addToBucket key label s data) ->
  (k <> key /\ In (k, b') data)
  \/ (k = key /\ exists b,
         In (k, b) data
         /\ Bucket.slips b' = Bucket.slips b ++ [s]
         /\ Bucket.totalAmount b' = Bucket.totalAmount b + Slip.totalAmount s
         /\ Bucket.totalProducts b'
            = Bucket.totalProducts b + sumOf SlipProduct.quantity (Slip.products s)
         /\ Bucket.slipCount b' = Bucket.slipCount b + 1)
  \/ (k = key /\ ~ In key (map fst data)
      /\ Bucket.slips b' = [s]
      /\ Bucket.totalAmount b' = Slip.totalAmount s
      /\ Bucket.totalProducts b' = sumOf SlipProduct.quantity (Slip.products s)
      /\ Bucket.slipCount b' = 1).
Proof.
  clear RegExp_i.
  induction data as [| [k0 b0] data IH]; simpl; intros Hnd Hin.
  - destruct Hin as [Heq | []]. inversion Heq; subst. right. right.
    simpl. rewrite orZero_if, quantityOfLines_sumOf. repeat split; tauto.
  - inversion Hnd as [| ? ? Hnotin Hnd']; subst.
    destruct (String.eqb_spec k0 key) as [He | He]; simpl in Hin.
    + subst k0. destruct Hin as [Heq | Hin].
      * inversion Heq; subst. right. left. split; [reflexivity |].
        exists b0. simpl. rewrite orZero_if, quantityOfLines_sumOf.
        repeat split. now left.
      * left. split; [| now right].
        intros ->. apply Hnotin. now apply (in_map fst) in Hin.
    + destruct Hin as [Heq | Hin].
      * inversion Heq; subst. left. split; [exact He | now left].
      * destruct (IH Hnd' Hin) as [[Hk H] | [[Hk (b & Hb & H)] | [Hk [Hn H]]]].
        -- left. split; [exact Hk | now right].
        -- right. left. split; [exact Hk |]. exists b. split; [now right | exact H].
        -- right. right. split; [exact Hk |]. split; [| exact H].
           intros [H' | H']; [congruence | contradiction].
Qed.

Lemma bucketsOf_keys (keyOf labelOf : Slip.t -> string) (slips : list Slip.t) :
  NoDup (map fst (bucketsOf keyOf labelOf slips))
  /\ forall k, In k (map fst (bucketsOf keyOf labelOf slips)) <-> In k (map keyOf slips).
Proof.
  clear RegExp_i.
  induction slips as [| s slips [IHnd IHin]] using rev_ind.
  - split; [constructor | simpl; tauto].
  - rewrite bucketsOf_snoc.
    destruct (addToBucket_keys (keyOf s) (labelOf s) s (bucketsOf keyOf labelOf slips))
      as [Hin Hout].
    destruct (in_dec string_dec (keyOf s) (map fst (bucketsOf keyOf labelOf slips)))
      as [Hk | Hk].
    + rewrite (Hin Hk). split; [exact IHnd |].
      intros k. rewrite map_app, in_app_iff, IHin. simpl.
      split; [tauto |]. intros [H | [H | []]]; [exact H |].
      subst k. now apply IHin.
    + rewrite (Hout Hk). split.
      * apply NoDup_app; [exact IHnd | repeat constructor; intros [] |].
        intros x Hx [Hx' | []]. subst x. contradiction.
      * intros k. rewrite map_app, !in_app_iff, IHin. simpl. tauto.
Qed.

(** X21.  The groups of a history, by month or by week.  No key comes twice;
    the entry of a key holds the slips of that key, all of them and in the
    order of the list, and it is not empty; its amount, its products and its
    count are those of its slips. *)
Theorem history_buckets_hold_their_slips (keyOf labelOf : Slip.t -> string)
        (slips : list Slip.t) :
  NoDup (map fst (bucketsOf keyOf labelOf slips))
  /\ forall k b, In (k, b) (bucketsOf keyOf labelOf slips) ->
       Bucket.slips b = filter (fun s => (keyOf s =? k)%string) slips
       /\ Bucket.slips b <> []
       /\ Bucket.totalAmount b = historyTotalAmount (Bucket.slips b)
       /\ Bucket.totalProducts b = historyTotalProducts (Bucket.slips b)
       /\ Bucket.slipCount b = Z.of_nat (List.length (Bucket.slips b)).
Proof.
  clear RegExp_i.
  split; [apply bucketsOf_keys |].
  induction slips as [| s slips IH] using rev_ind; [intros k b [] |].
  intros k b' Hin. rewrite bucketsOf_snoc in Hin.
  destruct (bucketsOf_keys keyOf labelOf slips) as [Hnd Hkeys].
  rewrite filter_app. simpl.
  destruct (addToBucket_In _ _ _ _ _ _ Hnd Hin)
    as [[Hk Hold] | [[Hk (b & Hb & Hs & Ha & Hp & Hc)] | [Hk (Hnew & Hs & Ha & Hp & Hc)]]].
  - rewrite (proj2 (String.eqb_neq (keyOf s) k)) by congruence.
    rewrite app_nil_r. now apply IH.
  - subst k. rewrite String.eqb_refl.
    destruct (IH _ _ Hb) as (Hs0 & _ & Ha0 & Hp0 & Hc0).
    rewrite Hs, Ha, Hp, Hc, Ha0, Hp0, Hc0, <- Hs0.
    rewrite !historyTotalAmount_sumOf, !historyTotalProducts_sumOf, !sumOf_app.
    rewrite List.length_app, Nat2Z.inj_add. simpl.
    repeat split; try lia. now destruct (Bucket.slips b).
  - subst k. rewrite String.eqb_refl.
    assert (Hnone : filter (fun s0 => (keyOf s0 =? keyOf s)%string) slips = []).
    { destruct (filter (fun s0 => (keyOf s0 =? keyOf s)%string) slips) as [| x l] eqn:Hf;
        [reflexivity |].
      exfalso. apply Hnew. apply Hkeys.
      assert (Hx : In x (filter (fun s0 => (keyOf s0 =? keyOf s)%string) slips))
        by (rewrite Hf; now left).
      apply filter_In in Hx. destruct Hx as [Hx He]. apply String.eqb_eq in He.
      rewrite <- He. now apply in_map. }
    rewrite Hnone, Hs, Ha, Hp, Hc.
    rewrite historyTotalAmount_sumOf, historyTotalProducts_sumOf. simpl.
    repeat split; try lia. discriminate.
Qed.

Lemma addToBucket_sums (key label : string) (s : Slip.t)
      (data : list (string * Bucket.t)) :
  sumOf (fun e => Bucket.totalProducts (snd e)) (addToBucket key label s data)
  = sumOf (fun e => Bucket.totalProducts (snd e)) data
    + sumOf SlipProduct.quantity (Slip.products s)
  /\ sumOf (fun e => Bucket.slipCount (snd e)) (addToBucket key label s data)
     = sumOf (fun e => Bucket.slipCount (snd e)) data + 1.
Proof.
  induction data as [| [k b] data (IHp & IHc)]; simpl.
  - rewrite quantityOfLines_sumOf. repeat split; lia.
  - destruct (k =? key)%string; simpl.
    + rewrite quantityOfLines_sumOf. repeat split; lia.
    + rewrite IHp, IHc. repeat split; lia.
Qed.

(** X22.  The groups of a history add up to its summary: over the months, or
    over the weeks, the products and the counts of the entries are the
    [totalProducts] and the [totalSlips] of the summary. *)
Theorem history_buckets_add_up (keyOf labelOf : Slip.t -> string) (slips : list Slip.t) :
  sumOf (fun e => Bucket.totalProducts (snd e)) (bucketsOf keyOf labelOf slips)
  = historyTotalProducts slips
  /\ sumOf (fun e => Bucket.slipCount (snd e)) (bucketsOf keyOf labelOf slips)
     = Z.of_nat (List.length slips).
Proof.
  rewrite historyTotalProducts_sumOf.
  induction slips as [| s slips (IHp & IHc)] using rev_ind;
    [repeat split |].
  rewrite bucketsOf_snoc, !sumOf_app, List.length_app, Nat2Z.inj_add.
  destruct (addToBucket_sums (keyOf s) (labelOf s) s (bucketsOf keyOf labelOf slips))
    as (Hp & Hc).
  rewrite Hp, Hc, IHp, IHc. simpl. repeat split; lia.
Qed.

Lemma filter_all {A : Type} (f : A -> bool) (l : list A) :
  (forall x, In x l -> f x = true) -> filter f l = l.
Proof.
  induction l as [| a l IH]; simpl; intros H; [reflexivity |].
  rewrite (H a (or_introl eq_refl)). f_equal. apply IH. intros x Hx. apply H. now right.
Qed.

Lemma filter_replaceById (P : Slip.t -> bool) (id : ObjectId) (d : Slip.t)
      (db : list Slip.t) :
  NoDup (map Slip._id db) ->
  P d = false ->
  filter P (Slip.replaceById id d db)
  = filter (fun s => negb (Slip._id s =? id)%string) (filter P db).
Proof.
  intros Hnd Hd. induction db as [| x db IH]; simpl; [reflexivity |].
  inversion Hnd as [| ? ? Hnotin Hnd']; subst.
  destruct (String.eqb_spec (Slip._id x) id) as [He | He]; simpl.
  - rewrite Hd.
    assert (Hrest : filter (fun s => negb (Slip._id s =? id)%string) (filter P db)
                    = filter P db).
    { apply filter_all. intros y Hy. apply filter_In in Hy. destruct Hy as [Hy _].
      apply negb_true_iff, String.eqb_neq. intros Heq. apply Hnotin.
      rewrite He, <- Heq. now apply in_map. }
    destruct (P x); simpl; [| now rewrite Hrest].
    rewrite (proj2 (String.eqb_eq (Slip._id x) id) He). simpl. now rewrite Hrest.
  - destruct (P x); simpl; [| now apply IH].
    rewrite (proj2 (String.eqb_neq (Slip._id x) id) He). simpl. f_equal. now apply IH.
Qed.

(** X23.  A slip that an edit sets to Cancelled is out of the customer history.
    The identifiers of the slips being distinct, once the edit commits the
    history query of any customer and any dates finds the slips it found
    before, without that slip. *)
Theorem cancelled_slip_leaves_history (env : Env) (id : ObjectId) (req : UpdateReq)
        (st st' : Store) (s' : Slip.t) (re : string -> bool) (inRange : Slip.t -> bool) :
  NoDup (map Slip._id (slips st)) ->
  u_status req = Some "Cancelled" ->
  updateSlip env id req st = (Updated s', st') ->
  filter (inHistory re inRange) (slips st')
  = filter (fun s => negb (Slip._id s =? id)%string)
           (filter (inHistory re inRange) (slips st)).
Proof.
  intros Hnd Hstatus Hrun.
  destruct (updateSlip_Updated _ _ _ _ _ _ Hrun)
    as (ex & reserved & incs & db & _ & _ & _ & Hs & _ & Hslips & _).
  rewrite Hslips. apply filter_replaceById; [exact Hnd |].
  unfold inHistory. rewrite Hs. simpl. rewrite Hstatus. simpl.
  now rewrite andb_false_r.
Qed.

End Routes.

(** * The shop of the examples *)

(** ** Creation *)

(** C1, on the code.  A slip of two lines of three that both resolve to
    the item "Seat Cover", of which five are in stock: each line passes its
    own check against the five, the creation goes through, and the item is
    left at -1. *)
Theorem create_overdraws_item_of_two_lines :
  let st := shop 5 in
  let req := order [line "Seat Cover" 3; line "cover" 3] in
  lookup literal_i (Some "Seat Cover") (items st) = Next (Some (seatCover 5))
  /\ lookup literal_i (Some "cover") (items st) = Next (Some (seatCover 5))
  /\ nonNegative (items st)
  /\ isCreated (fst (createSlip literal_i exEnv req st)) = true
  /\ map Item.quantity (items (snd (createSlip literal_i exEnv req st))) = [-1]
  /\ ~ nonNegative (items (snd (createSlip literal_i exEnv req st))).
Proof.
  cbv zeta. repeat split.
  - repeat constructor. simpl. lia.
  - intros H. vm_compute in H. inversion H as [| ? ? Hq _]. now apply Hq.
Qed.



(** ** Cancellation *)

(** The cancellation of the slip of two seat covers, five being in stock. *)
Lemma cancellation_compensates_witness :
  let st' := snd (updateSlip literal_i exEnv "s1" (edit None (Some "Cancelled"))
                             (books 5 None)) in
  Slip.cancelledAt (applyUpdate 1000 (edit None (Some "Cancelled")) (soldSlip None))
  = Some 1000
  /\ map Income.isActive (incomes st') = [false; false; true]
  /\ Item.quantityOf "i1" (items st') = 7.
Proof.
  cbv zeta.
  destruct (cancellation_compensates literal_i exEnv "s1" (edit None (Some "Cancelled"))
              (books 5 None)
              (snd (updateSlip literal_i exEnv "s1" (edit None (Some "Cancelled"))
                               (books 5 None)))
              (soldSlip None)
              (applyUpdate 1000 (edit None (Some "Cancelled")) (soldSlip None))
              eq_refl eq_refl eq_refl eq_refl)
    as ((Hstamp & _) & _ & (reserved & _ & Hnone & _ & Hq)).
  split; [exact Hstamp |]. split; [reflexivity |].
  rewrite Hq, (Hnone eq_refl). reflexivity.
Defined.

(** The same cancellation sent again. *)
Lemma repeated_cancellation_is_guarded_witness :
  let st := books 7 (Some 50) in
  let st' := snd (updateSlip literal_i exEnv "s1" (edit None (Some "Cancelled")) st) in
  incomes st' = incomes st /\ items st' = items st.
Proof.
  cbv zeta.
  destruct (repeated_cancellation_is_guarded literal_i exEnv "s1"
              (edit None (Some "Cancelled")) (books 7 (Some 50)) (soldSlip (Some 50)) 50
              eq_refl eq_refl eq_refl)
    as (Hinc & _ & Hitems & _).
  split; [exact Hinc | exact (Hitems eq_refl)].
Defined.

(** What the guard does not cover: the products branch runs before it,
    whatever the status.  The slip is cancelled and its two seat covers are
    back in stock (seven); an edit that sends an empty products array along
    with the status gives the two seat covers back once more, as the same
    products would on any slip. *)
Lemma repeated_cancellation_with_products_moves_stock :
  let st := books 7 (Some 50) in
  let req := edit (Some []) (Some "Cancelled") in
  Slip.findById "s1" (slips st) = Some (soldSlip (Some 50))
  /\ Slip.cancelledAt (soldSlip (Some 50)) = Some 50
  /\ u_status req = Some "Cancelled"
  /\ map Item.quantity (items st) = [7]
  /\ map Item.quantity (items (snd (updateSlip literal_i exEnv "s1" req st))) = [9].
Proof. cbv zeta. repeat split. Qed.

(** ** Edits *)


(** Why the round trip is stated for an edit that does not cancel: when
    the edit that repeats the lines of the slip also sets the status to
    Cancelled, the cancellation that follows the products branch gives the
    two seat covers of the slip back. *)
Lemma edit_with_same_lines_and_cancel_moves_stock :
  let st := books 5 None in
  let req := edit (Some [line "Seat Cover" 2]) (Some "Cancelled") in
  Slip.findById "s1" (slips st) = Some (soldSlip None)
  /\ reqLines [line "Seat Cover" 2] = slipLines (Slip.products (soldSlip None))
  /\ map Item.quantity (items st) = [5]
  /\ map Item.quantity (items (snd (updateSlip literal_i exEnv "s1" req st))) = [7].
Proof. cbv zeta. repeat split. Qed.


(** The same with a line of a negative quantity, which the creation does
    not refuse.  Three seat covers are in stock; a slip of two lines of seat
    covers, of 3 and of -5, is created and leaves five; a slip of four
    leaves one.  The edit of the first slip with its own lines gives 3 and
    -5 back, finds -1 in stock for the line of 3, and is rejected. *)
Lemma identical_edit_rejected_on_negative_line :
  let lines := [line "Seat Cover" 3; line "Seat Cover" (-5)] in
  let later := {| now := 2000; newSlipId := "s10"; newSlipNumber := "SLP-10";
                  newIncomeId := "n10" |} in
  let st1 := snd (createSlip literal_i exEnv (order lines) (shop 3)) in
  let st := snd (createSlip literal_i later (order [line "Seat Cover" 4]) st1) in
  let req := edit (Some lines) None in
  map Item.quantity (items st1) = [5]
  /\ map Item.quantity (items st) = [1]
  /\ uniqueIds (items st) /\ nonNegative (items st)
  /\ (exists s, Slip.findById "s9" (slips st) = Some s
                /\ reqLines lines = slipLines (Slip.products s)
                /\ cancels (u_status req) s = false)
  /\ fst (updateSlip literal_i exEnv "s9" req st)
     = Reject 400 "Insufficient stock for 'Seat Cover'. Available: -1"
  /\ isInsufficient (fst (updateSlip literal_i exEnv "s9" req st)) = true.
Proof.
  cbv zeta. repeat split.
  - repeat constructor. simpl. tauto.
  - repeat constructor. simpl. lia.
  - eexists. split; [reflexivity |]. split; reflexivity.
Qed.

(** Why the items are asked to have distinct identifiers, as the documents
    of a collection have: in a list that repeats an identifier the lookup by
    name can find a document that the update by identifier does not reach.
    Here the two seat covers of the slip are given back to the first
    document of "i1", the lookup finds the second, with none in stock, and
    the edit with the line of the slip is rejected. *)
Lemma identical_edit_rejected_on_repeated_id :
  let st := {| items := [Item.mk "i1" "Old stock" "OLD-1" 0 true 0; seatCover 0];
               slips := [soldSlip None];
               incomes := [] |} in
  let req := edit (Some [line "Seat Cover" 2]) None in
  nonNegative (items st)
  /\ ~ uniqueIds (items st)
  /\ reqLines [line "Seat Cover" 2] = slipLines (Slip.products (soldSlip None))
  /\ fst (updateSlip literal_i exEnv "s1" req st)
     = Reject 400 "Insufficient stock for 'Seat Cover'. Available: 0"
  /\ isInsufficient (fst (updateSlip literal_i exEnv "s1" req st)) = true.
Proof.
  cbv zeta. repeat split.
  - repeat constructor; simpl; lia.
  - intros H. inversion H as [| ? ? Hnotin _]. apply Hnotin. now left.
Qed.

(** The slip of two seat covers edited to one seat cover and cancelled in
    the same request: 5 + 2 * 2 - 1 in stock, against 7 after the plain
    cancellation. *)
Lemma edit_and_cancel_restores_twice_witness :
  let st := books 5 None in
  let req := edit (Some [line "Seat Cover" 1]) (Some "Cancelled") in
  Item.quantityOf "i1" (items (snd (updateSlip literal_i exEnv "s1" req st))) = 8
  /\ Item.quantityOf "i1"
       (items (snd (updateSlip literal_i exEnv "s1" (withoutProducts req) st))) = 7.
Proof.
  cbv zeta.
  destruct (edit_and_cancel_restores_twice literal_i exEnv "s1"
              (edit (Some [line "Seat Cover" 1]) (Some "Cancelled")) (books 5 None)
              (snd (updateSlip literal_i exEnv "s1"
                      (edit (Some [line "Seat Cover" 1]) (Some "Cancelled"))
                      (books 5 None)))
              (soldSlip None)
              (applyUpdate 1000 (edit (Some [line "Seat Cover" 1]) (Some "Cancelled"))
                           (soldSlip None))
              [line "Seat Cover" 1] eq_refl eq_refl eq_refl eq_refl eq_refl)
    as (Htwice & _).
  split; [rewrite Htwice; reflexivity | reflexivity].
Defined.

(** C9 as it is stated fails: when the products of the request repeat the
    lines of the slip, the edit that also cancels ends with the quantities
    of the plain cancellation, not with those quantities and the two seat
    covers of the slip on top. *)
Lemma edit_and_cancel_not_above_plain_cancellation :
  let st := books 5 None in
  let req := edit (Some [line "Seat Cover" 2]) (Some "Cancelled") in
  let both := snd (updateSlip literal_i exEnv "s1" req st) in
  let plain := snd (updateSlip literal_i exEnv "s1" (withoutProducts req) st) in
  givenBack literal_i (soldSlip None) (items st) "i1" = 2
  /\ Item.quantityOf "i1" (items plain) = 7
  /\ Item.quantityOf "i1" (items both) = 7
  /\ Item.quantityOf "i1" (items both)
     <> Item.quantityOf "i1" (items plain)
        + givenBack literal_i (soldSlip None) (items st) "i1".
Proof. cbv zeta. repeat split. vm_compute. discriminate. Qed.

(** ** Deletion *)

(** The slip of two seat covers deleted while it is paid. *)
Lemma delete_bypasses_compensation_witness :
  fst (deleteSlip "s1" (books 5 None)) = Deleted
  /\ items (snd (deleteSlip "s1" (books 5 None))) = items (books 5 None)
  /\ incomes (snd (deleteSlip "s1" (books 5 None))) = incomes (books 5 None).
Proof.
  destruct (delete_bypasses_compensation "s1" (books 5 None))
    as (Hitems & Hincs & Hdel & _).
  split; [exact (proj1 (Hdel (soldSlip None) eq_refl)) |].
  split; [exact Hitems | exact Hincs].
Defined.

(** * Further examples *)

(** Two seat covers sold out of five, and the slip cancelled. *)
Lemma create_then_cancel_restores_stock_witness :
  let st1 := snd (createSlip literal_i exEnv (order [line "Seat Cover" 2]) (shop 5)) in
  map Item.quantity (items st1) = [3]
  /\ exists s2 st2,
      updateSlip literal_i exEnv "s9" (edit None (Some "Cancelled")) st1 = (Updated s2, st2)
      /\ map Item.quantity (items st2) = [5].
Proof.
  cbv zeta. split; [reflexivity |].
  destruct (create_then_cancel_restores_stock literal_i exEnv exEnv
              (order [line "Seat Cover" 2]) (edit None (Some "Cancelled")) (shop 5)
              (snd (createSlip literal_i exEnv (order [line "Seat Cover" 2]) (shop 5)))
              (match fst (createSlip literal_i exEnv (order [line "Seat Cover" 2]) (shop 5))
               with Created s => s | _ => soldSlip None end)
              eq_refl eq_refl eq_refl eq_refl)
    as (s2 & st2 & Hrun & _ & Hq & _).
  exists s2, st2. split; [exact Hrun | exact Hq].
Defined.

(** The slip of two seat covers edited to three, five being in stock. *)
Lemma edit_moves_stock_by_difference_witness :
  Item.quantityOf "i1"
    (items (snd (updateSlip literal_i exEnv "s1" (edit (Some [line "Seat Cover" 3]) None)
                            (books 5 None))))
  = 5 + 2 - 3.
Proof.
  exact (edit_moves_stock_by_difference literal_i exEnv "s1"
           (edit (Some [line "Seat Cover" 3]) None) (books 5 None)
           (snd (updateSlip literal_i exEnv "s1" (edit (Some [line "Seat Cover" 3]) None)
                            (books 5 None)))
           (soldSlip None)
           (applyUpdate 1000 (edit (Some [line "Seat Cover" 3]) None) (soldSlip None))
           [line "Seat Cover" 3] eq_refl eq_refl eq_refl eq_refl "i1").
Defined.

(** Two seat covers sold out of five, and the slip edited to four. *)
Lemma create_then_edit_reserves_new_lines_witness :
  let st1 := snd (createSlip literal_i exEnv (order [line "Seat Cover" 2]) (shop 5)) in
  Item.quantityOf "i1"
    (items (snd (updateSlip literal_i exEnv "s9" (edit (Some [line "Seat Cover" 4]) None)
                            st1)))
  = 5 - 4.
Proof.
  cbv zeta.
  exact (create_then_edit_reserves_new_lines literal_i exEnv exEnv
           (order [line "Seat Cover" 2]) (edit (Some [line "Seat Cover" 4]) None) (shop 5)
           (snd (createSlip literal_i exEnv (order [line "Seat Cover" 2]) (shop 5)))
           (snd (updateSlip literal_i exEnv "s9" (edit (Some [line "Seat Cover" 4]) None)
                   (snd (createSlip literal_i exEnv (order [line "Seat Cover" 2]) (shop 5)))))
           (match fst (createSlip literal_i exEnv (order [line "Seat Cover" 2]) (shop 5))
            with Created s => s | _ => soldSlip None end)
           (match fst (updateSlip literal_i exEnv "s9"
                         (edit (Some [line "Seat Cover" 4]) None)
                         (snd (createSlip literal_i exEnv (order [line "Seat Cover" 2])
                                          (shop 5))))
            with Updated s => s | _ => soldSlip None end)
           [line "Seat Cover" 4] eq_refl eq_refl eq_refl eq_refl eq_refl "i1").
Defined.

(** An edit that only changes the total of the slip of two seat covers. *)
Lemma edit_without_products_leaves_income_witness :
  let req := mkUpdateReq None None None None None None (Some 150) None None None in
  Slip.totalAmount (applyUpdate 1000 req (soldSlip None)) = 150
  /\ incomes (snd (updateSlip literal_i exEnv "s1" req (books 5 None)))
     = incomes (books 5 None).
Proof.
  cbv zeta.
  destruct (edit_without_products_leaves_income literal_i exEnv "s1"
              (mkUpdateReq None None None None None None (Some 150) None None None)
              (books 5 None) (soldSlip None) eq_refl eq_refl eq_refl)
    as (_ & Ht & _ & Hi).
  split; [exact Ht | exact Hi].
Defined.

(** The slip of two seat covers edited to three for a total of 300: its
    two income entries follow, the third is left. *)
Lemma edit_rewrites_income_mirror_witness :
  let req := mkUpdateReq None None None None (Some [line "Seat Cover" 3]) None (Some 300)
                         None None None in
  let s' := applyUpdate 1000 req (soldSlip None) in
  Forall2
    (fun inc inc' =>
       (Income.linked "s1" "SLP-1" inc = true ->
        Income.totalIncome inc' = Slip.totalAmount s'
        /\ Income.customerName inc' = Slip.customerName s'
        /\ Income.productsSold inc' = Income.Lines (Slip.products s')
        /\ (forall m, Slip.paymentMethod s' = Some m -> Income.paymentMethod inc' = m)
        /\ Income.linked "s1" "SLP-1" inc' = true
        /\ Income._id inc' = Income._id inc)
       /\ (Income.linked "s1" "SLP-1" inc = false -> inc' = inc))
    (incomes (books 5 None))
    (incomes (snd (updateSlip literal_i exEnv "s1" req (books 5 None)))).
Proof.
  cbv zeta.
  exact (edit_rewrites_income_mirror literal_i exEnv "s1"
           (mkUpdateReq None None None None (Some [line "Seat Cover" 3]) None (Some 300)
                        None None None)
           (books 5 None)
           (snd (updateSlip literal_i exEnv "s1"
                   (mkUpdateReq None None None None (Some [line "Seat Cover" 3]) None
                                (Some 300) None None None) (books 5 None)))
           (soldSlip None)
           (applyUpdate 1000
              (mkUpdateReq None None None None (Some [line "Seat Cover" 3]) None
                           (Some 300) None None None) (soldSlip None))
           [line "Seat Cover" 3] eq_refl eq_refl eq_refl eq_refl).
Defined.

(** The slip of two seat covers cancelled after the item was soft-deleted:
    the three in stock stay three. *)
Lemma cancellation_skips_unresolved_lines_witness :
  let st := {| items := snd (deleteItem 900 "i1" [seatCover 3]);
               slips := [soldSlip None];
               incomes := [entry "n1" (Some "s1") (Some "SLP-1") true] |} in
  fst (updateSlip literal_i exEnv "s1" (edit None (Some "Cancelled")) st)
  = Updated (applyUpdate 1000 (edit None (Some "Cancelled")) (soldSlip None))
  /\ map Item.quantity
       (items (snd (updateSlip literal_i exEnv "s1" (edit None (Some "Cancelled")) st)))
     = [3].
Proof.
  cbv zeta.
  destruct (cancellation_skips_unresolved_lines literal_i exEnv "s1"
              (edit None (Some "Cancelled"))
              {| items := snd (deleteItem 900 "i1" [seatCover 3]);
                 slips := [soldSlip None];
                 incomes := [entry "n1" (Some "s1") (Some "SLP-1") true] |}
              (soldSlip None) eq_refl eq_refl eq_refl eq_refl)
    as (Hr & _ & Hi & _).
  - repeat constructor.
  - split; [exact Hr | rewrite Hi; reflexivity].
Defined.

(** The slip of two seat covers edited to three, five being in stock. *)
Lemma edit_keeps_stock_nonNegative_witness :
  nonNegative
    (items (snd (updateSlip literal_i exEnv "s1" (edit (Some [line "Seat Cover" 3]) None)
                            (books 5 None)))).
Proof.
  apply (edit_keeps_stock_nonNegative literal_i exEnv "s1"
           (edit (Some [line "Seat Cover" 3]) None) (books 5 None) (soldSlip None)).
  - repeat constructor. simpl. tauto.
  - repeat constructor. simpl. lia.
  - reflexivity.
  - repeat constructor. simpl. lia.
  - intros ps Hps. inversion Hps. vm_compute. repeat constructor. simpl. tauto.
Defined.

(** Three "Aster Cover" at a base price of 100, sold at 120 each: the line
    is [manual] and its stored discount is (100 - 120) * 3. *)
Lemma stored_discount_follows_price_witness :
  let l := processProduct (coverLine "Seat cover" "Aster Cover" 3 (Some 100) (Some 120)) in
  0 < ReqProduct.quantity (coverLine "Seat cover" "Aster Cover" 3 (Some 100) (Some 120))
  /\ SlipProduct.unitPrice l = 120
  /\ SlipProduct.discountType l = DiscountType.manual
  /\ SlipProduct.discountAmount l < 0
  /\ SlipProduct.discountAmount l = -60.
Proof.
  cbv zeta.
  assert (Hq : 0 < ReqProduct.quantity
                     (coverLine "Seat cover" "Aster Cover" 3 (Some 100) (Some 120)))
    by (simpl; lia).
  destruct (stored_discount_follows_price
              (coverLine "Seat cover" "Aster Cover" 3 (Some 100) (Some 120)) _
              (or_introl eq_refl) Hq)
    as (_ & _ & Hm).
  destruct (Hm 120 eq_refl) as (Hu & Ht & Hd); [vm_compute; reflexivity |].
  split; [exact Hq |]. split; [exact Hu |]. split; [exact Ht |].
  split; [exact Hd | reflexivity].
Defined.

(** Ten "Aster Cover" sent with a unit price of 100 and no base price. *)
Lemma unit_price_alone_disables_bulk_witness :
  let l := processProduct (coverLine "Seat cover" "Aster Cover" 10 None (Some 100)) in
  SlipProduct.unitPrice l = 100
  /\ SlipProduct.discountAmount l = 0
  /\ SlipProduct.discountType l = DiscountType.manual.
Proof.
  cbv zeta.
  destruct (unit_price_alone_disables_bulk
              (coverLine "Seat cover" "Aster Cover" 10 None (Some 100)) 100
              (or_introl eq_refl) eq_refl)
    as (_ & Hu & Hd & _ & Hm & _).
  - discriminate.
  - split; [exact Hu |]. split; [exact Hd |]. apply Hm.
    unfold eligible. simpl. repeat split; [auto | lia].
Defined.

(** The slip of two seat covers, read after it was deleted. *)
Lemma slip_read_follows_write_witness :
  getSlip "s1" (snd (deleteSlip "s1" (books 5 None))) = Return 404 "Slip not found".
Proof.
  refine (proj2 (proj2 (slip_read_follows_write literal_i exEnv "s1" (order [])
                          (edit None None) (books 5 None) (books 5 None) (soldSlip None)))
                _ eq_refl).
  repeat constructor. simpl. tauto.
Defined.

(** Four seat covers taken by hand out of five. *)
Lemma patchStock_keeps_stock_nonNegative_witness :
  nonNegative (snd (patchStock 900 "i1" (Some 4) (Some "subtract") [seatCover 5])).
Proof.
  apply (patchStock_keeps_stock_nonNegative 900 "i1" (Some 4) (Some "subtract")
           [seatCover 5]).
  repeat constructor. simpl. lia.
Defined.

(** Six seat covers asked of five. *)
Lemma patchStock_subtract_witness :
  patchStock 900 "i1" (Some 6) (Some "subtract") [seatCover 5]
  = (ItemReject 400 "Insufficient stock", [seatCover 5]).
Proof.
  apply (patchStock_subtract 900 "i1" 6 [seatCover 5] (seatCover 5) eq_refl).
  - lia.
  - simpl. lia.
Defined.

(** Four seat covers added to five and taken again. *)
Lemma patchStock_add_then_subtract_witness :
  exists item1 item2 db1 db2,
    patchStock 900 "i1" (Some 4) (Some "add") [seatCover 5] = (StockUpdated item1, db1)
    /\ patchStock 901 "i1" (Some 4) (Some "subtract") db1 = (StockUpdated item2, db2)
    /\ Item.quantity item2 = 5
    /\ map Item.quantity db2 = [5]
    /\ kview db2 = kview [seatCover 5].
Proof.
  apply (patchStock_add_then_subtract 900 901 "i1" 4 [seatCover 5] (seatCover 5) eq_refl).
  - simpl. lia.
  - lia.
Defined.

(** The seat cover soft-deleted: no product name finds it. *)
Lemma deleted_item_is_out_of_reach_witness :
  getItem "i1" (snd (deleteItem 900 "i1" [seatCover 5]))
  = ItemReject 404 "Item has been deleted"
  /\ lookup literal_i (Some "Seat Cover") (snd (deleteItem 900 "i1" [seatCover 5]))
     = Next None.
Proof.
  destruct (deleted_item_is_out_of_reach literal_i 900 "i1" [seatCover 5]
              (snd (deleteItem 900 "i1" [seatCover 5])))
    as (_ & Hget & _ & Hlook).
  - repeat constructor. simpl. tauto.
  - reflexivity.
  - split; [exact Hget |]. rewrite Hlook. reflexivity.
Defined.

(** The stock of the seat cover set to eight. *)
Lemma patchStock_set_then_get_witness :
  exists item' db',
    patchStock 900 "i1" (Some 8) None [seatCover 5] = (StockUpdated item', db')
    /\ Item.quantityOf "i1" db' = 8
    /\ getItem "i1" db' = ItemJson item'.
Proof.
  destruct (patchStock_set_then_get 900 "i1" 8 [seatCover 5] (seatCover 5) eq_refl)
    as (item' & db' & Hrun & _ & Hq & Hactive & _).
  - lia.
  - exists item', db'. split; [exact Hrun |]. split; [exact Hq |]. now apply Hactive.
Defined.


(** The SKU that is looked for is not the SKU that is stored.  "CV-1" is
    the SKU of an active item; a request whose SKU is " cv-1", with a space
    before it, passes the check, which looks for " CV-1", and the item it
    builds has the SKU "CV-1". *)
Lemma padded_sku_passes_the_check :
  let req := ItemReq.mk (Some "Seat cover XL") (Some " cv-1") (Some "Cover")
                        (Some "Aster Cover") None None None None None None
                        None None None (Some 4) (Some 250) None None None None None None in
  Item.sku (seatCover 5) = "CV-1"
  /\ Item.isActive (seatCover 5) = true
  /\ exists item,
       postItem trimSpaces uppercase req [seatCover 5] = Next item
       /\ NewItem.sku item = "CV-1".
Proof. cbv zeta. split; [reflexivity |]. split; [reflexivity |]. eexists. split; reflexivity. Qed.

(** A request with a cover type and no product type. *)
Lemma item_without_type_is_cover_without_cover_type_witness :
  let req := ItemReq.mk (Some "Seat cover XL") (Some "CV-2") None (Some "Aster Cover")
                        None None None None None None None None None (Some 4) (Some 250)
                        None None None None None None in
  exists item,
    postItem (fun s => s) (fun s => s) req [seatCover 5] = Next item
    /\ NewItem.productType item = "Cover"
    /\ NewItem.coverType item = "".
Proof.
  cbv zeta.
  destruct (item_without_type_is_cover_without_cover_type (fun s => s) (fun s => s)
              (ItemReq.mk (Some "Seat cover XL") (Some "CV-2") None (Some "Aster Cover")
                          None None None None None None None None None (Some 4) (Some 250)
                          None None None None None None)
              [seatCover 5] eq_refl eq_refl eq_refl eq_refl eq_refl)
    as (item & Hrun & Ht & Hc & _).
  - intros k it Hk [Hit | []] _. inversion Hk; subst. discriminate.
  - exists item. split; [exact Hrun |]. split; [exact Ht | exact Hc].
Defined.

(** Two slips of one month: the entry of the month holds both. *)
Lemma history_buckets_hold_their_slips_witness :
  In ("2024-05", mayEntry)
     (bucketsOf (fun _ => "2024-05") (fun _ => "May 2024")
                [soldSlip None; soldSlip None])
  /\ Bucket.slips mayEntry = [soldSlip None; soldSlip None]
  /\ Bucket.totalAmount mayEntry = historyTotalAmount (Bucket.slips mayEntry).
Proof.
  assert (Hin : In ("2024-05", mayEntry)
                   (bucketsOf (fun _ => "2024-05") (fun _ => "May 2024")
                              [soldSlip None; soldSlip None]))
    by (left; reflexivity).
  destruct (proj2 (history_buckets_hold_their_slips (fun _ => "2024-05")
                     (fun _ => "May 2024") [soldSlip None; soldSlip None]) _ _ Hin)
    as (Hs & _ & Ha & _).
  split; [exact Hin |]. split; [exact Hs | exact Ha].
Defined.

(** The slip of two seat covers cancelled: no customer history has it. *)
Lemma cancelled_slip_leaves_history_witness :
  filter (inHistory (fun _ => true) (fun _ => true))
         (slips (snd (updateSlip literal_i exEnv "s1" (edit None (Some "Cancelled"))
                                 (books 5 None))))
  = [].
Proof.
  rewrite (cancelled_slip_leaves_history literal_i exEnv "s1" (edit None (Some "Cancelled"))
             (books 5 None)
             (snd (updateSlip literal_i exEnv "s1" (edit None (Some "Cancelled"))
                              (books 5 None)))
             (applyUpdate 1000 (edit None (Some "Cancelled")) (soldSlip None))
             (fun _ => true) (fun _ => true)).
  - reflexivity.
  - repeat constructor. simpl. tauto.
  - reflexivity.
  - reflexivity.
Defined.
